(** * PROMETHEUS process simulation and scoring engine

    A shallow embedding of the calculation code of the dashboard components
    (waste stream simulator, process optimizer, system dashboard).

    JavaScript numbers are IEEE 754 binary64 values: they are modelled by
    Rocq's primitive floats, whose operations are the binary64 operations with
    round-to-nearest-even, so every definition below evaluates to the very
    value the JavaScript engine computes.  JavaScript objects are modelled as
    association lists in property insertion order (the order [Object.entries]
    and [forEach] follow).

    Each component computes Numbers and stores their [toFixed] renderings in
    its state.  The computation of the Numbers is given the name the
    specification uses for it ([simulateDecomposition], [optimize],
    [project], [evaluateAlerts]); the component function ([runSimulation],
    [runOptimization], [updateMetrics]) renders its results.  The builtin
    [Number.prototype.toFixed] itself is a parameter of those functions.

    The calculations of the application shell ([calculateResults]) and of
    the performance utilities (the calculations by waste type, the
    performance monitor, the memory manager) follow the components; there
    [Math.ceil], [Math.round] and [String.prototype.toLowerCase] are
    parameters as well, and the readings of the clock are inputs. *)

From Stdlib Require Import ZArith Bool List String Floats Lia Permutation.
Import ListNotations.

Set Warnings "-inexact-float".

Open Scope float_scope.

(** ** JavaScript values and builtins *)

Module JS.

(** A Number. *)
Definition number := float.

(** ToBoolean on a Number: [NaN], [+0] and [-0] are falsy. *)
Definition truthy (x : number) : bool := negb (is_nan x || is_zero x).

(** [x || d] on Numbers. *)
Definition or_else (x d : number) : number := if truthy x then x else d.

(** ToNumber of a property read: a missing property reads [undefined],
    which arithmetic turns into [NaN]. *)
Definition to_number (v : option number) : number :=
  match v with Some x => x | None => nan end.

(** [Math.min(a, b)]: [NaN] if either is [NaN]; [-0] is below [+0]. *)
Definition Math_min (a b : number) : number :=
  if is_nan a || is_nan b then nan
  else if a <? b then a
  else if b <? a then b
  else if get_sign a then a else b.

(** [Math.max(a, b)]: [NaN] if either is [NaN]; [+0] is above [-0]. *)
Definition Math_max (a b : number) : number :=
  if is_nan a || is_nan b then nan
  else if a <? b then b
  else if b <? a then a
  else if get_sign a then b else a.

(** [x.toFixed(digits)]: a renderer of Numbers with a fixed number of
    decimals. *)
Definition renderer := nat -> number -> string.

(** An object with Number-valued (or other) properties, as the list of its
    own enumerable string-keyed properties in insertion order. *)
Definition object (A : Type) := list (string * A).

Section Objects.
Context {A : Type}.

(** [o[k]] *)
Fixpoint get (k : string) (o : object A) : option A :=
  match o with
  | [] => None
  | (k', v) :: r => if String.eqb k k' then Some v else get k r
  end.

(** [o[k] = v]: an existing property keeps its position, a new one is
    added last.  (Keys that are array indices, which JavaScript enumerates
    first, do not occur here: the keys are category names.) *)
Fixpoint set (k : string) (v : A) (o : object A) : object A :=
  match o with
  | [] => [(k, v)]
  | (k', v') :: r =>
      if String.eqb k k' then (k, v) :: r else (k', v') :: set k v r
  end.

(** [{...prev, [k]: v}]: a copy of [prev] with the property assigned. *)
Definition spread_with (prev : object A) (k : string) (v : A) : object A :=
  set k v prev.

Definition Object_keys (o : object A) : list string := map fst o.
Definition Object_values (o : object A) : list A := map snd o.
Definition Object_entries (o : object A) : list (string * A) := o.
End Objects.

End JS.

(** ** Waste stream simulator *)

Module WasteStreamSimulator.
Import JS.

(** The five waste categories, as the property names of the state object. *)
Definition categories : list string :=
  ["polymers"; "packaging"; "structuralResidues"; "organics"; "metals"]%string.

(** Initial [wasteComposition] state. *)
Definition initialComposition : object number :=
  [("polymers", 35); ("packaging", 25); ("structuralResidues", 20);
   ("organics", 15); ("metals", 5)]%string.

(** Plasma decomposition efficiency by waste type. *)
Definition decompositionRates : object number :=
  [("polymers", 0.85); ("packaging", 0.78); ("structuralResidues", 0.65);
   ("organics", 0.92); ("metals", 0.45)]%string.

(** Energy requirements (kWh per kg). *)
Definition energyRequirements : object number :=
  [("polymers", 2.3); ("packaging", 1.8); ("structuralResidues", 3.1);
   ("organics", 1.2); ("metals", 4.5)]%string.

(** The four accumulators of [runSimulation]. *)
Record totals := {
  totalEnergyNeeds : number;
  totalMethaneOutput : number;
  totalCarbonProduction : number;
  totalHydrogenOutput : number
}.

Definition totals0 : totals :=
  {| totalEnergyNeeds := 0; totalMethaneOutput := 0;
     totalCarbonProduction := 0; totalHydrogenOutput := 0 |}.

(** Body of the [forEach] callback: one entry [[type, percentage]]. *)
Definition accumulate (t : totals) (entry : string * number) : totals :=
  let '(type, percentage) := entry in
  let wasteAmount := (percentage / 100) * 100 in
  let decomposed := wasteAmount * to_number (get type decompositionRates) in
  {| totalEnergyNeeds :=
       totalEnergyNeeds t + wasteAmount * to_number (get type energyRequirements);
     totalMethaneOutput := totalMethaneOutput t + decomposed * 0.4;
     totalCarbonProduction := totalCarbonProduction t + decomposed * 0.3;
     totalHydrogenOutput := totalHydrogenOutput t + decomposed * 0.15 |}.

(** The Numbers one simulation computes. *)
Record SimulationResult := {
  energyNeeds : number;
  methaneOutput : number;
  carbonProduction : number;
  hydrogenOutput : number;
  sustainabilityScore : number;
  cycleEfficiency : number
}.

(** The calculation of the timeout callback of [runSimulation], up to the
    call of [setSimulation]. *)
Definition simulateDecomposition (wasteComposition : object number) : SimulationResult :=
  let t := fold_left accumulate (Object_entries wasteComposition) totals0 in
  let cycleEfficiency :=
    (totalMethaneOutput t * 50 + totalHydrogenOutput t * 120) / totalEnergyNeeds t in
  let sustainabilityScore := Math_min 100 (cycleEfficiency * 1.2) in
  {| energyNeeds := totalEnergyNeeds t;
     methaneOutput := totalMethaneOutput t;
     carbonProduction := totalCarbonProduction t;
     hydrogenOutput := totalHydrogenOutput t;
     sustainabilityScore := sustainabilityScore;
     cycleEfficiency := cycleEfficiency |}.

(** The [simulation] state: the renderings of the Numbers. *)
Module State.
Record simulation := {
  energyNeeds : string;
  methaneOutput : string;
  carbonProduction : string;
  hydrogenOutput : string;
  sustainabilityScore : string;
  cycleEfficiency : string
}.
End State.

(** [runSimulation]: the state passed to [setSimulation]. *)
Definition runSimulation (toFixed : renderer) (wasteComposition : object number)
    : State.simulation :=
  let r := simulateDecomposition wasteComposition in
  {| State.energyNeeds := toFixed 1%nat (energyNeeds r);
     State.methaneOutput := toFixed 1%nat (methaneOutput r);
     State.carbonProduction := toFixed 1%nat (carbonProduction r);
     State.hydrogenOutput := toFixed 1%nat (hydrogenOutput r);
     State.sustainabilityScore := toFixed 0%nat (sustainabilityScore r);
     State.cycleEfficiency := toFixed 1%nat (cycleEfficiency r) |}.

(** [totalPercentage]: the sum shown under the inputs, flagged when it
    exceeds 100. *)
Definition totalPercentage (wasteComposition : object number) : number :=
  fold_left (fun sum val => sum + val) (Object_values wasteComposition) 0.

Definition exceeds100 (wasteComposition : object number) : bool :=
  100 <? totalPercentage wasteComposition.

(** [handleWasteChange(type, value)]: the new [wasteComposition] state.
    [parsed] is the Number [parseFloat(value)] returns, [NaN] when the text
    is not numeric. *)
Definition handleWasteChange (type : string) (parsed : number)
    (prev : object number) : object number :=
  spread_with prev type (Math_max 0 (Math_min 100 (or_else parsed 0))).

(** The all-zero composition. *)
Definition zeroComposition : object number :=
  [("polymers", 0); ("packaging", 0); ("structuralResidues", 0);
   ("organics", 0); ("metals", 0)]%string.

End WasteStreamSimulator.


(** ** Randomness

    [Math.random()] is modelled by explicit state passing: the generator state
    is the sequence of Numbers the next calls will return. *)

Module Random.
Import JS.

Definition rng := nat -> number.

(** One call of [Math.random()]: the value drawn and the generator after it. *)
Definition Math_random (g : rng) : number * rng :=
  (g 0%nat, fun n => g (S n)).

End Random.

(** ** AI process optimizer *)

Module AIProcessOptimizer.
Import JS Random.

(** The [parameters] state. *)
Record parameters := {
  temperature : number;
  flowRate : number;
  catalystEfficiency : number;
  energyInput : number;
  pressure : number
}.

Definition initialParameters : parameters :=
  {| temperature := 1200; flowRate := 85; catalystEfficiency := 92;
     energyInput := 150; pressure := 2.5 |}.

(** The four prediction messages. *)
Definition HighTempWarning : string :=
  "WARNING: High temperature detected. Catalyst fouling likely in 12-15 hours.".
Definition LowCatalystAlert : string :=
  "ALERT: Catalyst efficiency below optimal. Recommend maintenance cycle.".
Definition Optimal : string :=
  "OPTIMAL: System operating at peak efficiency. Methane production maximized.".
Definition Suboptimal : string :=
  "SUBOPTIMAL: Adjusting parameters for improved yield. Efficiency can be increased by 15%.".

(** The Numbers and the messages one optimization computes. *)
Record OptimizationResult := {
  methaneYield : number;
  powerConsumption : number;
  efficiency : number;
  prediction : string;
  status : string
}.

(** The [optimization] state: the renderings of the Numbers, and the
    messages. *)
Module State.
Record optimization := {
  methaneYield : string;
  powerConsumption : string;
  efficiency : string;
  prediction : string;
  status : string
}.
End State.

(** The three "optimal target" locals of [runOptimization]. *)
Record targets := {
  tempOptimal : number;
  flowOptimal : number;
  catalystOptimal : number
}.

(** Simulate reinforcement learning calculations: three draws. *)
Definition drawTargets (g : rng) : targets * rng :=
  let '(r1, g1) := Math_random g in
  let '(r2, g2) := Math_random g1 in
  let '(r3, g3) := Math_random g2 in
  ({| tempOptimal := 1150 + r1 * 100;
      flowOptimal := 80 + r2 * 20;
      catalystOptimal := 88 + r3 * 12 |}, g3).

(** The calculation of the timeout callback of [runOptimization], up to the
    call of [setOptimization], and the generator after the three draws. *)
Definition optimize (g : rng) (parameters : parameters) : OptimizationResult * rng :=
  let '(_, g') := drawTargets g in
  let methaneYield :=
    (temperature parameters / 1200) *
    (flowRate parameters / 100) *
    (catalystEfficiency parameters / 100) * 85 in
  let powerConsumption :=
    energyInput parameters * (1 - (catalystEfficiency parameters / 100) * 0.3) in
  let efficiency := (methaneYield / powerConsumption) * 100 in
  let prediction :=
    if 1300 <? temperature parameters then HighTempWarning
    else if catalystEfficiency parameters <? 85 then LowCatalystAlert
    else if 75 <? efficiency then Optimal
    else Suboptimal in
  ({| methaneYield := methaneYield;
      powerConsumption := powerConsumption;
      efficiency := efficiency;
      prediction := prediction;
      status := "Optimization Complete" |}, g').

(** [runOptimization]: the state passed to [setOptimization], and the
    generator after the run. *)
Definition runOptimization (toFixed : renderer) (g : rng) (parameters : parameters)
    : State.optimization * rng :=
  let '(r, g') := optimize g parameters in
  ({| State.methaneYield := toFixed 2%nat (methaneYield r);
      State.powerConsumption := toFixed 1%nat (powerConsumption r);
      State.efficiency := toFixed 1%nat (efficiency r);
      State.prediction := prediction r;
      State.status := status r |}, g').

(** [handleParameterChange(param, value)]: the new [parameters] state.
    [parsed] is the Number [parseFloat(value)] returns; the property named
    [param] receives [parsed || 0] (a name other than the five adds a
    property that nothing reads). *)
Definition handleParameterChange (param : string) (parsed : number)
    (prev : parameters) : parameters :=
  let v := or_else parsed 0 in
  if String.eqb param "temperature" then
    {| temperature := v; flowRate := flowRate prev;
       catalystEfficiency := catalystEfficiency prev;
       energyInput := energyInput prev; pressure := pressure prev |}
  else if String.eqb param "flowRate" then
    {| temperature := temperature prev; flowRate := v;
       catalystEfficiency := catalystEfficiency prev;
       energyInput := energyInput prev; pressure := pressure prev |}
  else if String.eqb param "catalystEfficiency" then
    {| temperature := temperature prev; flowRate := flowRate prev;
       catalystEfficiency := v;
       energyInput := energyInput prev; pressure := pressure prev |}
  else if String.eqb param "energyInput" then
    {| temperature := temperature prev; flowRate := flowRate prev;
       catalystEfficiency := catalystEfficiency prev;
       energyInput := v; pressure := pressure prev |}
  else if String.eqb param "pressure" then
    {| temperature := temperature prev; flowRate := flowRate prev;
       catalystEfficiency := catalystEfficiency prev;
       energyInput := energyInput prev; pressure := v |}
  else prev.

(** The parameters after the operator types 0 as the energy input. *)
Definition zeroEnergyParameters : parameters :=
  handleParameterChange "energyInput" 0 initialParameters.

End AIProcessOptimizer.

(** ** System dashboard *)

Module SystemDashboard.
Import JS Random.

(** The readings [updateMetrics] derives from the clock ([Date.now()] through
    [Math.sin], neither of which is modelled): they are its inputs here. *)
Record sample := {
  baseWaste : number;
  baseMethane : number;
  basePower : number;
  sampleEfficiency : number
}.

(** The [metrics] state: renderings, and the constant uptime. *)
Record metrics := {
  wasteProcessed : string;
  methaneStored : string;
  powerUsed : string;
  co2Offset : string;
  systemEfficiency : string;
  uptime : number
}.

(** The Numbers projected for one year. *)
Record yearProjection := {
  waste : number;
  methane : number;
  power : number;
  efficiency : number
}.

Record projections := {
  year1 : yearProjection;
  year2 : yearProjection;
  year3 : yearProjection
}.

Record maintenanceItem := {
  task : string;
  timeRemaining : string;
  priority : string;
  duration : string
}.

(** Base calculations for 4 crew. *)
Definition scalingFactor (crewSize : number) : number := crewSize / 4.

(** The Numbers of the object passed to [setProjections], for a given crew
    size. *)
Definition project (crewSize : number) (s : sample) : projections :=
  let scalingFactor := scalingFactor crewSize in
  {| year1 :=
       {| waste := baseWaste s * 365 * scalingFactor / 1000;
          methane := baseMethane s * 365 * scalingFactor / 1000;
          power := basePower s * 365 * scalingFactor / 1000;
          efficiency := sampleEfficiency s * 0.95 |};
     year2 :=
       {| waste := baseWaste s * 365 * scalingFactor * 1.1 / 1000;
          methane := baseMethane s * 365 * scalingFactor * 1.15 / 1000;
          power := basePower s * 365 * scalingFactor * 0.9 / 1000;
          efficiency := sampleEfficiency s * 0.98 |};
     year3 :=
       {| waste := baseWaste s * 365 * scalingFactor * 1.2 / 1000;
          methane := baseMethane s * 365 * scalingFactor * 1.25 / 1000;
          power := basePower s * 365 * scalingFactor * 0.85 / 1000;
          efficiency := sampleEfficiency s * 1.02 |} |}.

(** Mars mission crew: the crew size [updateMetrics] uses. *)
Definition crewSize : number := 6.

Definition maintenanceItems : list maintenanceItem :=
  [ {| task := "Plasma chamber cleaning"; timeRemaining := "18 days";
       priority := "medium"; duration := "2 hours" |};
    {| task := "Catalyst replacement"; timeRemaining := "45 days";
       priority := "high"; duration := "4 hours" |};
    {| task := "Flow sensor calibration"; timeRemaining := "8 days";
       priority := "low"; duration := "1 hour" |};
    {| task := "Pressure vessel inspection"; timeRemaining := "72 days";
       priority := "high"; duration := "3 hours" |} ].

(** The three alert messages. *)
Definition efficiencyAlert : string :=
  "System efficiency below optimal threshold. Check catalyst status.".
Definition powerAlert : string :=
  "Power consumption elevated. Consider load balancing.".
Definition sensorDriftAlert : string :=
  "Predictive maintenance: Flow rate sensor drift detected.".

(** [currentAlerts.push(x)] under a condition. *)
Definition push_if (c : bool) (x : string) (l : list string) : list string :=
  if c then l ++ [x] else l.

(** Generate alerts based on system status: the [currentAlerts] array of
    [updateMetrics] and the generator after the draw. *)
Definition evaluateAlerts (g : rng) (efficiency basePower : number)
    : list string * rng :=
  let currentAlerts := [] in
  let currentAlerts := push_if (efficiency <? 70) efficiencyAlert currentAlerts in
  let currentAlerts := push_if (200 <? basePower) powerAlert currentAlerts in
  let '(r, g') := Math_random g in
  let currentAlerts := push_if (0.8 <? r) sensorDriftAlert currentAlerts in
  (currentAlerts, g').

(** The [projections] state: the renderings of the projected Numbers. *)
Module State.
Record yearProjection := {
  waste : string;
  methane : string;
  power : string;
  efficiency : string
}.
Record projections := {
  year1 : yearProjection;
  year2 : yearProjection;
  year3 : yearProjection
}.
End State.

Definition renderYear (toFixed : renderer) (y : yearProjection) : State.yearProjection :=
  {| State.waste := toFixed 1%nat (waste y);
     State.methane := toFixed 1%nat (methane y);
     State.power := toFixed 1%nat (power y);
     State.efficiency := toFixed 1%nat (efficiency y) |}.

(** The state after one [updateMetrics] pass. *)
Record dashboard := {
  dashMetrics : metrics;
  dashProjections : State.projections;
  dashMaintenance : list maintenanceItem;
  dashAlerts : list string
}.

(** [updateMetrics], from the readings of the clock on. *)
Definition updateMetrics (toFixed : renderer) (g : rng) (s : sample) : dashboard * rng :=
  let p := project crewSize s in
  let '(alerts, g') := evaluateAlerts g (sampleEfficiency s) (basePower s) in
  ({| dashMetrics :=
        {| wasteProcessed := toFixed 1%nat (baseWaste s);
           methaneStored := toFixed 1%nat (baseMethane s);
           powerUsed := toFixed 1%nat (basePower s);
           co2Offset := toFixed 1%nat (baseWaste s * 2.3);
           systemEfficiency := toFixed 1%nat (sampleEfficiency s);
           uptime := 98.7 |};
      dashProjections :=
        {| State.year1 := renderYear toFixed (year1 p);
           State.year2 := renderYear toFixed (year2 p);
           State.year3 := renderYear toFixed (year3 p) |};
      dashMaintenance := maintenanceItems;
      dashAlerts := alerts |}, g').

End SystemDashboard.

(** ** The reference algorithms, in the words of the specification *)

Module Reference.
Import JS.

(** [clamp(x, lo, hi)]. *)
Definition clamp (x lo hi : number) : number := Math_max lo (Math_min hi x).

Definition totalMass : number := 100.

(** Step 1: [categoryMass = (percentage / 100) * totalMass]. *)
Definition categoryMass (percentage : number) : number :=
  (percentage / 100) * totalMass.

(** Step 2: [decomposed = categoryMass * decompositionRate[category]]. *)
Definition decomposed (entry : string * number) : number :=
  categoryMass (snd entry)
  * to_number (get (fst entry) WasteStreamSimulator.decompositionRates).

(** The energy one category needs. *)
Definition categoryEnergy (entry : string * number) : number :=
  categoryMass (snd entry)
  * to_number (get (fst entry) WasteStreamSimulator.energyRequirements).

(** Step 3: a quantity accumulated over the categories, starting from 0. *)
Definition accumulated (f : string * number -> number)
    (composition : object number) : number :=
  fold_left (fun acc entry => acc + f entry) composition 0.

Definition energyNeeds (c : object number) : number := accumulated categoryEnergy c.
Definition methane (c : object number) : number :=
  accumulated (fun e => decomposed e * 0.40) c.
Definition carbon (c : object number) : number :=
  accumulated (fun e => decomposed e * 0.30) c.
Definition hydrogen (c : object number) : number :=
  accumulated (fun e => decomposed e * 0.15) c.

(** Step 4, without its guard. *)
Definition cycleEfficiency (c : object number) : number :=
  (methane c * 50 + hydrogen c * 120) / energyNeeds c.

(** The optimizer's efficiency with the guard of section 4.3: 0 when the
    power consumption is 0. *)
Definition guardedEfficiency (methaneYield powerConsumption : number) : number :=
  if powerConsumption =? 0 then 0
  else (methaneYield / powerConsumption) * 100.

(** The diagnostic classification as an ordered list of (predicate, outcome)
    rules, the first matching rule winning. *)
Definition rule := ((AIProcessOptimizer.parameters -> number -> bool) * string)%type.

Definition rules : list rule :=
  [ (fun p _ => 1300 <? AIProcessOptimizer.temperature p,
     AIProcessOptimizer.HighTempWarning);
    (fun p _ => AIProcessOptimizer.catalystEfficiency p <? 85,
     AIProcessOptimizer.LowCatalystAlert);
    (fun _ efficiency => 75 <? efficiency,
     AIProcessOptimizer.Optimal) ].

Fixpoint firstMatch (rs : list rule) (p : AIProcessOptimizer.parameters)
    (efficiency : number) (default : string) : string :=
  match rs with
  | [] => default
  | (applies, outcome) :: rest =>
      if applies p efficiency then outcome
      else firstMatch rest p efficiency default
  end.

Definition classify (p : AIProcessOptimizer.parameters) (efficiency : number) : string :=
  firstMatch rules p efficiency AIProcessOptimizer.Suboptimal.

End Reference.

(** ** Binary64 representations

    The specification of the primitive operations goes through [Prim2SF],
    the sign, mantissa and exponent of a float. *)

Module Binary64.

(** Not [NaN] and not negative: [-0] counts, as [0 <= -0] holds. *)
Definition SFnonneg (x : spec_float) : bool :=
  match x with
  | S754_zero _ => true
  | S754_infinity s | S754_finite s _ _ => negb s
  | S754_nan => false
  end.

(** Not [NaN], sign bit clear. *)
Definition SFplus (x : spec_float) : bool :=
  match x with
  | S754_zero s | S754_infinity s | S754_finite s _ _ => negb s
  | S754_nan => false
  end.

Definition SFis_nan (x : spec_float) : bool :=
  match x with S754_nan => true | _ => false end.

Definition SFis_zero (x : spec_float) : bool :=
  match x with S754_zero _ => true | _ => false end.

(** Infinite or [NaN]. *)
Definition SFnot_finite (x : spec_float) : bool :=
  match x with S754_infinity _ | S754_nan => true | _ => false end.

(** A positive finite constant. *)
Definition pos_finite (c : float) : bool :=
  match Prim2SF c with S754_finite false _ _ => true | _ => false end.


(** Zero, or finite with exponent at most [k]: of magnitude below
    [2^(k + 53)]. *)
Definition SFexp_le (k : Z) (x : spec_float) : bool :=
  match x with
  | S754_zero _ => true
  | S754_finite _ _ e => (e <=? k)%Z
  | _ => false
  end.

Definition exp_le (k : Z) (x : float) : Prop := SFexp_le k (Prim2SF x) = true.

(** A positive finite constant below [2^7]. *)
Definition small_const (c : float) : bool :=
  match Prim2SF c with S754_finite false _ e => (e <=? -46)%Z | _ => false end.

(** [m * 2^52]. *)
Definition pow52 (m : positive) : positive :=
  Eval cbv in (Pos.iter xO m 52).

End Binary64.

(** ** Predicates on compositions and baselines *)

Module Domain.
Import JS.

(** A percentage in [[0, 100]]. *)
Definition percentage (x : number) : Prop :=
  (0 <=? x) = true /\ (x <=? 100) = true.

(** A valid composition: the five categories, each once and in any order,
    each with a percentage in [[0, 100]]. *)
Definition validComposition (c : object number) : Prop :=
  Permutation (Object_keys c) WasteStreamSimulator.categories
  /\ Forall percentage (Object_values c).


(** The compositions the component can hold: the initial state, changed by
    [handleWasteChange] on one of the five inputs, with whatever Number
    [parseFloat] made of the text typed. *)
Inductive reachable : object number -> Prop :=
| reachable_initial : reachable WasteStreamSimulator.initialComposition
| reachable_change (c : object number) (type : string) (parsed : number) :
    reachable c -> In type WasteStreamSimulator.categories ->
    reachable (WasteStreamSimulator.handleWasteChange type parsed c).

(** The accumulators of the simulation are numbers with their sign bit
    clear. *)
Definition totals_plus (t : WasteStreamSimulator.totals) : Prop :=
  Binary64.SFplus (Prim2SF (WasteStreamSimulator.totalEnergyNeeds t)) = true
  /\ Binary64.SFplus (Prim2SF (WasteStreamSimulator.totalMethaneOutput t)) = true
  /\ Binary64.SFplus (Prim2SF (WasteStreamSimulator.totalCarbonProduction t)) = true
  /\ Binary64.SFplus (Prim2SF (WasteStreamSimulator.totalHydrogenOutput t)) = true.

(** The accumulators of the simulation are finite, with exponent at most
    [k]. *)
Definition totals_le (k : Z) (t : WasteStreamSimulator.totals) : Prop :=
  Binary64.exp_le k (WasteStreamSimulator.totalEnergyNeeds t)
  /\ Binary64.exp_le k (WasteStreamSimulator.totalMethaneOutput t)
  /\ Binary64.exp_le k (WasteStreamSimulator.totalCarbonProduction t)
  /\ Binary64.exp_le k (WasteStreamSimulator.totalHydrogenOutput t).

End Domain.

(** ** Property reads with a fallback

    The calculators of the application shell and of the performance
    utilities look a rate up by the waste type and fall back on a default
    with [||].  The read [o[k]] of an object literal does not only see the
    properties written in the literal. *)

Module Prototype.
Import JS.

(** The property names every object literal inherits from
    [Object.prototype]: such a read yields a function (the prototype object
    for [__proto__]), which is truthy and which arithmetic turns into
    [NaN]. *)
Definition inheritedNames : list string :=
  ["constructor"; "__proto__"; "hasOwnProperty"; "isPrototypeOf";
   "propertyIsEnumerable"; "toLocaleString"; "toString"; "valueOf";
   "__defineGetter__"; "__defineSetter__"; "__lookupGetter__";
   "__lookupSetter__"]%string.

Definition inherited (k : string) : bool :=
  existsb (String.eqb k) inheritedNames.

(** The outcome of the read [o[k]]. *)
Inductive lookup (A : Type) : Type :=
| Own (v : A)
| Inherited (k : string)
| Undefined.

Arguments Own {A} v.
Arguments Inherited {A} k.
Arguments Undefined {A}.

Definition read {A : Type} (k : string) (o : object A) : lookup A :=
  match get k o with
  | Some v => Own v
  | None => if inherited k then Inherited k else Undefined
  end.

(** [(o[k] || d)] as an operand of arithmetic. *)
Definition number_or (k : string) (o : object number) (d : number) : number :=
  match read k o with
  | Own v => or_else v d
  | Inherited _ => nan
  | Undefined => d
  end.

(** A value of the expected type, or the member of [Object.prototype] of
    the given name. *)
Inductive value (A : Type) : Type :=
| Val (v : A)
| Member (k : string).

Arguments Val {A} v.
Arguments Member {A} k.

(** [o[k] || d] kept as it is. *)
Definition value_or {A : Type} (truthyA : A -> bool) (k : string)
    (o : object A) (d : A) : value A :=
  match read k o with
  | Own v => Val (if truthyA v then v else d)
  | Inherited k' => Member k'
  | Undefined => Val d
  end.

End Prototype.

(** ** Application shell: the results of a processing run *)

Module App.
Import JS Prototype.

(** The [wasteData] state. *)
Record wasteData := {
  type : string;
  mass : number;
  moisture : number;
  contamination : number
}.

Definition initialWasteData : wasteData :=
  {| type := EmptyString; mass := 0; moisture := 50; contamination := 10 |}.

Definition baseEnergy : object number :=
  [("organic", 1.2); ("plastic", 2.3); ("metal", 0.9); ("fabric", 1.4)]%string.

Record byproductAmounts := {
  methane : number;
  hydrogen : number;
  carbonSolids : number;
  recoveredMaterials : number
}.

(** The Numbers [calculateResults] computes; [Math.ceil] is a parameter. *)
Record results := {
  energyRequired : number;
  energyProduced : number;
  efficiency : number;
  processingTime : number;
  byproducts : byproductAmounts
}.

Definition calculate (Math_ceil : number -> number) (data : wasteData) : results :=
  let energyRequired := mass data * 0.8 in
  let energyProduced :=
    mass data * number_or (type data) baseEnergy 1.0 * (1 - moisture data / 100) in
  let efficiency :=
    Math_min 95 (Math_max 60 ((energyProduced / energyRequired) * 100)) in
  {| energyRequired := energyRequired;
     energyProduced := energyProduced;
     efficiency := efficiency;
     processingTime := Math_ceil (mass data * 2.5);
     byproducts :=
       {| methane := mass data * 0.3;
          hydrogen := mass data * 0.15;
          carbonSolids := mass data * 0.25;
          recoveredMaterials := mass data * 0.1 |} |}.

(** The object [calculateResults] returns: renderings, and the processing
    time. *)
Module State.
Record byproductAmounts := {
  methane : string;
  hydrogen : string;
  carbonSolids : string;
  recoveredMaterials : string
}.
Record results := {
  energyRequired : string;
  energyProduced : string;
  efficiency : string;
  processingTime : number;
  byproducts : byproductAmounts
}.
End State.

Definition calculateResults (toFixed : renderer) (Math_ceil : number -> number)
    (data : wasteData) : State.results :=
  let r := calculate Math_ceil data in
  {| State.energyRequired := toFixed 1%nat (energyRequired r);
     State.energyProduced := toFixed 1%nat (energyProduced r);
     State.efficiency := toFixed 0%nat (efficiency r);
     State.processingTime := processingTime r;
     State.byproducts :=
       {| State.methane := toFixed 1%nat (methane (byproducts r));
          State.hydrogen := toFixed 1%nat (hydrogen (byproducts r));
          State.carbonSolids := toFixed 1%nat (carbonSolids (byproducts r));
          State.recoveredMaterials :=
            toFixed 1%nat (recoveredMaterials (byproducts r)) |} |}.

End App.

(** ** Performance utilities: the calculations by waste type

    The utilities have two versions of [useMemoizedCalculations]: this
    hook over the waste data, and a hook that returns three memoised
    calculators, which follows. *)

Module Calculations.
Import JS Prototype.

Definition energyRates : object number :=
  [("organic", 4.2); ("plastic", 8.7); ("metal", 2.1); ("paper", 3.8);
   ("food", 4.5); ("mixed", 4.0)]%string.

Definition efficiencyRates : object number :=
  [("organic", 92); ("plastic", 87); ("metal", 95); ("paper", 89);
   ("food", 91); ("mixed", 85)]%string.

Definition byproductsTable : object (list string) :=
  [("organic", ["Biogas"; "Compost"; "Water"]);
   ("plastic", ["Fuel pellets"; "Raw materials"; "Heat"]);
   ("metal", ["Refined metals"; "Alloys"; "Slag"]);
   ("paper", ["Pulp"; "Biomass"; "Fiber"]);
   ("food", ["Biogas"; "Fertilizer"; "Water"]);
   ("mixed", ["Various materials"; "Energy"; "Residue"])]%string.

(** The two properties of [wasteData] the hook reads. *)
Record waste := {
  type : string;
  mass : number
}.

Record calculations := {
  energyRequired : number;
  energyProduced : number;
  efficiency : value number;
  processingTime : number;
  byproducts : value (list string);
  netEnergy : number
}.

(** [useMemoizedCalculations(wasteData)]: the value the memoised callback
    computes, [None] for [null]; [Math.round] is a parameter. *)
Definition useMemoizedCalculations (Math_round : number -> number)
    (wasteData : option waste) : option calculations :=
  match wasteData with
  | None => None
  | Some wasteData =>
      let energyRequired := mass wasteData * 2.1 in
      let energyProduced := number_or (type wasteData) energyRates 4.0 * mass wasteData in
      let efficiency := value_or truthy (type wasteData) efficiencyRates 85 in
      let processingTime := Math_round (mass wasteData * 15) in
      Some {| energyRequired := energyRequired;
              energyProduced := energyProduced;
              efficiency := efficiency;
              processingTime := processingTime;
              byproducts :=
                value_or (fun _ => true) (type wasteData) byproductsTable
                  ["Mixed materials"%string];
              netEnergy := energyProduced - energyRequired |}
  end.

End Calculations.

(** ** React's [memo], and calls

    [memo(type)] of React does not return a function: it returns a component
    object that holds [type], and a call of such an object throws a
    [TypeError]. *)

Module React.

(** The object [memo(type)] returns. *)
Record MemoComponent (F : Type) : Type := {
  type : F
}.

Arguments Build_MemoComponent {F} type.
Arguments type {F} m.

Definition memo {F : Type} (type : F) : MemoComponent F :=
  {| type := type |}.

(** How a call completes. *)
Inductive completion (A : Type) : Type :=
| Returns (v : A)
| Throws (error : string).

Arguments Returns {A} v.
Arguments Throws {A} error.

(** [callee(...)] for a callee that is a memo component; [arguments] is
    what the call would pass to a function.  The component is no function:
    the call throws. *)
Definition call {F A : Type} (callee : MemoComponent F) (arguments : F -> A)
    : completion A :=
  Throws "TypeError".

(** Sequencing inside a [try] block: the statements after a call that
    throws are skipped. *)
Definition and_then {A B : Type} (c : completion A) (rest : A -> completion B)
    : completion B :=
  match c with
  | Returns v => rest v
  | Throws error => Throws error
  end.

End React.

(** ** Application optimization utilities: the memoised calculators

    The second [useMemoizedCalculations] takes no argument and returns a
    record of three properties, each the value of [memo] for an arrow
    function.  [String.prototype.toLowerCase], [toFixed] and [Math.round]
    are parameters. *)

Module AppOptimization.
Import JS Prototype.

Definition energyRates : object number :=
  [("organic", 4.2); ("plastic", 8.7); ("metal", 2.1); ("paper", 3.8);
   ("food", 4.5); ("mixed", 4.0)]%string.

Definition typeMultipliers : object number :=
  [("organic", 0.8); ("plastic", 1.2); ("metal", 0.6); ("paper", 0.9);
   ("food", 0.85); ("mixed", 1.0)]%string.

Definition baseEfficiency : object number :=
  [("organic", 92); ("plastic", 87); ("metal", 95); ("paper", 89);
   ("food", 91); ("mixed", 85)]%string.

(** The key [wasteType?.toLowerCase()] names: [undefined] when there is no
    waste type. *)
Definition typeKey (toLowerCase : string -> string) (wasteType : option string)
    : string :=
  match wasteType with
  | Some s => toLowerCase s
  | None => "undefined"%string
  end.

(** The arrow function handed to [memo] for [calculateEnergyOutput]. *)
Definition energyOutputFunction (toFixed : renderer) (toLowerCase : string -> string)
    (wasteType : option string) (mass : number) : string :=
  let rate :=
    number_or (typeKey toLowerCase wasteType) energyRates
      (to_number (get "mixed"%string energyRates)) in
  toFixed 2%nat (mass * rate).

(** The arrow function handed to [memo] for [calculateProcessingTime]. *)
Definition processingTimeFunction (Math_round : number -> number)
    (toLowerCase : string -> string) (mass : number) (wasteType : option string)
    : number :=
  let baseTime := 45 in
  let multiplier := number_or (typeKey toLowerCase wasteType) typeMultipliers 1.0 in
  Math_round (mass * baseTime * multiplier).

(** The arrow function handed to [memo] for [calculateEfficiency]. *)
Definition efficiencyFunction (toLowerCase : string -> string)
    (wasteType : option string) (systemLoad : number) : number :=
  let base := number_or (typeKey toLowerCase wasteType) baseEfficiency 85 in
  let loadPenalty := Math_max 0 ((systemLoad - 80) * 0.2) in
  Math_max 60 (base - loadPenalty).

(** The record the hook returns: three memo components. *)
Record calculators := {
  calculateEnergyOutput : React.MemoComponent (option string -> number -> string);
  calculateProcessingTime : React.MemoComponent (number -> option string -> number);
  calculateEfficiency : React.MemoComponent (option string -> number -> number)
}.

Definition useMemoizedCalculations (toFixed : renderer)
    (Math_round : number -> number) (toLowerCase : string -> string) : calculators :=
  {| calculateEnergyOutput := React.memo (energyOutputFunction toFixed toLowerCase);
     calculateProcessingTime :=
       React.memo (processingTimeFunction Math_round toLowerCase);
     calculateEfficiency := React.memo (efficiencyFunction toLowerCase) |}.

End AppOptimization.

(** ** Application shell: the waste processing handler *)

Module Processing.
Import JS App AppOptimization.

(** The [results] object of the handler: the spread of
    [calculateResults(data)], with [processingTime] and [efficiency]
    overwritten by those of the calculators. *)
Record processed := {
  energyRequired : string;
  energyProduced : string;
  byproducts : State.byproductAmounts;
  energyOutput : number;
  processingTime : number;
  efficiency : number;
  optimized : bool
}.

(** What the handler does to the component and around it.  The callback of
    a timeout is given by what it does for a reading of
    [performance.now()]. *)
#[warnings="-register-all"] Inductive action : Type :=
| SetIsProcessing (value : bool)
| SetWasteData (data : wasteData)
| SetResults (results : processed)
| SetProcessingResults (results : processed)
| SetTimeout (callback : number -> list action) (delay : number)
| PushVoiceProcessingTime (time : number)
| ConsoleLog (duration : string)
| ConsoleError (error : string).

(** [handleWasteProcessing(data)]: what it does, in order.  [startTime] is
    the reading of [performance.now()] on entry; [parseFloat] is a
    parameter. *)
Definition handleWasteProcessing (toFixed : renderer)
    (parseFloat : string -> number) (Math_ceil : number -> number)
    (memoizedCalculations : calculators) (data : wasteData) (startTime : number)
    : list action :=
  [SetIsProcessing true; SetWasteData data]
  ++ match
       React.and_then
         (React.call (calculateEnergyOutput memoizedCalculations)
            (fun f => f (Some (type data)) (mass data)))
         (fun energyOutput =>
       React.and_then
         (React.call (calculateProcessingTime memoizedCalculations)
            (fun f => f (mass data) (Some (type data))))
         (fun processingTime =>
       React.and_then
         (React.call (calculateEfficiency memoizedCalculations)
            (fun f => f (Some (type data)) 75))
         (fun efficiency =>
       React.Returns
         [SetTimeout
            (fun endTime =>
               let calculated := calculateResults toFixed Math_ceil data in
               let results :=
                 {| energyRequired := State.energyRequired calculated;
                    energyProduced := State.energyProduced calculated;
                    byproducts := State.byproducts calculated;
                    energyOutput := parseFloat energyOutput;
                    processingTime := processingTime;
                    efficiency := efficiency;
                    optimized := true |} in
               [SetResults results; SetProcessingResults results;
                SetIsProcessing false;
                PushVoiceProcessingTime (endTime - startTime);
                ConsoleLog (toFixed 2%nat (endTime - startTime))])
            (Math_max 1000 (processingTime * 10))])))
     with
     | React.Returns actions => actions
     | React.Throws error => [ConsoleError error; SetIsProcessing false]
     end.

End Processing.

(** ** The readings of the dashboard

    [updateMetrics] derives its four readings from the clock through
    [Math.sin]; the sines are the inputs here. *)

Module Readings.
Import JS SystemDashboard.




End Readings.

(** ** Performance monitor *)

Module PerformanceMonitor.
Import JS.

Module Render.
Record metric := {
  component : string;
  duration : number;
  timestamp : number
}.
End Render.

Module Memory.
Record metric := {
  used : number;
  total : number;
  limit : number;
  timestamp : number
}.
End Memory.

(** [performance.memory], where the browser provides it. *)
Record heap := {
  usedJSHeapSize : number;
  totalJSHeapSize : number;
  jsHeapSizeLimit : number
}.

(** [this.metrics]. *)
Record metrics := {
  renderTimes : list Render.metric;
  memoryUsage : list Memory.metric;
  voiceProcessingTimes : list number;
  componentLoadTimes : list number
}.

(** The monitor the constructor makes. *)
Definition create : metrics :=
  {| renderTimes := []; memoryUsage := []; voiceProcessingTimes := [];
     componentLoadTimes := [] |}.

(** [a.push(x)] and [a.shift()]. *)
Definition push {A : Type} (a : list A) (x : A) : list A := a ++ [x].
Definition shift {A : Type} (a : list A) : list A := tl a.

(** [measureRender(componentName, renderFunction)], for a render function
    that returns: the result returned and the monitor after the call.
    [startTime] and [endTime] are the two readings of [performance.now()],
    [now] is the reading of [Date.now()]. *)
Definition measureRender {A : Type} (this : metrics) (componentName : string)
    (renderFunction : unit -> A) (startTime endTime now : number) : A * metrics :=
  let result := renderFunction tt in
  let renderTimes :=
    push (renderTimes this)
      {| Render.component := componentName;
         Render.duration := endTime - startTime;
         Render.timestamp := now |} in
  let renderTimes :=
    if (100 <? List.length renderTimes)%nat then shift renderTimes else renderTimes in
  (result,
   {| renderTimes := renderTimes;
      memoryUsage := memoryUsage this;
      voiceProcessingTimes := voiceProcessingTimes this;
      componentLoadTimes := componentLoadTimes this |}).

(** [trackMemoryUsage()]: the monitor after the call. *)
Definition trackMemoryUsage (this : metrics) (memory : option heap) (now : number)
    : metrics :=
  match memory with
  | Some memory =>
      let memoryUsage :=
        push (memoryUsage this)
          {| Memory.used := usedJSHeapSize memory;
             Memory.total := totalJSHeapSize memory;
             Memory.limit := jsHeapSizeLimit memory;
             Memory.timestamp := now |} in
      let memoryUsage :=
        if (50 <? List.length memoryUsage)%nat then shift memoryUsage else memoryUsage in
      {| renderTimes := renderTimes this;
         memoryUsage := memoryUsage;
         voiceProcessingTimes := voiceProcessingTimes this;
         componentLoadTimes := componentLoadTimes this |}
  | None => this
  end.

(** The length of an array as a Number (exact: an array holds fewer than
    [2^32] elements). *)
Definition Number_of_length (n : nat) : number :=
  of_uint63 (Uint63.of_Z (Z.of_nat n)).

(** The three recommendations. *)
Definition renderAdvice : string :=
  "Consider optimizing component renders - average render time exceeds 60fps target".
Definition memoryAdvice : string :=
  "High memory usage detected - consider implementing memory cleanup".
Definition voiceAdvice : string :=
  "Voice processing is slow - consider optimizing speech recognition".

(** [recommendations.push(x)] under a condition. *)
Definition push_if (c : bool) (x : string) (a : list string) : list string :=
  if c then push a x else a.

Definition getRecommendations (this : metrics) (avgRenderTime : number)
    (currentMemory : option Memory.metric) : list string :=
  let recommendations := [] in
  let recommendations :=
    push_if (16.67 <? avgRenderTime) renderAdvice recommendations in
  let recommendations :=
    push_if
      match currentMemory with
      | Some currentMemory =>
          0.8 <? Memory.used currentMemory / Memory.total currentMemory
      | None => false
      end memoryAdvice recommendations in
  if (0 <? List.length (voiceProcessingTimes this))%nat then
    let avgVoiceTime :=
      fold_left (fun sum time => sum + time) (voiceProcessingTimes this) 0
      / Number_of_length (List.length (voiceProcessingTimes this)) in
    push_if (1000 <? avgVoiceTime) voiceAdvice recommendations
  else recommendations.

(** The two locals of [getReport]. *)
Definition avgRenderTime (this : metrics) : number :=
  if (0 <? List.length (renderTimes this))%nat then
    fold_left (fun sum metric => sum + Render.duration metric) (renderTimes this) 0
    / Number_of_length (List.length (renderTimes this))
  else 0.

Definition currentMemory (this : metrics) : option Memory.metric :=
  if (0 <? List.length (memoryUsage this))%nat then
    nth_error (memoryUsage this) (List.length (memoryUsage this) - 1)
  else None.

Record report := {
  averageRenderTime : string;
  currentMemoryUsage : string;
  totalMetrics : nat;
  recommendations : list string
}.

Definition getReport (toFixed : renderer) (this : metrics) : report :=
  let avgRenderTime := avgRenderTime this in
  let currentMemory := currentMemory this in
  {| averageRenderTime := toFixed 2%nat avgRenderTime;
     currentMemoryUsage :=
       match currentMemory with
       | Some currentMemory =>
           toFixed 2%nat (Memory.used currentMemory / 1024 / 1024)
       | None => "N/A"
       end;
     totalMetrics := List.length (renderTimes this);
     recommendations := getRecommendations this avgRenderTime currentMemory |}.

(** The last [n] elements of an array. *)
Definition lastN {A : Type} (n : nat) (a : list A) : list A :=
  skipn (List.length a - n) a.

(** The measurements of a sequence of calls of [measureRender], each with
    its component name and its three clock readings. *)
Definition measurement (call : string * number * number * number) : Render.metric :=
  let '(componentName, startTime, endTime, now) := call in
  {| Render.component := componentName;
     Render.duration := endTime - startTime;
     Render.timestamp := now |}.

Definition measureRenders (this : metrics)
    (calls : list (string * number * number * number)) : metrics :=
  fold_left
    (fun this call =>
       let '(componentName, startTime, endTime, now) := call in
       snd (measureRender this componentName (fun _ => tt) startTime endTime now))
    calls this.

End PerformanceMonitor.

(** ** Memory manager *)

Module MemoryManager.
Import JS.

(** Cleanup tasks, timer handles, elements and handlers are compared by
    identity: each is modelled by a number that identifies it.  A cleanup
    task is taken to leave the manager alone; whether it throws is given by
    a predicate. *)
Record listener := {
  element : nat;
  event : string;
  handler : nat
}.

(** The two [Set]s of handles, the [Set] of tasks and the [Map] of
    listeners, in insertion order. *)
Record manager := {
  cleanupTasks : list nat;
  intervals : list nat;
  timeouts : list nat;
  eventListeners : object listener
}.

Definition create : manager :=
  {| cleanupTasks := []; intervals := []; timeouts := []; eventListeners := [] |}.

(** [s.add(x)] on a [Set]. *)
Definition Set_add (x : nat) (s : list nat) : list nat :=
  if existsb (Nat.eqb x) s then s else s ++ [x].

Definition addCleanupTask (this : manager) (task : nat) : manager :=
  {| cleanupTasks := Set_add task (cleanupTasks this);
     intervals := intervals this;
     timeouts := timeouts this;
     eventListeners := eventListeners this |}.

Definition addInterval (this : manager) (intervalId : nat) : manager :=
  {| cleanupTasks := cleanupTasks this;
     intervals := Set_add intervalId (intervals this);
     timeouts := timeouts this;
     eventListeners := eventListeners this |}.

Definition addTimeout (this : manager) (timeoutId : nat) : manager :=
  {| cleanupTasks := cleanupTasks this;
     intervals := intervals this;
     timeouts := Set_add timeoutId (timeouts this);
     eventListeners := eventListeners this |}.

(** What the manager does to the world around it. *)
Inductive effect : Type :=
| Call (task : nat)
| Warn (task : nat)
| ClearInterval (intervalId : nat)
| ClearTimeout (timeoutId : nat)
| AddEventListener (element : nat) (event : string) (handler : nat)
| RemoveEventListener (element : nat) (event : string) (handler : nat).

(** The key of a listener; [describe] is the string an element converts
    to. *)
Definition listenerKey (describe : nat -> string) (element : nat) (event : string)
    : string :=
  (describe element ++ "-" ++ event)%string.

(** [addEventListener(element, event, handler)]: the effects, in order, and
    the manager after the call. *)
Definition addEventListener (describe : nat -> string) (this : manager)
    (element : nat) (event : string) (handler : nat) : list effect * manager :=
  let key := listenerKey describe element event in
  let removed :=
    match get key (eventListeners this) with
    | Some old =>
        [RemoveEventListener (MemoryManager.element old) (MemoryManager.event old)
           (MemoryManager.handler old)]
    | None => []
    end in
  (removed ++ [AddEventListener element event handler],
   {| cleanupTasks := cleanupTasks this;
      intervals := intervals this;
      timeouts := timeouts this;
      eventListeners :=
        set key {| element := element; event := event; handler := handler |}
          (eventListeners this) |}).

(** One cleanup task under [try]/[catch]; [throws] tells which tasks
    throw. *)
Definition runTask (throws : nat -> bool) (task : nat) : list effect :=
  if throws task then [Call task; Warn task] else [Call task].

(** [cleanup()]: the effects, in order, and the manager after the call. *)
Definition cleanup (throws : nat -> bool) (this : manager) : list effect * manager :=
  (flat_map (runTask throws) (cleanupTasks this)
   ++ map ClearInterval (intervals this)
   ++ map ClearTimeout (timeouts this)
   ++ map (fun l => RemoveEventListener (element l) (event l) (handler l))
        (Object_values (eventListeners this)),
   create).

(** The registrations a component can make. *)
Inductive registration : Type :=
| Task (task : nat)
| Interval (intervalId : nat)
| Timeout (timeoutId : nat)
| Listener (element : nat) (event : string) (handler : nat).

(** One registration: the effects, in order, and the manager after it. *)
Definition register (describe : nat -> string) (this : manager) (r : registration)
    : list effect * manager :=
  match r with
  | Task t => ([], addCleanupTask this t)
  | Interval i => ([], addInterval this i)
  | Timeout i => ([], addTimeout this i)
  | Listener el ev h => addEventListener describe this el ev h
  end.

Fixpoint registerAll (describe : nat -> string) (this : manager)
    (rs : list registration) : list effect * manager :=
  match rs with
  | [] => ([], this)
  | r :: rest =>
      let '(effects, this) := register describe this r in
      let '(more, this) := registerAll describe this rest in
      (effects ++ more, this)
  end.

(** The life of a manager: registrations, then one [cleanup()]. *)
Definition session (describe : nat -> string) (throws : nat -> bool)
    (rs : list registration) : list effect * manager :=
  let '(effects, this) := registerAll describe create rs in
  let '(more, this) := cleanup throws this in
  (effects ++ more, this).

(** The listeners a sequence of effects attaches, and those it detaches. *)
Definition attached (effects : list effect) : list listener :=
  flat_map
    (fun e =>
       match e with
       | AddEventListener el ev h => [{| element := el; event := ev; handler := h |}]
       | _ => []
       end) effects.

Definition detached (effects : list effect) : list listener :=
  flat_map
    (fun e =>
       match e with
       | RemoveEventListener el ev h => [{| element := el; event := ev; handler := h |}]
       | _ => []
       end) effects.

(** What the manager holds is consistent with the registrations [rs] made
    so far: each [Set] holds, once, what was registered, and each listener
    is filed once, under its own key. *)
Definition consistent (describe : nat -> string) (rs : list registration)
    (this : manager) : Prop :=
  NoDup (cleanupTasks this) /\ NoDup (intervals this) /\ NoDup (timeouts this)
  /\ NoDup (Object_keys (eventListeners this))
  /\ (forall t, In t (cleanupTasks this) <-> In (Task t) rs)
  /\ (forall i, In i (intervals this) <-> In (Interval i) rs)
  /\ (forall i, In i (timeouts this) <-> In (Timeout i) rs)
  /\ (forall k l, In (k, l) (Object_entries (eventListeners this)) ->
      k = listenerKey describe (element l) (event l)).

End MemoryManager.

(** ** Signs of binary64 representations *)

Module Signs.

(** Not [NaN], with the given sign bit. *)
Definition SFsigned (s : bool) (x : spec_float) : bool :=
  match x with
  | S754_nan => false
  | S754_zero s' | S754_infinity s' | S754_finite s' _ _ => Bool.eqb s' s
  end.

(** Not [NaN] and not positive: a zero of either sign counts. *)
Definition SFnonpos (x : spec_float) : bool :=
  match x with
  | S754_zero _ => true
  | S754_infinity s | S754_finite s _ _ => s
  | S754_nan => false
  end.

(** A zero or [NaN]. *)
Definition SFzero_or_nan (x : spec_float) : bool :=
  match x with
  | S754_zero _ | S754_nan => true
  | _ => false
  end.

(** A finite Number: neither an infinity nor [NaN]. *)
Definition SFfinite (x : spec_float) : bool :=
  match x with
  | S754_zero _ | S754_finite _ _ _ => true
  | _ => false
  end.

End Signs.

(** ** Outcomes and predicates the properties below speak of *)

Module Outcomes.
Import JS.

(** Accumulators that all are [NaN]. *)
Definition nanTotals : WasteStreamSimulator.totals :=
  {| WasteStreamSimulator.totalEnergyNeeds := nan;
     WasteStreamSimulator.totalMethaneOutput := nan;
     WasteStreamSimulator.totalCarbonProduction := nan;
     WasteStreamSimulator.totalHydrogenOutput := nan |}.

(** A simulation all of whose Numbers are [NaN]. *)
Definition nanSimulation : WasteStreamSimulator.SimulationResult :=
  {| WasteStreamSimulator.energyNeeds := nan;
     WasteStreamSimulator.methaneOutput := nan;
     WasteStreamSimulator.carbonProduction := nan;
     WasteStreamSimulator.hydrogenOutput := nan;
     WasteStreamSimulator.sustainabilityScore := nan;
     WasteStreamSimulator.cycleEfficiency := nan |}.

(** The value [handleWasteChange] stores for the Number [parseFloat]
    returned. *)
Definition storedPercentage (parsed : number) : number :=
  Math_max 0 (Math_min 100 (or_else parsed 0)).

(** The names of the five parameters of the optimizer. *)
Definition parameterNames : list string :=
  ["temperature"; "flowRate"; "catalystEfficiency"; "energyInput"; "pressure"]%string.

(** The read [parameters[param]] of the [parameters] state. *)
Definition parameter (param : string) (p : AIProcessOptimizer.parameters)
    : option number :=
  if String.eqb param "temperature" then Some (AIProcessOptimizer.temperature p)
  else if String.eqb param "flowRate" then Some (AIProcessOptimizer.flowRate p)
  else if String.eqb param "catalystEfficiency" then
    Some (AIProcessOptimizer.catalystEfficiency p)
  else if String.eqb param "energyInput" then Some (AIProcessOptimizer.energyInput p)
  else if String.eqb param "pressure" then Some (AIProcessOptimizer.pressure p)
  else None.

(** The four Numbers of a projected year are at least 0. *)
Definition nonnegYear (y : SystemDashboard.yearProjection) : bool :=
  (0 <=? SystemDashboard.waste y) && (0 <=? SystemDashboard.methane y)
  && (0 <=? SystemDashboard.power y) && (0 <=? SystemDashboard.efficiency y).

End Outcomes.


(** * Properties

    ** Binary64 arithmetic: signs, comparisons, exact scalings *)

Module Binary64Facts.
Import Binary64.

(** *** Signs survive rounding *)

Section Rounding.
Variables prec emax : Z.

(** Shifting right keeps a mantissa non-negative. *)
Lemma iter_shr_nonneg (p : positive) :
  forall mrs, (0 <= shr_m mrs)%Z -> (0 <= shr_m (iter_pos shr_1 p mrs))%Z.
Proof.
  assert (step : forall mrs, (0 <= shr_m mrs)%Z -> (0 <= shr_m (shr_1 mrs))%Z).
  { intros [m r s] H; simpl in *. destruct m as [|[q|q|]|q]; simpl; lia. }
  induction p as [p IH|p IH|]; intros mrs H; simpl; auto.
Qed.

Lemma shr_nonneg mrs e n :
  (0 <= shr_m mrs)%Z -> (0 <= shr_m (fst (shr mrs e n)))%Z.
Proof.
  intros H. destruct n; simpl; auto using iter_shr_nonneg.
Qed.

Lemma shr_fexp_nonneg m e l :
  (0 <= m)%Z -> (0 <= shr_m (fst (shr_fexp prec emax m e l)))%Z.
Proof.
  intros H. unfold shr_fexp. apply shr_nonneg.
  destruct l as [|[]]; simpl; exact H.
Qed.

Lemma round_nearest_even_nonneg m l :
  (0 <= m)%Z -> (0 <= round_nearest_even m l)%Z.
Proof.
  intros H. destruct l as [|[]]; simpl; try lia. destruct (Z.even m); lia.
Qed.

(** Rounding a non-negative mantissa under a clear sign gives a number that
    is not negative. *)
Lemma binary_round_aux_nonneg mx ex lx :
  (0 <= mx)%Z -> SFnonneg (binary_round_aux prec emax false mx ex lx) = true.
Proof.
  intros H. unfold binary_round_aux.
  pose proof (shr_fexp_nonneg mx ex lx H) as H1.
  destruct (shr_fexp prec emax mx ex lx) as [mrs' e']. simpl in H1.
  pose proof (shr_fexp_nonneg _ e' loc_Exact
                (round_nearest_even_nonneg _ (loc_of_shr_record mrs') H1)) as H2.
  destruct (shr_fexp prec emax _ e' loc_Exact) as [mrs'' e'']. simpl in H2.
  destruct (shr_m mrs'') as [|m|m]; try lia; simpl; auto.
  destruct (e'' <=? emax - prec)%Z; reflexivity.
Qed.

(** A product with a positive finite number keeps [SFnonneg]. *)
Lemma SFmul_nonneg x my ey :
  SFnonneg x = true ->
  SFnonneg (SFmul prec emax x (S754_finite false my ey)) = true.
Proof.
  destruct x as [s|s| |s m e]; simpl; try discriminate; intros H.
  - reflexivity.
  - rewrite xorb_false_r. exact H.
  - destruct s; try discriminate. simpl. apply binary_round_aux_nonneg. lia.
Qed.

(** The quotient mantissa of two positive mantissas is not negative. *)
Lemma SFdiv_core_nonneg m1 e1 m2 e2 :
  (0 <= fst (fst (SFdiv_core_binary prec emax (Zpos m1) e1 (Zpos m2) e2)))%Z.
Proof.
  unfold SFdiv_core_binary.
  set (s := (e1 - e2 - _)%Z).
  set (m' := match s with Zpos _ => _ | Z0 => _ | Zneg _ => _ end).
  assert (Hm : (0 <= m')%Z).
  { subst m'. destruct s; try lia. apply Z.shiftl_nonneg. lia. }
  pose proof (Z_div_mod m' (Zpos m2) eq_refl) as Hd.
  destruct (Z.div_eucl m' (Zpos m2)) as [q r]. simpl.
  destruct Hd as [Hq Hr]. nia.
Qed.

(** A quotient by a number with a clear sign bit is not negative, unless it
    is [NaN]. *)
Lemma SFdiv_nonneg x y :
  SFnonneg x = true -> SFplus y = true ->
  SFis_nan (SFdiv prec emax x y) = false ->
  SFnonneg (SFdiv prec emax x y) = true.
Proof.
  destruct x as [sx|sx| |sx mx ex], y as [sy|sy| |sy my ey]; simpl;
    try discriminate; intros Hx Hy Hn; try reflexivity;
    try (destruct sx; try discriminate); try (destruct sy; try discriminate);
    try reflexivity.
  pose proof (SFdiv_core_nonneg mx ex my ey) as H.
  destruct (SFdiv_core_binary prec emax (Zpos mx) ex (Zpos my) ey) as [[mz ez] lz].
  simpl in *. apply binary_round_aux_nonneg. exact H.
Qed.

(** A quotient by a positive finite number keeps [SFnonneg]. *)
Lemma SFdiv_finite_nonneg x my ey :
  SFnonneg x = true ->
  SFnonneg (SFdiv prec emax x (S754_finite false my ey)) = true.
Proof.
  destruct x as [sx|sx| |sx mx ex]; simpl; try discriminate; intros Hx;
    try reflexivity; try (rewrite xorb_false_r; exact Hx).
  destruct sx; try discriminate.
  pose proof (SFdiv_core_nonneg mx ex my ey) as H.
  destruct (SFdiv_core_binary prec emax (Zpos mx) ex (Zpos my) ey) as [[mz ez] lz].
  simpl in *. apply binary_round_aux_nonneg. exact H.
Qed.

(** Rounding a non-negative mantissa under a clear sign keeps the sign bit
    clear. *)
Lemma binary_round_aux_plus mx ex lx :
  (0 <= mx)%Z -> SFplus (binary_round_aux prec emax false mx ex lx) = true.
Proof.
  intros H. pose proof (binary_round_aux_nonneg mx ex lx H) as N.
  unfold binary_round_aux in *.
  destruct (shr_fexp prec emax mx ex lx) as [mrs' e'].
  destruct (shr_fexp prec emax _ e' loc_Exact) as [mrs'' e''].
  destruct (shr_m mrs'') as [|m|m]; simpl in *; auto; try discriminate.
  destruct (e'' <=? emax - prec)%Z; reflexivity.
Qed.

(** A sum keeps the sign bit of its first term clear: [+0 + -0] is [+0]. *)
Lemma SFadd_plus x y :
  SFplus x = true -> SFnonneg y = true ->
  SFplus (SFadd prec emax x y) = true.
Proof.
  destruct x as [sx|sx| |sx mx ex], y as [sy|sy| |sy my ey]; simpl;
    try discriminate; intros Hx Hy; auto;
    try (destruct sx; try discriminate); try (destruct sy; try discriminate);
    try reflexivity.
  simpl. unfold binary_normalize.
  destruct (shl_align mx ex (Z.min ex ey)) as [a ea].
  destruct (shl_align my ey (Z.min ex ey)) as [b eb]. simpl.
  unfold binary_round.
  destruct (shl_align _ _ _) as [mz ez].
  apply binary_round_aux_plus. lia.
Qed.

Lemma SFplus_nonneg x : SFplus x = true -> SFnonneg x = true.
Proof. destruct x as [s|s| |s m e]; simpl; auto. Qed.

End Rounding.

(** *** Comparisons *)

Lemma SFcompare_swap x y :
  SFcompare y x = option_map CompOpp (SFcompare x y).
Proof.
  destruct x as [sx|sx| |sx mx ex], y as [sy|sy| |sy my ey]; simpl;
    try reflexivity;
    try (destruct sx; reflexivity); try (destruct sy; reflexivity);
    try (destruct sx, sy; reflexivity).
  destruct sx, sy; simpl; try reflexivity;
    rewrite (Z.compare_antisym ex ey);
    destruct (ex ?= ey)%Z; simpl; try reflexivity;
    rewrite (Pos.compare_cont_antisym mx my Eq); simpl;
    try rewrite CompOpp_involutive; reflexivity.
Qed.

(** A number equals itself. *)
Lemma SFcompare_refl x : SFis_nan x = false -> SFcompare x x = Some Eq.
Proof.
  destruct x as [s|s| |s m e]; simpl; try discriminate; intros _.
  - reflexivity.
  - destruct s; reflexivity.
  - destruct s; rewrite Z.compare_refl, Pos.compare_cont_refl; reflexivity.
Qed.

(** [is_nan] on the representation. *)
Lemma is_nan_spec x : is_nan x = SFis_nan (Prim2SF x).
Proof.
  unfold is_nan. rewrite eqb_spec. unfold SFeqb.
  destruct (SFis_nan (Prim2SF x)) eqn:E.
  - destruct (Prim2SF x); try discriminate. reflexivity.
  - rewrite SFcompare_refl by exact E. reflexivity.
Qed.

(** [0 <= x] on the representation. *)
Lemma leb_zero_spec x : (0 <=? x) = SFnonneg (Prim2SF x).
Proof.
  rewrite leb_spec. change (Prim2SF 0) with (S754_zero false).
  destruct (Prim2SF x) as [s|s| |s m e]; try reflexivity; destruct s; reflexivity.
Qed.

(** Strictly below implies below or equal. *)
Lemma ltb_leb x y : (x <? y) = true -> (x <=? y) = true.
Proof.
  rewrite ltb_spec, leb_spec. unfold SFltb, SFleb.
  destruct (SFcompare (Prim2SF x) (Prim2SF y)) as [[]|]; auto.
Qed.

(** For numbers, not strictly below implies above or equal. *)
Lemma not_ltb_leb x y :
  (x <? y) = false -> is_nan x = false -> is_nan y = false -> (y <=? x) = true.
Proof.
  rewrite ltb_spec, leb_spec, !is_nan_spec. unfold SFltb, SFleb.
  rewrite (SFcompare_swap (Prim2SF x) (Prim2SF y)).
  destruct (Prim2SF x) as [sx|sx| |sx mx ex], (Prim2SF y) as [sy|sy| |sy my ey];
    try discriminate; intros H _ _;
    match goal with |- context [SFcompare ?a ?b] => destruct (SFcompare a b) as [[]|] eqn:E end;
    simpl in *; try reflexivity; try discriminate.
Qed.

Local Open Scope Z_scope.

(** *** Multiplying by a power of two is exact *)

Lemma mul_pow52 m : (m * 4503599627370496)%positive = pow52 m.
Proof. rewrite Pos.mul_comm. reflexivity. Qed.

Lemma digits_pow52 m : Zpos (digits2_pos (pow52 m)) = Zpos (digits2_pos m) + 52.
Proof. unfold pow52. cbn [digits2_pos]. lia. Qed.

Lemma shr_pow52 m :
  iter_pos shr_1 52 (Build_shr_record (Zpos (pow52 m)) false false)
  = Build_shr_record (Zpos m) false false.
Proof. reflexivity. Qed.

(** Rounding [m * 2^52] at an exponent 52 below that of a canonical [m]
    gives [m] back. *)
Lemma binary_round_aux_pow52 s m ex :
  fexp prec emax (Zpos (digits2_pos m) + 52 + ex) = ex + 52 ->
  binary_round_aux prec emax s (Zpos (pow52 m)) ex loc_Exact
  = if ex + 52 <=? emax - prec then S754_finite s m (ex + 52) else S754_infinity s.
Proof.
  intros H. unfold binary_round_aux, shr_fexp.
  cbn [Zdigits2 shr_record_of_loc]. rewrite digits_pow52, H.
  replace (ex + 52 - ex) with 52 by lia.
  cbn [shr]. rewrite shr_pow52.
  cbn [shr_m loc_of_shr_record round_nearest_even Zdigits2 shr_record_of_loc].
  replace (Zpos (digits2_pos m) + (ex + 52)) with (Zpos (digits2_pos m) + 52 + ex) by lia.
  rewrite H, Z.sub_diag. reflexivity.
Qed.

(** What validity says of a finite number. *)
Lemma valid_canonical s m e :
  valid_binary (S754_finite s m e) = true ->
  fexp prec emax (Zpos (digits2_pos m) + e) = e /\ e <= emax - prec.
Proof.
  simpl. unfold bounded, canonical_mantissa.
  intros H. apply andb_prop in H. destruct H as [H1 H2].
  apply Z.eqb_eq in H1. apply Z.leb_le in H2. auto.
Qed.

(** Multiplying by 1 is exact. *)
Lemma SFmul_one x :
  valid_binary x = true -> SF64mul x (Prim2SF 1%float) = x.
Proof.
  change (Prim2SF 1%float) with (S754_finite false 4503599627370496 (-52)).
  destruct x as [s|s| |s m e]; intros V; cbn -[binary_round_aux Pos.mul];
    try (rewrite xorb_false_r; reflexivity); try reflexivity.
  apply valid_canonical in V. destruct V as [C B].
  rewrite mul_pow52, xorb_false_r, binary_round_aux_pow52.
  - replace (e + -52 + 52) with e by lia.
    apply Z.leb_le in B. rewrite B. reflexivity.
  - replace (Zpos (digits2_pos m) + 52 + (e + -52)) with (Zpos (digits2_pos m) + e) by lia.
    lia.
Qed.

(** [x * 1] is [x], for every Number. *)
Lemma mul_one (x : float) : (x * 1)%float = x.
Proof.
  apply Prim2SF_inj. rewrite mul_spec. apply SFmul_one, Prim2SF_valid.
Qed.

(** *** Rounding commutes with a unit shift of the exponent *)

Lemma Zdigits2_nonneg m : 0 <= Zdigits2 m.
Proof. destruct m; simpl; lia. Qed.









(** *** The size of a rounded mantissa *)

Lemma Zdigits2_log2 p : Zpos (digits2_pos p) = Z.log2 (Zpos p) + 1.
Proof.
  assert (S : forall q, digits2_pos q = Pos.size q).
  { induction q; simpl; congruence. }
  destruct p; simpl; rewrite ?S; lia.
Qed.

Lemma shr_1_div2 mrs : 0 <= shr_m mrs -> shr_m (shr_1 mrs) = Z.div2 (shr_m mrs).
Proof.
  destruct mrs as [m r s]. simpl. destruct m as [|[q|q|]|q]; simpl; try reflexivity; lia.
Qed.

(** The mantissa after [p] single shifts is the mantissa shifted by [p]. *)
Lemma iter_shr_shiftr (p : positive) :
  forall mrs, 0 <= shr_m mrs ->
  shr_m (iter_pos shr_1 p mrs) = Z.shiftr (shr_m mrs) (Zpos p).
Proof.
  assert (step : forall mrs, 0 <= shr_m mrs -> 0 <= shr_m (shr_1 mrs)).
  { intros mrs H. rewrite shr_1_div2 by exact H. apply Z.div2_nonneg. exact H. }
  induction p as [p IH|p IH|]; intros mrs H; cbn [iter_pos].
  - rewrite IH by (apply iter_shr_nonneg, step, H).
    rewrite IH by (apply step, H).
    rewrite shr_1_div2 by exact H.
    rewrite Z.div2_spec, !Z.shiftr_shiftr by lia. f_equal. lia.
  - rewrite IH by (apply iter_shr_nonneg, H).
    rewrite IH by exact H.
    rewrite Z.shiftr_shiftr by lia. f_equal. lia.
  - rewrite shr_1_div2 by exact H. apply Z.div2_spec.
Qed.

Lemma shr_m_of_loc m l : shr_m (shr_record_of_loc m l) = m.
Proof. destruct l as [|[]]; reflexivity. Qed.


(** Multiplication is commutative. *)
Lemma SFmul_comm x y : SF64mul x y = SF64mul y x.
Proof.
  unfold SF64mul.
  destruct x as [sx|sx| |sx mx ex], y as [sy|sy| |sy my ey]; simpl;
    rewrite ?(xorb_comm sx sy); try reflexivity.
  rewrite (Pos.mul_comm mx my), (Z.add_comm ex ey). reflexivity.
Qed.

(** Above the least exponent a valid mantissa has all its [prec] digits. *)
Lemma valid_normal s m e :
  valid_binary (S754_finite s m e) = true -> emin < e ->
  Zpos (digits2_pos m) = prec.
Proof.
  intros V N. apply valid_canonical in V. destruct V as [C _].
  unfold fexp, SpecFloat.emin, prec, emax in *. change IntDef.Z.max with Z.max in *. lia.
Qed.





(** *** No overflow below an exponent bound *)

Lemma Zdigits2_bound m : 0 <= m -> m < 2 ^ Zdigits2 m.
Proof.
  destruct m as [|p|p]; intros H; try lia. 
  - simpl. lia.
  - cbn [Zdigits2]. rewrite Zdigits2_log2.
    pose proof (Z.log2_spec (Zpos p) eq_refl). 
    replace (Z.log2 (Zpos p) + 1) with (Z.succ (Z.log2 (Zpos p))) by lia. lia.
Qed.

(** A mantissa below [2^k] has at most [k] digits. *)
Lemma Zdigits2_le m k : 0 <= m -> 0 <= k -> m < 2 ^ k -> Zdigits2 m <= k.
Proof.
  destruct m as [|p|p]; intros H K B; try lia.
  - simpl. lia.
  - cbn [Zdigits2]. rewrite Zdigits2_log2.
    assert (Z.log2 (Zpos p) < k) by (apply Z.log2_lt_pow2; lia). lia.
Qed.

(** A shift by [n] adds [n] to the exponent and removes [n] digits. *)
Lemma shr_digits mrs e n :
  0 <= shr_m mrs ->
  0 <= shr_m (fst (shr mrs e n))
  /\ snd (shr mrs e n) = e + Z.max n 0
  /\ (forall k, 0 <= k -> shr_m mrs < 2 ^ (k + Z.max n 0) -> shr_m (fst (shr mrs e n)) < 2 ^ k).
Proof.
  intros H. destruct n as [|n|n]; cbn [shr fst snd].
  - rewrite Z.max_r by lia. rewrite Z.add_0_r. repeat split; auto.
    intros k _. rewrite Z.add_0_r. auto.
  - rewrite Z.max_l by lia. rewrite iter_shr_shiftr by exact H.
    split; [apply Z.shiftr_nonneg, H|]. split; [reflexivity|].
    intros k Hk B. rewrite Z.shiftr_div_pow2 by lia.
    apply Z.div_lt_upper_bound; [lia|]. rewrite <- Z.pow_add_r by lia.
    rewrite Z.add_comm. exact B.
  - rewrite Z.max_r by lia. rewrite Z.add_0_r. repeat split; auto.
    intros k _. rewrite Z.add_0_r. auto.
Qed.

(** Rounding never overflows below the exponent bound. *)
Lemma binary_round_aux_bounded s mx ex lx K :
  0 <= mx ->
  Z.max (Z.max ex (Zdigits2 mx + ex - prec)) emin + 1 <= K -> K <= emax - prec ->
  SFexp_le K (binary_round_aux prec emax s mx ex lx) = true.
Proof.
  intros Hm HK HK'. unfold binary_round_aux, shr_fexp.
  unfold fexp, SpecFloat.emin, prec, emax in *. change IntDef.Z.max with Z.max.
  set (d := Zdigits2 mx) in *.
  set (n1 := Z.max (d + ex - 53) (3 - 1024 - 53) - ex).
  pose proof (Zdigits2_nonneg mx) as Hd. fold d in Hd.
  assert (R0 : shr_m (shr_record_of_loc mx lx) = mx) by apply shr_m_of_loc.
  destruct (shr_digits (shr_record_of_loc mx lx) ex n1) as (P1 & E1 & B1);
    [rewrite R0; exact Hm|].
  destruct (shr (shr_record_of_loc mx lx) ex n1) as [mrs1 e1]. cbn [fst snd] in *.
  assert (M1 : shr_m mrs1 < 2 ^ 53).
  { apply B1; [lia|]. rewrite R0.
    apply Z.lt_le_trans with (2 ^ d); [apply Zdigits2_bound, Hm|].
    apply Z.pow_le_mono_r; lia. }
  set (mr := round_nearest_even (shr_m mrs1) (loc_of_shr_record mrs1)).
  assert (Bm : 0 <= mr <= 2 ^ 53).
  { unfold mr. destruct (loc_of_shr_record mrs1) as [|[]]; simpl; try lia.
    destruct (Z.even (shr_m mrs1)); lia. }
  assert (Dm : Zdigits2 mr <= 54).
  { apply Zdigits2_le; try lia. }
  set (n2 := Z.max (Zdigits2 mr + e1 - 53) (3 - 1024 - 53) - e1).
  assert (R1 : shr_m (shr_record_of_loc mr loc_Exact) = mr) by reflexivity.
  destruct (shr_digits (shr_record_of_loc mr loc_Exact) e1 n2) as (P2 & E2 & _);
    [rewrite R1; lia|].
  destruct (shr (shr_record_of_loc mr loc_Exact) e1 n2) as [mrs2 e2]. cbn [fst snd] in *.
  assert (Le : e2 <= K) by lia.
  destruct (shr_m mrs2) as [|m|m]; try lia; cbn [SFexp_le]; try reflexivity.
  assert (L1 : (e2 <=? 1024 - 53) = true) by (apply Z.leb_le; lia).
  rewrite L1. cbn [SFexp_le]. apply Z.leb_le. exact Le.
Qed.

(** A valid mantissa has at most [prec] digits, above the least exponent. *)
Lemma valid_digits s m e :
  valid_binary (S754_finite s m e) = true -> Zpos (digits2_pos m) <= prec /\ emin <= e.
Proof.
  intros V. apply valid_canonical in V. destruct V as [C _].
  unfold fexp, SpecFloat.emin, prec, emax in *. change IntDef.Z.max with Z.max in *. lia.
Qed.

Lemma pos_bound m : Zpos m < 2 ^ Zpos (digits2_pos m).
Proof. apply (Zdigits2_bound (Zpos m)). lia. Qed.

(** A product with a finite number is finite below an exponent bound. *)
Lemma SFmul_bounded x sc mc ec k K :
  valid_binary x = true -> valid_binary (S754_finite sc mc ec) = true ->
  SFexp_le k x = true ->
  Z.max (k + ec + prec) emin + 1 <= K -> K <= emax - prec ->
  SFexp_le K (SF64mul x (S754_finite sc mc ec)) = true.
Proof.
  intros Vx Vc Hx HK HK'.
  destruct x as [s|s| |s m e]; try discriminate; try reflexivity.
  cbn [SFexp_le] in Hx. apply Z.leb_le in Hx.
  apply valid_digits in Vx. apply valid_digits in Vc.
  unfold SF64mul, SFmul. apply binary_round_aux_bounded; try lia.
  assert (D : Zdigits2 (Zpos (m * mc)) <= Zpos (digits2_pos m) + Zpos (digits2_pos mc)).
  { apply Zdigits2_le; try lia. rewrite Pos2Z.inj_mul, Z.pow_add_r by lia.
    pose proof (pos_bound m). pose proof (pos_bound mc). nia. }
  unfold SpecFloat.emin, prec, emax in *. lia.
Qed.

(** A quotient by a finite number is finite below an exponent bound. *)
Lemma SFdiv_bounded x sc mc ec k K :
  valid_binary x = true ->
  SFexp_le k x = true ->
  Z.max (k - ec) emin + 1 <= K -> K <= emax - prec ->
  SFexp_le K (SF64div x (S754_finite sc mc ec)) = true.
Proof.
  intros Vx Hx HK HK'.
  destruct x as [s|s| |s m e]; try discriminate; try reflexivity.
  cbn [SFexp_le] in Hx. apply Z.leb_le in Hx.
  apply valid_digits in Vx. destruct Vx as [Dm Em].
  unfold SF64div, SFdiv.
  pose proof (SFdiv_core_nonneg prec emax m e mc ec) as Q.
  unfold SFdiv_core_binary in *. cbn [Zdigits2] in *.
  change IntDef.Z.max with Z.max in *. change IntDef.Z.min with Z.min in *.
  set (e' := Z.min _ (e - ec)) in *.
  set (sh := e - ec - e') in *.
  set (m' := match sh with Zpos _ => Z.shiftl (Zpos m) sh | Z0 => Zpos m | Zneg _ => 0 end) in *.
  assert (Hm' : 0 <= m' < 2 ^ (Zpos (digits2_pos m) + Z.max sh 0)).
  { subst m'. pose proof (pos_bound m) as B. destruct sh as [|p|p] eqn:Es.
    - rewrite Z.max_r, Z.add_0_r by lia. lia.
    - rewrite Z.max_l by lia. rewrite Z.shiftl_mul_pow2 by lia.
      rewrite Z.pow_add_r by lia. nia.
    - split; [lia|]. apply Z.pow_pos_nonneg; lia. }
  pose proof (Z_div_mod m' (Zpos mc) eq_refl) as Hd.
  destruct (Z.div_eucl m' (Zpos mc)) as [q r]. cbn [fst snd] in Q.
  destruct Hd as [Hq Hr].
  assert (Hq' : q <= m') by nia.
  assert (Dq : Zdigits2 q <= Zpos (digits2_pos m) + Z.max sh 0).
  { apply Zdigits2_le; lia. }
  apply binary_round_aux_bounded; lia.
Qed.

(** Appending [d] zero bits multiplies by [2^d]. *)
Lemma iter_xO_pow m d : Zpos (Pos.iter xO m d) = Zpos m * 2 ^ Zpos d.
Proof.
  rewrite <- Z.shiftl_mul_pow2 by lia. cbn [Z.shiftl].
  apply (Pos.iter_swap_gen _ _ Zpos xO (Z.mul 2)). reflexivity.
Qed.

(** Aligning a mantissa to a smaller exponent keeps the value. *)
Lemma shl_align_value m e e' :
  let '(m', e'') := shl_align m e e' in
  e'' = Z.min e e' /\ Zpos m' = Zpos m * 2 ^ (e - e'').
Proof.
  unfold shl_align. destruct (e' - e) as [|d|d] eqn:E.
  - split; [lia|]. rewrite Z.sub_diag. lia.
  - split; [lia|]. rewrite Z.sub_diag. lia.
  - split; [lia|]. rewrite iter_xO_pow. f_equal. f_equal. lia.
Qed.

(** Normalizing a mantissa does not overflow below an exponent bound. *)
Lemma binary_round_bounded s m e K :
  Z.max (Z.max e (Zpos (digits2_pos m) + e - prec)) emin + 1 <= K -> K <= emax - prec ->
  SFexp_le K (binary_round prec emax s m e) = true.
Proof.
  intros HK HK'. unfold binary_round.
  pose proof (shl_align_value m e (fexp prec emax (Zpos (digits2_pos m) + e))) as A.
  destruct (shl_align m e _) as [mz ez]. destruct A as [Ez Vz].
  apply binary_round_aux_bounded; try lia.
  assert (D : Zdigits2 (Zpos mz) <= Zpos (digits2_pos m) + (e - ez)).
  { apply Zdigits2_le; try lia. rewrite Vz, Z.pow_add_r by lia.
    pose proof (pos_bound m). nia. }
  lia.
Qed.

(** A sum of two non-negative finite numbers is finite, at most two
    exponents up. *)
Lemma SFadd_bounded x y k K :
  valid_binary x = true -> valid_binary y = true ->
  SFplus x = true -> SFnonneg y = true ->
  SFexp_le k x = true -> SFexp_le k y = true ->
  Z.max k emin + 2 <= K -> K <= emax - prec ->
  SFexp_le K (SF64add x y) = true.
Proof.
  intros Vx Vy Px Py Hx Hy HK HK'.
  assert (Mono : forall z, SFexp_le k z = true -> SFexp_le K z = true).
  { intros [| | |? ? e]; simpl; auto. rewrite !Z.leb_le. lia. }
  destruct x as [sx|sx| |sx mx ex], y as [sy|sy| |sy my ey]; try discriminate;
    destruct sx; try discriminate; try (destruct sy; try discriminate);
    try reflexivity; try (apply Mono; assumption).
  cbn [SFexp_le] in Hx, Hy. apply Z.leb_le in Hx, Hy.
  apply valid_digits in Vx, Vy.
  unfold SF64add, SFadd. change IntDef.Z.min with Z.min. cbn [cond_Zopp].
  pose proof (shl_align_value mx ex (Z.min ex ey)) as Ax.
  pose proof (shl_align_value my ey (Z.min ex ey)) as Ay.
  destruct (shl_align mx ex (Z.min ex ey)) as [ax eax].
  destruct (shl_align my ey (Z.min ex ey)) as [ay eay].
  destruct Ax as [Eax Vax], Ay as [Eay Vay]. cbn [fst].
  cbn [Z.add binary_normalize].
  apply binary_round_bounded; try lia.
  set (ez := Z.min ex ey) in *.
  assert (D : Zdigits2 (Zpos (ax + ay)) <= prec + (k - ez) + 1).
  { apply Zdigits2_le; unfold prec in *; try lia.
    rewrite Pos2Z.inj_add, Vax, Vay.
    pose proof (pos_bound mx). pose proof (pos_bound my).
    assert (Zpos mx < 2 ^ 53) by (eapply Z.lt_le_trans; [eassumption|apply Z.pow_le_mono_r; lia]).
    assert (Zpos my < 2 ^ 53) by (eapply Z.lt_le_trans; [eassumption|apply Z.pow_le_mono_r; lia]).
    assert (2 ^ (ex - eax) <= 2 ^ (k - ez)) by (apply Z.pow_le_mono_r; lia).
    assert (2 ^ (ey - eay) <= 2 ^ (k - ez)) by (apply Z.pow_le_mono_r; lia).
    assert (0 < 2 ^ (ex - eax)) by (apply Z.pow_pos_nonneg; lia).
    assert (0 < 2 ^ (ey - eay)) by (apply Z.pow_pos_nonneg; lia).
    replace (53 + (k - ez) + 1) with (1 + 53 + (k - ez)) by lia.
    rewrite !Z.pow_add_r by lia. nia. }
  cbn [Zdigits2] in D. unfold SpecFloat.emin, prec, emax in *. lia.
Qed.

(** A quotient of two numbers with clear sign bits, the divisor finite and
    not zero, the dividend finite, is a number. *)
Lemma SFdiv_not_nan x y k :
  SFplus x = true -> SFplus y = true ->
  SFexp_le k x = true -> SFexp_le k y = true -> SFis_zero y = false ->
  SFis_nan (SF64div x y) = false.
Proof.
  intros Px Py Hx Hy Z.
  destruct x as [sx|sx| |sx mx ex]; try discriminate;
    destruct y as [sy|sy| |sy my ey]; try discriminate; try reflexivity.
  unfold SF64div, SFdiv.
  destruct sx, sy; try discriminate. cbn [xorb].
  pose proof (SFdiv_core_nonneg prec emax mx ex my ey) as Q.
  destruct (SFdiv_core_binary prec emax (Zpos mx) ex (Zpos my) ey) as [[q e'] l].
  cbn [fst] in Q. pose proof (binary_round_aux_plus prec emax q e' l Q) as P.
  destruct (binary_round_aux prec emax false q e' l); try discriminate; reflexivity.
Qed.

(** *** Magnitude bounds read off a comparison *)





End Binary64Facts.

(** ** JavaScript Numbers: what the code relies on *)

Module NumberFacts.
Import JS Binary64 Binary64Facts.

(** A product with a positive finite number keeps the sign bit clear. *)
Lemma SFmul_plus x my ey :
  SFplus x = true ->
  SFplus (SF64mul x (S754_finite false my ey)) = true.
Proof.
  destruct x as [s|s| |s m e]; simpl; try discriminate; intros H;
    rewrite ?xorb_false_r; try exact H.
  destruct s; try discriminate. apply binary_round_aux_plus. lia.
Qed.

(** A quotient of two numbers with clear sign bits has its sign bit clear,
    unless it is [NaN]. *)
Lemma SFdiv_plus x y :
  SFplus x = true -> SFplus y = true ->
  SFis_nan (SF64div x y) = false ->
  SFplus (SF64div x y) = true.
Proof.
  destruct x as [sx|sx| |sx mx ex], y as [sy|sy| |sy my ey]; simpl;
    try discriminate; intros Hx Hy Hn;
    destruct sx; try discriminate; destruct sy; try discriminate;
    try reflexivity.
  pose proof (SFdiv_core_nonneg prec emax mx ex my ey) as H.
  cbn [xorb].
  destruct (SFdiv_core_binary prec emax (Zpos mx) ex (Zpos my) ey) as [[mz ez] lz].
  apply binary_round_aux_plus. exact H.
Qed.

(** A product with a positive constant keeps the sign. *)
Lemma nonneg_mul_const x c :
  SFnonneg (Prim2SF x) = true -> pos_finite c = true ->
  SFnonneg (Prim2SF (x * c)) = true.
Proof.
  unfold pos_finite. intros Hx Hc. rewrite mul_spec.
  destruct (Prim2SF c) as [| | |[] m e]; try discriminate.
  apply SFmul_nonneg, Hx.
Qed.

(** A product with a positive constant keeps the sign bit clear. *)
Lemma plus_mul_const x c :
  SFplus (Prim2SF x) = true -> pos_finite c = true ->
  SFplus (Prim2SF (x * c)) = true.
Proof.
  unfold pos_finite. intros Hx Hc. rewrite mul_spec.
  destruct (Prim2SF c) as [| | |[] m e]; try discriminate.
  apply SFmul_plus, Hx.
Qed.

(** A quotient by a positive constant keeps the sign. *)
Lemma nonneg_div_const x c :
  SFnonneg (Prim2SF x) = true -> pos_finite c = true ->
  SFnonneg (Prim2SF (x / c)) = true.
Proof.
  unfold pos_finite. intros Hx Hc. rewrite div_spec.
  destruct (Prim2SF c) as [| | |[] m e]; try discriminate.
  apply SFdiv_finite_nonneg, Hx.
Qed.

(** Adding a non-negative number to an accumulator keeps its sign bit clear. *)
Lemma plus_add a b :
  SFplus (Prim2SF a) = true -> SFnonneg (Prim2SF b) = true ->
  SFplus (Prim2SF (a + b)) = true.
Proof. intros Ha Hb. rewrite add_spec. apply SFadd_plus; assumption. Qed.

(** A quotient of two accumulators has its sign bit clear, unless it is
    [NaN]. *)
Lemma plus_div a b :
  SFplus (Prim2SF a) = true -> SFplus (Prim2SF b) = true ->
  is_nan (a / b) = false ->
  SFplus (Prim2SF (a / b)) = true.
Proof.
  intros Ha Hb Hn. rewrite is_nan_spec in Hn. rewrite div_spec in *.
  apply SFdiv_plus; assumption.
Qed.

(** A number with a clear sign bit is at least 0. *)
Lemma plus_leb_zero x : SFplus (Prim2SF x) = true -> (0 <=? x) = true.
Proof. intros H. rewrite leb_zero_spec. apply SFplus_nonneg, H. Qed.

Lemma plus_not_nan x : SFplus (Prim2SF x) = true -> is_nan x = false.
Proof. rewrite is_nan_spec. destruct (Prim2SF x); simpl; auto; discriminate. Qed.

Lemma nonneg_not_nan x : (0 <=? x) = true -> is_nan x = false.
Proof.
  rewrite leb_zero_spec, is_nan_spec. destruct (Prim2SF x); simpl; auto; discriminate.
Qed.

(** Below or equal excludes strictly above. *)
Lemma leb_not_ltb x y : (x <=? y) = true -> (y <? x) = false.
Proof.
  rewrite leb_spec, ltb_spec. unfold SFleb, SFltb.
  rewrite (SFcompare_swap (Prim2SF x) (Prim2SF y)).
  destruct (SFcompare (Prim2SF x) (Prim2SF y)) as [[]|]; simpl; auto; discriminate.
Qed.

(** There is one [NaN]. *)
Lemma is_nan_eq x : is_nan x = true -> x = nan.
Proof.
  rewrite is_nan_spec. intros H. apply Prim2SF_inj.
  destruct (Prim2SF x); try discriminate. reflexivity.
Qed.

(** Neither below nor above zero, and not [NaN]: a zero. *)
Lemma zero_of_compare x :
  (0 <? x) = false -> (0 <=? x) = true -> SFis_zero (Prim2SF x) = true.
Proof.
  rewrite ltb_spec, leb_spec. change (Prim2SF 0) with (S754_zero false).
  destruct (Prim2SF x) as [s|s| |s m e]; try reflexivity; try destruct s;
    discriminate.
Qed.

(** The zero with a clear sign bit is [+0]. *)
Lemma plus_zero_eq x :
  SFplus (Prim2SF x) = true -> SFis_zero (Prim2SF x) = true -> x = 0.
Proof.
  intros P Z. apply Prim2SF_inj. change (Prim2SF 0) with (S754_zero false).
  destruct (Prim2SF x) as [s|s| |s m e]; try discriminate.
  destruct s; try discriminate. reflexivity.
Qed.

(** [Math.min(100, y)] of a number [y >= 0] lies in [[0, 100]]. *)
Lemma min_100_range y :
  (0 <=? y) = true ->
  (0 <=? Math_min 100 y) = true /\ (Math_min 100 y <=? 100) = true.
Proof.
  intros Hy. pose proof (nonneg_not_nan y Hy) as Hn.
  unfold Math_min. change (is_nan 100) with false. rewrite Hn. cbn [orb].
  destruct (100 <? y) eqn:A.
  - split; reflexivity.
  - assert (L : (y <=? 100) = true) by (apply not_ltb_leb; auto).
    change (get_sign 100) with false.
    destruct (y <? 100); split; assumption.
Qed.

(** [Math.min(100, y)] is [100] or [y]. *)
Lemma min_100_cases y :
  is_nan y = false -> Math_min 100 y = 100 \/ Math_min 100 y = y.
Proof.
  intros Hn. unfold Math_min. change (is_nan 100) with false. rewrite Hn. cbn [orb].
  change (get_sign 100) with false.
  destruct (100 <? y); auto. destruct (y <? 100); auto.
Qed.

(** Without a lower clamp the score is still the two-sided clamp, for a
    cycle efficiency that is [NaN] or has its sign bit clear. *)
Lemma min_100_is_clamp y :
  SFplus (Prim2SF y) = true \/ is_nan y = true ->
  Math_min 100 y = Reference.clamp y 0 100.
Proof.
  intros [P|N].
  - pose proof (plus_not_nan y P) as Hn.
    pose proof (min_100_range y (plus_leb_zero y P)) as [R0 _].
    assert (Pm : SFplus (Prim2SF (Math_min 100 y)) = true).
    { destruct (min_100_cases y Hn) as [->| ->]; [reflexivity | exact P]. }
    unfold Reference.clamp. set (m := Math_min 100 y) in *.
    unfold Math_max. change (is_nan 0) with false.
    rewrite (plus_not_nan m Pm). cbn [orb].
    destruct (0 <? m) eqn:A; [reflexivity|].
    rewrite (leb_not_ltb 0 m R0). change (get_sign 0) with false. cbv iota.
    apply plus_zero_eq; [exact Pm | apply zero_of_compare; assumption].
  - apply is_nan_eq in N. subst y. reflexivity.
Qed.

(** A division by zero never yields a finite number. *)
Lemma div_zero_not_finite a b :
  (b =? 0) = true -> SFnot_finite (Prim2SF (a / b)) = true.
Proof.
  rewrite eqb_spec, div_spec. change (Prim2SF 0) with (S754_zero false).
  destruct (Prim2SF b) as [s|s| |s m e]; try (destruct s; discriminate);
    try discriminate.
  intros _. destruct (Prim2SF a) as [sa|sa| |sa ma ea]; reflexivity.
Qed.

(** An infinity or [NaN] times a positive constant stays one. *)
Lemma not_finite_mul_const a c :
  SFnot_finite (Prim2SF a) = true -> pos_finite c = true ->
  SFnot_finite (Prim2SF (a * c)) = true.
Proof.
  unfold pos_finite. rewrite mul_spec.
  destruct (Prim2SF c) as [| | |[] m e]; try discriminate.
  destruct (Prim2SF a) as [sa|sa| |sa ma ea]; try discriminate; reflexivity.
Qed.

(** The numbers that are not finite. *)
Lemma not_finite_cases x :
  SFnot_finite (Prim2SF x) = true ->
  x = infinity \/ x = neg_infinity \/ x = nan.
Proof.
  intros H. destruct (Prim2SF x) as [s|[]| |s m e] eqn:E; try discriminate.
  - right; left. apply Prim2SF_inj. rewrite E. reflexivity.
  - left. apply Prim2SF_inj. rewrite E. reflexivity.
  - right; right. apply Prim2SF_inj. rewrite E. reflexivity.
Qed.

(** *** Finite magnitudes *)

Section Magnitudes.
Local Open Scope Z_scope.

(** An exponent bound can be relaxed. *)
Lemma exp_le_mono k k' x : k <= k' -> exp_le k x -> exp_le k' x.
Proof.
  unfold exp_le. intros L. destruct (Prim2SF x) as [| | |? ? e]; simpl; auto.
  rewrite !Z.leb_le. lia.
Qed.

Lemma small_pos_finite c : small_const c = true -> pos_finite c = true.
Proof.
  unfold small_const, pos_finite. destruct (Prim2SF c) as [| | |[] ? ?]; auto.
Qed.

(** A product with a small constant gains at most 8 exponents. *)
Lemma mul_const_bounded x c k :
  -1000 <= k <= 900 -> exp_le k x -> small_const c = true -> exp_le (k + 8) (x * c)%float.
Proof.
  unfold exp_le, small_const. intros K Hx Hc. rewrite mul_spec.
  pose proof (Prim2SF_valid c) as Vc.
  destruct (Prim2SF c) as [| | |[] mc ec]; try discriminate.
  apply Z.leb_le in Hc.
  apply (SFmul_bounded _ _ _ _ k); auto using Prim2SF_valid;
    unfold SpecFloat.emin, prec, emax; lia.
Qed.

(** A quotient by 100 stays finite. *)
Lemma div_100_bounded x k :
  -1000 <= k <= 900 -> exp_le k x -> exp_le (k + 47) (x / 100)%float.
Proof.
  unfold exp_le. intros K Hx. rewrite div_spec.
  change (Prim2SF 100%float) with (S754_finite false 7036874417766400 (-46)).
  apply (SFdiv_bounded _ _ _ _ k); auto using Prim2SF_valid;
    unfold SpecFloat.emin, prec, emax; lia.
Qed.

(** A sum of an accumulator and a non-negative term gains at most 2
    exponents. *)
Lemma add_bounded a b k :
  -1000 <= k <= 900 ->
  SFplus (Prim2SF a) = true -> SFnonneg (Prim2SF b) = true ->
  exp_le k a -> exp_le k b -> exp_le (k + 2) (a + b)%float.
Proof.
  unfold exp_le. intros K Pa Pb Ha Hb. rewrite add_spec.
  apply (SFadd_bounded _ _ k); auto using Prim2SF_valid;
    unfold SpecFloat.emin, prec, emax; lia.
Qed.

(** A percentage has the exponent of 100 at most. *)
Lemma percentage_bounded p : Domain.percentage p -> exp_le (-46) p.
Proof.
  unfold Domain.percentage, exp_le. rewrite !leb_spec.
  change (Prim2SF 0%float) with (S754_zero false).
  change (Prim2SF 100%float) with (S754_finite false 7036874417766400 (-46)).
  destruct (Prim2SF p) as [s|[]| |[] m e]; cbn [SFleb SFcompare SFexp_le];
    intros [A B]; try discriminate; auto.
  destruct (Z.compare_spec e (-46)); try discriminate; apply Z.leb_le; lia.
Qed.

(** The quotient of two finite accumulators, the divisor not zero, is a
    number. *)
Lemma div_not_nan a b k :
  SFplus (Prim2SF a) = true -> SFplus (Prim2SF b) = true ->
  exp_le k a -> exp_le k b -> (b =? 0)%float = false ->
  is_nan (a / b)%float = false.
Proof.
  unfold exp_le. intros Pa Pb Ha Hb Z. rewrite is_nan_spec, div_spec.
  apply (SFdiv_not_nan _ _ k); auto.
  rewrite eqb_spec in Z. change (Prim2SF 0%float) with (S754_zero false) in Z.
  destruct (Prim2SF b) as [[]| | |]; try reflexivity; discriminate.
Qed.

End Magnitudes.

End NumberFacts.

(** ** Objects *)

Module ObjectFacts.
Import JS.

Section Objects.
Context {A : Type}.
Implicit Types (o : object A) (k : string) (v : A).

(** Reading the assigned property gives the assigned value. *)
Lemma get_set_same k v o : get k (set k v o) = Some v.
Proof.
  induction o as [|[k' v'] r IH]; simpl.
  - rewrite String.eqb_refl. reflexivity.
  - destruct (String.eqb k k') eqn:E; simpl; rewrite ?String.eqb_refl, ?E; auto.
Qed.

(** Reading another property gives what it held. *)
Lemma get_set_other k k' v o : k' <> k -> get k' (set k v o) = get k' o.
Proof.
  intros N. induction o as [|[k0 v0] r IH]; simpl.
  - apply String.eqb_neq in N. rewrite N. reflexivity.
  - destruct (String.eqb k k0) eqn:E; simpl.
    + apply String.eqb_eq in E. subst k0.
      apply String.eqb_neq in N. rewrite N. reflexivity.
    + rewrite IH. reflexivity.
Qed.

(** Assigning an existing property adds no key, removes none, and keeps
    the order. *)
Lemma keys_set k v o : In k (Object_keys o) -> Object_keys (set k v o) = Object_keys o.
Proof.
  unfold Object_keys. induction o as [|[k' v'] r IH]; simpl; [tauto|].
  intros [->|H].
  - rewrite String.eqb_refl. reflexivity.
  - destruct (String.eqb k k') eqn:E; simpl.
    + apply String.eqb_eq in E. subst. reflexivity.
    + rewrite IH by exact H. reflexivity.
Qed.

(** A property held by the old values and by the assigned one holds of the
    new values. *)
Lemma values_set (P : A -> Prop) k v o :
  In k (Object_keys o) -> P v ->
  Forall P (Object_values o) -> Forall P (Object_values (set k v o)).
Proof.
  unfold Object_keys, Object_values.
  induction o as [|[k' v'] r IH]; simpl; [tauto|].
  intros Hk Pv F. inversion F as [|? ? P1 F1]; subst.
  destruct (String.eqb k k') eqn:E; simpl; constructor; auto.
  apply IH; auto. destruct Hk as [->|Hk]; auto.
  rewrite String.eqb_refl in E. discriminate.
Qed.

(** Every entry pairs a key of the object with one of its values. *)
Lemma entries_keys_values (P : string -> Prop) (Q : A -> Prop) o :
  Forall P (Object_keys o) -> Forall Q (Object_values o) ->
  Forall (fun e => P (fst e) /\ Q (snd e)) (Object_entries o).
Proof.
  unfold Object_keys, Object_values, Object_entries.
  induction o as [|[k v] r IH]; simpl; intros FK FV; constructor;
    inversion FK; inversion FV; subst; auto.
Qed.

End Objects.

End ObjectFacts.

(** ** The waste stream simulator *)

Module SimulatorFacts.
Import JS Binary64 Binary64Facts NumberFacts ObjectFacts.
Import WasteStreamSimulator Domain.
Local Open Scope float_scope.

(** Every category has a positive decomposition rate and a positive energy
    requirement. *)
Lemma coefficients_positive k :
  In k categories ->
  exists r q,
    get k decompositionRates = Some r /\ pos_finite r = true
    /\ get k energyRequirements = Some q /\ pos_finite q = true.
Proof.
  unfold categories. simpl.
  intros [<-|[<-|[<-|[<-|[<-|[]]]]]]; eexists _, _; repeat split; reflexivity.
Qed.

(** One pass of the loop body keeps the accumulators' sign bits clear. *)
Lemma accumulate_plus t k p :
  totals_plus t -> In k categories -> (0 <=? p) = true ->
  totals_plus (accumulate t (k, p)).
Proof.
  intros (He & Hm & Hc & Hh) Hk Hp.
  destruct (coefficients_positive k Hk) as (r & q & Er & Pr & Eq & Pq).
  rewrite leb_zero_spec in Hp.
  assert (W : SFnonneg (Prim2SF (p / 100 * 100)) = true).
  { apply nonneg_mul_const; [apply nonneg_div_const|]; auto. }
  unfold accumulate, totals_plus. cbn [totalEnergyNeeds totalMethaneOutput
    totalCarbonProduction totalHydrogenOutput].
  rewrite Er, Eq. cbn [to_number].
  assert (D : SFnonneg (Prim2SF (p / 100 * 100 * r)) = true)
    by (apply nonneg_mul_const; auto).
  repeat split; apply plus_add; auto; apply nonneg_mul_const; auto.
Qed.

(** So does the whole loop. *)
Lemma fold_accumulate_plus entries :
  forall t,
    totals_plus t ->
    Forall (fun e => In (fst e) categories /\ percentage (snd e)) entries ->
    totals_plus (fold_left accumulate entries t).
Proof.
  induction entries as [|[k p] r IH]; intros t Ht F; simpl; [exact Ht|].
  inversion F as [|? ? [Hk [Hp _]] F']; subst. simpl in Hk, Hp.
  apply IH; [apply accumulate_plus|]; assumption.
Qed.

(** The entries of a valid composition pair a category with a percentage. *)
Lemma valid_entries c :
  validComposition c ->
  Forall (fun e => In (fst e) categories /\ percentage (snd e)) (Object_entries c).
Proof.
  intros [K V].
  apply (entries_keys_values (fun k => In k categories) percentage); [|exact V].
  apply Forall_forall. intros k Hk. apply (Permutation_in k K Hk).
Qed.

(** The totals of a valid composition have their sign bits clear. *)
Lemma totals_valid c :
  validComposition c -> totals_plus (fold_left accumulate (Object_entries c) totals0).
Proof.
  intros V. apply fold_accumulate_plus; [|apply valid_entries, V].
  repeat split; reflexivity.
Qed.

(** The record of accumulators computes the four sums of the reference
    algorithm side by side. *)
Lemma fold_accumulate_sums entries :
  forall t,
    let t' := fold_left accumulate entries t in
    totalEnergyNeeds t'
    = fold_left (fun acc e => acc + Reference.categoryEnergy e) entries (totalEnergyNeeds t)
    /\ totalMethaneOutput t'
    = fold_left (fun acc e => acc + Reference.decomposed e * 0.40) entries (totalMethaneOutput t)
    /\ totalCarbonProduction t'
    = fold_left (fun acc e => acc + Reference.decomposed e * 0.30) entries (totalCarbonProduction t)
    /\ totalHydrogenOutput t'
    = fold_left (fun acc e => acc + Reference.decomposed e * 0.15) entries (totalHydrogenOutput t).
Proof.
  induction entries as [|[k p] r IH]; intros t; cbv zeta; cbn [fold_left].
  - repeat split.
  - destruct (IH (accumulate t (k, p))) as (E1 & E2 & E3 & E4).
    rewrite E1, E2, E3, E4. repeat split; reflexivity.
Qed.

(** *** The totals are finite *)

Section Finite.
Local Open Scope Z_scope.

(** Every rate and every energy requirement is a small positive constant. *)
Lemma coefficients_small k :
  In k categories ->
  exists r q,
    get k decompositionRates = Some r /\ small_const r = true
    /\ get k energyRequirements = Some q /\ small_const q = true.
Proof.
  unfold categories. simpl.
  intros [<-|[<-|[<-|[<-|[<-|[]]]]]]; eexists _, _; repeat split; reflexivity.
Qed.

(** One pass of the loop body raises the exponent bound of the accumulators
    by at most 2. *)
Lemma accumulate_le t key p k :
  25 <= k <= 800 -> totals_plus t -> totals_le k t ->
  In key categories -> percentage p ->
  totals_le (k + 2) (accumulate t (key, p)).
Proof.
  intros K (Pe & Pm & Pc & Ph) (Le & Lm & Lc & Lh) Hk Hp.
  destruct (coefficients_small key Hk) as (r & q & Er & Sr & Eq & Sq).
  pose proof (small_pos_finite r Sr) as Pr. pose proof (small_pos_finite q Sq) as Pq.
  assert (N : SFnonneg (Prim2SF p) = true) by (rewrite <- leb_zero_spec; apply Hp).
  assert (W : SFnonneg (Prim2SF (p / 100 * 100)%float) = true).
  { apply nonneg_mul_const; [apply nonneg_div_const|]; auto. }
  assert (Wb : exp_le 9 (p / 100 * 100)%float).
  { apply (mul_const_bounded _ _ 1); [lia| |reflexivity].
    apply (div_100_bounded _ (-46)); [lia|]. apply percentage_bounded, Hp. }
  assert (D : SFnonneg (Prim2SF (p / 100 * 100 * r)%float) = true)
    by (apply nonneg_mul_const; auto).
  assert (Db : exp_le 17 (p / 100 * 100 * r)%float)
    by (apply (mul_const_bounded _ _ 9); auto; lia).
  unfold accumulate, totals_le.
  cbn [totalEnergyNeeds totalMethaneOutput totalCarbonProduction totalHydrogenOutput].
  rewrite Er, Eq. cbn [to_number].
  repeat split; apply add_bounded; auto; try lia;
    try (apply nonneg_mul_const; auto; reflexivity);
    apply (exp_le_mono 25); try lia.
  - apply (exp_le_mono 17); [lia|]. apply (mul_const_bounded _ _ 9); auto; lia.
  - apply (mul_const_bounded _ _ 17); auto; try lia; reflexivity.
  - apply (mul_const_bounded _ _ 17); auto; try lia; reflexivity.
  - apply (mul_const_bounded _ _ 17); auto; try lia; reflexivity.
Qed.

(** The whole loop raises it by at most twice the number of entries. *)
Lemma fold_accumulate_le entries :
  forall t k,
    25 <= k -> k + 2 * Z.of_nat (List.length entries) <= 800 ->
    totals_plus t -> totals_le k t ->
    Forall (fun e => In (fst e) categories /\ percentage (snd e)) entries ->
    totals_le (k + 2 * Z.of_nat (List.length entries)) (fold_left accumulate entries t).
Proof.
  induction entries as [|[key p] r IH]; intros t k K1 K2 P L F.
  - simpl. rewrite Z.add_0_r. exact L.
  - inversion F as [|? ? [Hk Hp] F']; subst. simpl in Hk, Hp.
    cbn [fold_left List.length] in *. rewrite Nat2Z.inj_succ in *.
    replace (k + 2 * Z.succ (Z.of_nat (List.length r)))
      with (k + 2 + 2 * Z.of_nat (List.length r)) by lia.
    apply IH; try lia; auto.
    + apply accumulate_plus; auto. apply Hp.
    + apply accumulate_le; auto. lia.
Qed.

(** The totals of a valid composition are finite. *)
Lemma totals_finite c :
  validComposition c -> totals_le 35 (fold_left accumulate (Object_entries c) totals0).
Proof.
  intros V.
  assert (Len : List.length (Object_entries c) = 5%nat).
  { destruct V as [K _]. apply Permutation_length in K.
    unfold Object_keys, Object_entries in *. rewrite length_map in K. exact K. }
  pose proof (fold_accumulate_le (Object_entries c) totals0 25) as H.
  rewrite Len in H. apply H; try lia.
  - repeat split; reflexivity.
  - repeat split; reflexivity.
  - apply valid_entries, V.
Qed.

(** With a non-zero energy need the cycle efficiency is a number. *)
Lemma efficiency_is_number c :
  validComposition c ->
  (energyNeeds (simulateDecomposition c) =? 0)%float = false ->
  is_nan (cycleEfficiency (simulateDecomposition c)) = false.
Proof.
  intros V Z. destruct (totals_valid c V) as (Pe & Pm & Pc & Ph).
  destruct (totals_finite c V) as (Le & Lm & Lc & Lh).
  unfold simulateDecomposition in *. cbn [energyNeeds cycleEfficiency] in *.
  set (t := fold_left accumulate (Object_entries c) totals0) in *.
  apply (div_not_nan _ _ 45); auto.
  - apply plus_add; [apply plus_mul_const | apply SFplus_nonneg, plus_mul_const]; auto.
  - apply (add_bounded _ _ 43); try lia.
    + apply plus_mul_const; auto.
    + apply SFplus_nonneg, plus_mul_const; auto.
    + apply (mul_const_bounded _ _ 35); auto; try lia; reflexivity.
    + apply (mul_const_bounded _ _ 35); auto; try lia; reflexivity.
  - apply (exp_le_mono 35); [lia | exact Le].
Qed.

End Finite.

End SimulatorFacts.

(** ** Clamping an input into a percentage *)

Module ClampFacts.
Import JS Binary64 Binary64Facts NumberFacts Domain.
Local Open Scope float_scope.

(** A number equals itself. *)
Lemma eqb_refl x : is_nan x = false -> (x =? x) = true.
Proof. unfold is_nan. destruct (x =? x); auto. Qed.

(** Equality of Numbers is symmetric. *)
Lemma eqb_sym x y : (x =? y) = (y =? x).
Proof.
  rewrite !eqb_spec. unfold SFeqb.
  rewrite (SFcompare_swap (Prim2SF x) (Prim2SF y)).
  destruct (SFcompare (Prim2SF x) (Prim2SF y)) as [[]|]; reflexivity.
Qed.

(** [parsed || 0] is never [NaN]: it is [parsed] when that is a non-zero
    number, and [0] otherwise. *)
Lemma or_else_cases x :
  (truthy x = true /\ or_else x 0 = x /\ is_nan x = false /\ is_zero x = false)
  \/ (truthy x = false /\ or_else x 0 = 0 /\ (is_nan x = true \/ is_zero x = true)).
Proof.
  unfold or_else, truthy.
  destruct (is_nan x); [right; auto|].
  destruct (is_zero x); [right; auto|left; auto].
Qed.

(** [Math.min(100, y)] of a number is a number, at most 100. *)
Lemma min_100_le y :
  is_nan y = false ->
  is_nan (Math_min 100 y) = false /\ (Math_min 100 y <=? 100) = true.
Proof.
  intros Hn. unfold Math_min. change (is_nan 100) with false. rewrite Hn. cbn [orb].
  change (get_sign 100) with false.
  destruct (100 <? y) eqn:A; [split; reflexivity|].
  assert (L : (y <=? 100) = true) by (apply not_ltb_leb; auto).
  destruct (y <? 100); split; assumption.
Qed.

(** [Math.max(0, m)] of a number at most 100 is a percentage. *)
Lemma max_0_range m :
  is_nan m = false -> (m <=? 100) = true -> percentage (Math_max 0 m).
Proof.
  intros Hn Hm. unfold Math_max, percentage.
  change (is_nan 0) with false. rewrite Hn. cbn [orb].
  change (get_sign 0) with false.
  destruct (0 <? m) eqn:A.
  - split; [apply ltb_leb, A | exact Hm].
  - destruct (m <? 0); split; reflexivity.
Qed.

(** The stored value always is a percentage. *)
Lemma clamp_range x : percentage (Math_max 0 (Math_min 100 (or_else x 0))).
Proof.
  destruct (or_else_cases x) as [(_ & -> & Hn & _)|(_ & -> & _)].
  - destruct (min_100_le x Hn) as [N L]. apply max_0_range; assumption.
  - split; reflexivity.
Qed.

(** Text that is not a number is stored as 0. *)
Lemma clamp_nan x : is_nan x = true -> Math_max 0 (Math_min 100 (or_else x 0)) = 0.
Proof.
  intros H. unfold or_else, truthy. rewrite H. reflexivity.
Qed.

(** A strictly positive number: neither zero nor [NaN], and not below zero. *)
Lemma positive_of_nonneg x :
  (0 <=? x) = true -> is_zero x = false -> (0 <? x) = true.
Proof.
  unfold is_zero. rewrite leb_spec, ltb_spec, eqb_spec.
  change (Prim2SF 0) with (S754_zero false).
  destruct (Prim2SF x) as [s|[]| |[] m e]; simpl; auto; discriminate.
Qed.

(** A percentage is stored as it is. *)
Lemma clamp_inside x :
  percentage x -> (Math_max 0 (Math_min 100 (or_else x 0)) =? x) = true.
Proof.
  intros [L H]. pose proof (nonneg_not_nan x L) as Hn.
  destruct (or_else_cases x) as [(_ & -> & _ & Hz)|(_ & -> & [N|Z])].
  - assert (M : Math_min 100 x = x).
    { unfold Math_min. change (is_nan 100) with false. rewrite Hn. cbn [orb].
      rewrite (leb_not_ltb x 100 H). change (get_sign 100) with false.
      destruct (x <? 100); reflexivity. }
    rewrite M. unfold Math_max. change (is_nan 0) with false. rewrite Hn. cbn [orb].
    rewrite (positive_of_nonneg x L Hz). apply eqb_refl, Hn.
  - congruence.
  - change (Math_max 0 (Math_min 100 0)) with 0. rewrite eqb_sym. exact Z.
Qed.

(** What [x < 0] says of the representation of [x]. *)
Lemma negative_cases x :
  (x <? 0) = true ->
  is_nan x = false /\ is_zero x = false /\ (100 <? x) = false
  /\ (x <? 100) = true /\ (0 <? x) = false.
Proof.
  unfold is_zero. rewrite is_nan_spec, !ltb_spec, eqb_spec.
  change (Prim2SF 0) with (S754_zero false).
  change (Prim2SF 100) with (S754_finite false 7036874417766400 (-46)).
  destruct (Prim2SF x) as [s|[]| |[] m e]; simpl; try discriminate; auto.
Qed.

(** A negative number is stored as 0. *)
Lemma clamp_below x : (x <? 0) = true -> Math_max 0 (Math_min 100 (or_else x 0)) = 0.
Proof.
  intros H. destruct (negative_cases x H) as (Hn & Hz & A & B & C).
  unfold or_else, truthy. rewrite Hn, Hz. cbn [orb negb].
  unfold Math_min. change (is_nan 100) with false. rewrite Hn, A, B. cbn [orb].
  unfold Math_max. change (is_nan 0) with false. rewrite Hn, C, H. reflexivity.
Qed.

(** A number above 100 is stored as 100. *)
Lemma clamp_above x : (100 <? x) = true -> Math_max 0 (Math_min 100 (or_else x 0)) = 100.
Proof.
  intros H.
  assert (N : is_nan x = false /\ is_zero x = false).
  { revert H. unfold is_zero. rewrite is_nan_spec, ltb_spec, eqb_spec.
    change (Prim2SF 0) with (S754_zero false).
    change (Prim2SF 100) with (S754_finite false 7036874417766400 (-46)).
    destruct (Prim2SF x) as [s|[]| |[] m e]; simpl; try discriminate; auto. }
  destruct N as [Hn Hz].
  unfold or_else, truthy. rewrite Hn, Hz. cbn [orb negb].
  unfold Math_min. change (is_nan 100) with false. rewrite Hn, H. reflexivity.
Qed.

End ClampFacts.

(** ** The composition state stays valid *)

Module CompositionFacts.
Import JS ObjectFacts ClampFacts.
Import WasteStreamSimulator Domain.
Local Open Scope float_scope.

(** The initial composition is valid. *)
Lemma initial_composition_valid : validComposition initialComposition.
Proof. split; [apply Permutation_refl|]. repeat constructor. Qed.

(** The all-zero composition is valid. *)
Lemma zero_composition_valid : validComposition zeroComposition.
Proof. split; [apply Permutation_refl|]. repeat constructor. Qed.

(** Changing one of the five categories keeps a composition valid. *)
Lemma handleWasteChange_valid (prev : object number) (type : string) (parsed : number) :
  validComposition prev -> In type categories ->
  validComposition (handleWasteChange type parsed prev).
Proof.
  intros [K V] T. unfold handleWasteChange, spread_with.
  assert (Tk : In type (Object_keys prev))
    by (apply (Permutation_in type (Permutation_sym K) T)).
  split.
  - rewrite keys_set by exact Tk. exact K.
  - apply values_set; auto. apply clamp_range.
Qed.

(** The all-zero composition is one the component can hold: the operator
    types 0 into each of the five inputs. *)
Lemma zero_composition_reachable : reachable zeroComposition.
Proof.
  change zeroComposition with
    (handleWasteChange "metals" 0
       (handleWasteChange "organics" 0
          (handleWasteChange "structuralResidues" 0
             (handleWasteChange "packaging" 0
                (handleWasteChange "polymers" 0 initialComposition))))).
  repeat (apply reachable_change; [|simpl; tauto]).
  apply reachable_initial.
Qed.

(** Every composition the component can hold is valid. *)
Lemma reachable_valid (c : object number) : reachable c -> validComposition c.
Proof.
  induction 1 as [|c type parsed _ IH T].
  - exact initial_composition_valid.
  - apply handleWasteChange_valid; assumption.
Qed.

End CompositionFacts.

(** * The claims

    ** Waste stream simulator *)

Module SimulatorSpec.
Import JS Binary64 Binary64Facts NumberFacts ObjectFacts SimulatorFacts ClampFacts.
Import CompositionFacts WasteStreamSimulator Domain.
Local Open Scope float_scope.

(** The state of the component shows the renderings of the computed
    Numbers; for the all-zero composition, the rendering of [NaN] as cycle
    efficiency and as score. *)
Lemma zero_composition_state (toFixed : renderer) :
  runSimulation toFixed zeroComposition
  = {| State.energyNeeds := toFixed 1%nat 0;
       State.methaneOutput := toFixed 1%nat 0;
       State.carbonProduction := toFixed 1%nat 0;
       State.hydrogenOutput := toFixed 1%nat 0;
       State.sustainabilityScore := toFixed 0%nat nan;
       State.cycleEfficiency := toFixed 1%nat nan |}.
Proof. reflexivity. Qed.

(** C1 (as the code has it). On the all-zero composition the simulation needs
    no energy, and the cycle efficiency, computed as 0 / 0 with no guard, is
    [NaN]; the sustainability score inherits it. *)
Theorem zero_composition_unguarded :
  energyNeeds (simulateDecomposition zeroComposition) = 0
  /\ cycleEfficiency (simulateDecomposition zeroComposition) = nan
  /\ sustainabilityScore (simulateDecomposition zeroComposition) = nan.
Proof. repeat split; vm_compute; reflexivity. Qed.

(** C1 as stated fails: on the all-zero composition the energy need is 0 but
    the cycle efficiency is not the number 0. *)
Lemma zero_composition_efficiency_not_zero :
  ~ ((energyNeeds (simulateDecomposition zeroComposition) =? 0) = true
     /\ (cycleEfficiency (simulateDecomposition zeroComposition) =? 0) = true).
Proof. intros [_ H]. vm_compute in H. discriminate H. Qed.

(** C4 (as the code has it). For every valid composition the energy need and
    the three product outputs are at least 0, and the sustainability score is
    [Math.min(100, cycleEfficiency * 1.2)], which there equals the two-sided
    clamp into [[0, 100]].  Whenever the energy need is not 0 the cycle
    efficiency is a number and the score lies in [[0, 100]]; when the cycle
    efficiency is [NaN] (the all-zero composition) so is the score. *)
Theorem simulation_outputs_bounded (c : object number) :
  validComposition c ->
  let s := simulateDecomposition c in
  (0 <=? energyNeeds s) = true
  /\ (0 <=? methaneOutput s) = true
  /\ (0 <=? carbonProduction s) = true
  /\ (0 <=? hydrogenOutput s) = true
  /\ sustainabilityScore s = Math_min 100 (cycleEfficiency s * 1.2)
  /\ sustainabilityScore s = Reference.clamp (cycleEfficiency s * 1.2) 0 100
  /\ ((energyNeeds s =? 0) = false -> is_nan (cycleEfficiency s) = false)
  /\ (is_nan (cycleEfficiency s) = false ->
      (0 <=? sustainabilityScore s) = true /\ (sustainabilityScore s <=? 100) = true)
  /\ (is_nan (cycleEfficiency s) = true -> is_nan (sustainabilityScore s) = true).
Proof.
  intros V s. destruct (totals_valid c V) as (He & Hm & Hc & Hh).
  pose proof (efficiency_is_number c V) as Number.
  subst s. unfold simulateDecomposition in *.
  set (t := fold_left accumulate (Object_entries c) totals0) in *.
  cbn [energyNeeds methaneOutput carbonProduction hydrogenOutput
       sustainabilityScore cycleEfficiency] in *.
  set (ce := (totalMethaneOutput t * 50 + totalHydrogenOutput t * 120)
             / totalEnergyNeeds t) in *.
  assert (Num : SFplus (Prim2SF (totalMethaneOutput t * 50 + totalHydrogenOutput t * 120))
                = true).
  { apply plus_add; [apply plus_mul_const | apply SFplus_nonneg, plus_mul_const];
      auto. }
  assert (Ce : is_nan ce = false -> SFplus (Prim2SF (ce * 1.2)) = true).
  { intros N. apply plus_mul_const; [|reflexivity]. apply plus_div; assumption. }
  assert (Nan : is_nan ce = true -> is_nan (ce * 1.2) = true).
  { intros N. apply is_nan_eq in N. rewrite N. reflexivity. }
  split; [apply plus_leb_zero, He|].
  split; [apply plus_leb_zero, Hm|].
  split; [apply plus_leb_zero, Hc|].
  split; [apply plus_leb_zero, Hh|].
  split; [reflexivity|].
  split; [|split; [exact Number|split]].
  - apply min_100_is_clamp. destruct (is_nan ce) eqn:N; auto.
  - intros N. apply min_100_range, plus_leb_zero, Ce, N.
  - intros N. apply Nan, is_nan_eq in N. rewrite N. reflexivity.
Qed.

Lemma simulation_outputs_bounded_witness :
  validComposition initialComposition
  /\ (0 <=? energyNeeds (simulateDecomposition initialComposition)) = true
  /\ (sustainabilityScore (simulateDecomposition initialComposition) <=? 100) = true.
Proof.
  split; [exact initial_composition_valid|].
  pose proof (simulation_outputs_bounded initialComposition initial_composition_valid)
    as (E & _ & _ & _ & _ & _ & N & S & _).
  split; [exact E|]. apply S, N. reflexivity.
Defined.

(** C4 as stated fails: the all-zero composition is valid, and its score is
    [NaN], which is not in [[0, 100]]. *)
Lemma zero_composition_score_not_in_range :
  ~ (validComposition zeroComposition ->
     (0 <=? sustainabilityScore (simulateDecomposition zeroComposition)) = true
     /\ (sustainabilityScore (simulateDecomposition zeroComposition) <=? 100) = true).
Proof.
  intros H. destruct (H zero_composition_valid) as [L _].
  vm_compute in L. discriminate L.
Qed.

(** C5. For every composition the simulation follows the reference
    algorithm: each category contributes [categoryMass = (percentage / 100) *
    totalMass] with [totalMass = 100] and [decomposed = categoryMass *] its
    decomposition rate; the energy need accumulates [categoryMass *] the
    energy requirement, methane, carbon and hydrogen accumulate 0.40, 0.30
    and 0.15 of [decomposed], and the cycle efficiency is [(methane * 50 +
    hydrogen * 120) / energyNeeds] (in particular when the energy need is
    not zero). *)
Theorem simulation_follows_reference (c : object number) :
  energyNeeds (simulateDecomposition c) = Reference.energyNeeds c
  /\ methaneOutput (simulateDecomposition c) = Reference.methane c
  /\ carbonProduction (simulateDecomposition c) = Reference.carbon c
  /\ hydrogenOutput (simulateDecomposition c) = Reference.hydrogen c
  /\ ((energyNeeds (simulateDecomposition c) =? 0) = false ->
      cycleEfficiency (simulateDecomposition c) = Reference.cycleEfficiency c).
Proof.
  destruct (fold_accumulate_sums (Object_entries c) totals0) as (E1 & E2 & E3 & E4).
  unfold simulateDecomposition.
  cbn [energyNeeds methaneOutput carbonProduction hydrogenOutput cycleEfficiency].
  unfold Reference.cycleEfficiency, Reference.energyNeeds, Reference.methane,
    Reference.carbon, Reference.hydrogen, Reference.accumulated.
  rewrite E1, E2, E3, E4. repeat split.
Qed.

(** C9. [handleWasteChange] stores the input clamped into [[0, 100]]: the
    stored value is a percentage, it is 0 for text that is not a number, the
    input itself when that is a percentage, 0 below 0 and 100 above 100; the
    keys stay as they were, the five categories, and a valid composition
    stays valid. *)
Theorem handleWasteChange_normalizes (prev : object number) (type : string)
    (parsed : number) :
  Permutation (Object_keys prev) categories -> In type categories ->
  let next := handleWasteChange type parsed prev in
  Object_keys next = Object_keys prev
  /\ Permutation (Object_keys next) categories
  /\ (exists v,
        get type next = Some v
        /\ percentage v
        /\ (is_nan parsed = true -> v = 0)
        /\ (percentage parsed -> (v =? parsed) = true)
        /\ ((parsed <? 0) = true -> v = 0)
        /\ ((100 <? parsed) = true -> v = 100))
  /\ (validComposition prev -> validComposition next).
Proof.
  intros K T next. subst next. unfold handleWasteChange, spread_with.
  assert (Tk : In type (Object_keys prev))
    by (apply (Permutation_in type (Permutation_sym K) T)).
  rewrite keys_set by exact Tk.
  split; [reflexivity|]. split; [exact K|]. split.
  - eexists. split; [apply get_set_same|].
    split; [apply clamp_range|].
    split; [apply clamp_nan|].
    split; [apply clamp_inside|].
    split; [apply clamp_below|apply clamp_above].
  - intros V. apply handleWasteChange_valid; assumption.
Qed.

Lemma handleWasteChange_normalizes_witness :
  Object_keys (handleWasteChange "organics" 250 initialComposition) = categories
  /\ get "organics" (handleWasteChange "organics" 250 initialComposition) = Some 100.
Proof.
  pose proof (handleWasteChange_normalizes initialComposition "organics" 250
                (Permutation_refl _)
                (or_intror (or_intror (or_intror (or_introl eq_refl)))))
    as (K & _ & _).
  split; [exact K | reflexivity].
Defined.

(** C10. Updating one category leaves the percentage of every other
    category exactly as it was, and the key set and its order as they
    were. *)
Theorem handleWasteChange_frame (prev : object number) (type other : string)
    (parsed : number) :
  other <> type ->
  get other (handleWasteChange type parsed prev) = get other prev
  /\ (In type (Object_keys prev) ->
      Object_keys (handleWasteChange type parsed prev) = Object_keys prev).
Proof.
  intros N. unfold handleWasteChange, spread_with. split.
  - apply get_set_other, N.
  - apply keys_set.
Qed.

Lemma handleWasteChange_frame_witness :
  get "metals" (handleWasteChange "polymers" 50 initialComposition)
  = get "metals" initialComposition.
Proof.
  apply (handleWasteChange_frame initialComposition "polymers" "metals" 50).
  discriminate.
Defined.

End SimulatorSpec.

(** ** AI process optimizer *)

Module OptimizerSpec.
Import JS Random Binary64 Binary64Facts NumberFacts.
Import AIProcessOptimizer.
Local Open Scope float_scope.

(** The returned state is a function of the parameters alone. *)
Lemma optimize_result (g : rng) (p : parameters) :
  fst (optimize g p)
  = let methaneYield :=
      (temperature p / 1200) * (flowRate p / 100) * (catalystEfficiency p / 100) * 85 in
    let powerConsumption :=
      energyInput p * (1 - (catalystEfficiency p / 100) * 0.3) in
    let efficiency := (methaneYield / powerConsumption) * 100 in
    {| methaneYield := methaneYield;
       powerConsumption := powerConsumption;
       efficiency := efficiency;
       prediction := Reference.classify p efficiency;
       status := "Optimization Complete" |}.
Proof. reflexivity. Qed.

(** The four messages are pairwise distinct. *)
Lemma predictions_distinct :
  HighTempWarning <> LowCatalystAlert /\ HighTempWarning <> Optimal
  /\ HighTempWarning <> Suboptimal /\ LowCatalystAlert <> Optimal
  /\ LowCatalystAlert <> Suboptimal /\ Optimal <> Suboptimal.
Proof. repeat split; discriminate. Qed.

(** C2. The prediction is decided by the ordered rule chain, the first
    matching rule winning: temperature above 1300 gives the high temperature
    warning; otherwise catalyst efficiency below 85 gives the low catalyst
    alert; otherwise efficiency above 75 gives optimal; otherwise suboptimal.
    With both temperature above 1300 and catalyst efficiency below 85 (as
    for 1400 and 80) the warning is reported, never the alert. *)
Theorem prediction_rule_chain (g : rng) (p : parameters) :
  let o := fst (optimize g p) in
  prediction o = Reference.classify p (efficiency o)
  /\ ((1300 <? temperature p) = true -> prediction o = HighTempWarning)
  /\ ((1300 <? temperature p) = false -> (catalystEfficiency p <? 85) = true ->
      prediction o = LowCatalystAlert)
  /\ ((1300 <? temperature p) = false -> (catalystEfficiency p <? 85) = false ->
      (75 <? efficiency o) = true -> prediction o = Optimal)
  /\ ((1300 <? temperature p) = false -> (catalystEfficiency p <? 85) = false ->
      (75 <? efficiency o) = false -> prediction o = Suboptimal)
  /\ ((1300 <? temperature p) = true -> (catalystEfficiency p <? 85) = true ->
      prediction o = HighTempWarning /\ prediction o <> LowCatalystAlert)
  /\ (temperature p = 1400 -> catalystEfficiency p = 80 ->
      prediction o = HighTempWarning /\ prediction o <> LowCatalystAlert).
Proof.
  intros o. subst o. rewrite optimize_result. cbv zeta.
  cbn [prediction efficiency].
  set (e := _ / _ * 100).
  unfold Reference.classify, Reference.rules, Reference.firstMatch.
  split; [reflexivity|].
  split; [intros ->; reflexivity|].
  split; [intros -> ->; reflexivity|].
  split; [intros -> -> ->; reflexivity|].
  split; [intros -> -> ->; reflexivity|].
  split; [intros -> _; split; [reflexivity | discriminate]|].
  intros -> _. split; [reflexivity | discriminate].
Qed.

(** C3 (as the code has it). The optimizer computes the methane yield, the
    power consumption and the efficiency by the three formulas; the division
    has no guard, so the efficiency agrees with the guarded one whenever the
    power consumption is not 0, and is an infinity or [NaN], never 0, when
    it is 0. *)
Theorem optimization_formulas (g : rng) (p : parameters) :
  let o := fst (optimize g p) in
  methaneYield o
  = (temperature p / 1200) * (flowRate p / 100) * (catalystEfficiency p / 100) * 85
  /\ powerConsumption o = energyInput p * (1 - (catalystEfficiency p / 100) * 0.3)
  /\ efficiency o = (methaneYield o / powerConsumption o) * 100
  /\ ((powerConsumption o =? 0) = false ->
      efficiency o = Reference.guardedEfficiency (methaneYield o) (powerConsumption o))
  /\ ((powerConsumption o =? 0) = true ->
      (efficiency o = infinity \/ efficiency o = neg_infinity \/ efficiency o = nan)
      /\ (efficiency o =? 0) = false).
Proof.
  intros o. subst o. rewrite optimize_result. cbv zeta.
  cbn [methaneYield powerConsumption efficiency].
  set (my := _ * 85). set (pc := energyInput p * _).
  split; [reflexivity|]. split; [reflexivity|]. split; [reflexivity|].
  split.
  - intros N. unfold Reference.guardedEfficiency. rewrite N. reflexivity.
  - intros Z.
    assert (F : SFnot_finite (Prim2SF (my / pc * 100)) = true).
    { apply not_finite_mul_const; [apply div_zero_not_finite, Z | reflexivity]. }
    split; [apply not_finite_cases, F|].
    destruct (not_finite_cases _ F) as [-> |[-> | ->]]; reflexivity.
Qed.

(** With the energy input 0 the power consumption is 0 and the efficiency
    is [Infinity]. *)
Lemma zero_energy_run (g : rng) :
  zeroEnergyParameters
  = {| temperature := 1200; flowRate := 85; catalystEfficiency := 92;
       energyInput := 0; pressure := 2.5 |}
  /\ powerConsumption (fst (optimize g zeroEnergyParameters)) = 0
  /\ efficiency (fst (optimize g zeroEnergyParameters)) = infinity.
Proof. rewrite optimize_result. repeat split. Qed.

(** C3 as stated fails: with the energy input 0 the power consumption is 0
    and the efficiency is not defined as 0 (it is [Infinity]). *)
Lemma zero_power_efficiency_not_zero :
  ~ ((powerConsumption
        (fst (optimize (fun _ => 0.5) zeroEnergyParameters)) =? 0) = true ->
     (efficiency
        (fst (optimize (fun _ => 0.5) zeroEnergyParameters)) =? 0) = true).
Proof.
  intros H. assert (Z : (infinity =? 0) = true) by (apply H; vm_compute; reflexivity).
  vm_compute in Z. discriminate Z.
Qed.

(** C6. The returned metrics do not depend on the random draws: two runs on
    the same parameters, whatever the generator state of each (in particular
    the second run following the first), return the same methane yield,
    power consumption, efficiency and prediction, and so the same rendered
    state; the drawn targets only advance the generator. *)
Theorem optimization_deterministic (g1 g2 : rng) (p : parameters) :
  fst (optimize g1 p) = fst (optimize g2 p)
  /\ fst (optimize (snd (optimize g1 p)) p) = fst (optimize g1 p)
  /\ snd (optimize g1 p) = snd (drawTargets g1)
  /\ (forall toFixed : renderer,
        fst (runOptimization toFixed g1 p) = fst (runOptimization toFixed g2 p)).
Proof.
  rewrite !optimize_result. repeat split.
Qed.

End OptimizerSpec.

(** ** System dashboard *)

(** *** The readings of the dashboard are ordinary baselines *)

Module ReadingFacts.
Import JS Binary64 Binary64Facts NumberFacts Domain.
Local Open Scope Z_scope.







End ReadingFacts.

Module DashboardSpec.
Import JS Random Binary64 Binary64Facts NumberFacts ReadingFacts.
Import SystemDashboard Domain Readings.
Local Open Scope float_scope.

(** The dashboard state holds the rendering of the projection for the crew
    of 6, the alerts of the sample and the maintenance list. *)
Lemma updateMetrics_result (toFixed : renderer) (g : rng) (s : sample) :
  dashProjections (fst (updateMetrics toFixed g s))
  = {| State.year1 := renderYear toFixed (year1 (project 6 s));
       State.year2 := renderYear toFixed (year2 (project 6 s));
       State.year3 := renderYear toFixed (year3 (project 6 s)) |}
  /\ dashAlerts (fst (updateMetrics toFixed g s))
     = fst (evaluateAlerts g (sampleEfficiency s) (basePower s))
  /\ dashMaintenance (fst (updateMetrics toFixed g s)) = maintenanceItems.
Proof. repeat split. Qed.

(** The annualized value of one metric, as [project] computes it for year 1. *)
Lemma year1_fields (crew : number) (s : sample) :
  waste (year1 (project crew s)) = baseWaste s * 365 * scalingFactor crew / 1000
  /\ methane (year1 (project crew s)) = baseMethane s * 365 * scalingFactor crew / 1000
  /\ power (year1 (project crew s)) = basePower s * 365 * scalingFactor crew / 1000
  /\ efficiency (year1 (project crew s)) = sampleEfficiency s * 0.95.
Proof. repeat split. Qed.





(** The three alert messages are pairwise distinct. *)
Lemma alerts_distinct :
  efficiencyAlert <> powerAlert /\ efficiencyAlert <> sensorDriftAlert
  /\ powerAlert <> sensorDriftAlert.
Proof. repeat split; discriminate. Qed.

(** What a conditional [push] leaves in the array. *)
Lemma in_push_if (c : bool) (x y : string) (l : list string) :
  In y (push_if c x l) <-> In y l \/ (c = true /\ y = x).
Proof.
  unfold push_if. destruct c.
  - rewrite in_app_iff. simpl. intuition congruence.
  - intuition congruence.
Qed.

(** C8. The alert rules are independent threshold checks: the efficiency
    alert is raised exactly when the efficiency is below 70, the power alert
    exactly when the power is above 200, the sensor drift alert exactly when
    the draw exceeds 0.8, each whatever the others do.  For efficiency 65
    and power 150 the efficiency alert is always raised and the power alert
    never, whatever the draw. *)
Theorem alerts_independent_thresholds (g : rng) (efficiency basePower : number) :
  let alerts := fst (evaluateAlerts g efficiency basePower) in
  (In efficiencyAlert alerts <-> (efficiency <? 70) = true)
  /\ (In powerAlert alerts <-> (200 <? basePower) = true)
  /\ (In sensorDriftAlert alerts <-> (0.8 <? g 0%nat) = true)
  /\ (In efficiencyAlert (fst (evaluateAlerts g 65 150))
      /\ ~ In powerAlert (fst (evaluateAlerts g 65 150))).
Proof.
  destruct alerts_distinct as (D1 & D2 & D3).
  assert (G : forall e b y,
             In y (fst (evaluateAlerts g e b))
             <-> ((e <? 70) = true /\ y = efficiencyAlert)
                 \/ ((200 <? b) = true /\ y = powerAlert)
                 \/ ((0.8 <? g 0%nat) = true /\ y = sensorDriftAlert)).
  { intros e b y. unfold evaluateAlerts, Math_random. cbn [fst].
    rewrite !in_push_if. simpl. tauto. }
  cbv zeta. rewrite !G.
  assert (E65 : (65 <? 70) = true) by reflexivity.
  assert (P150 : (200 <? 150) = false) by reflexivity.
  rewrite E65, P150.
  repeat split; intros; intuition congruence.
Qed.

End DashboardSpec.

(** * Further properties of the code

    ** Binary64 arithmetic: signs of sums, differences and products *)

Module RoundingFacts.
Import Binary64 Binary64Facts Signs.
Local Open Scope Z_scope.

(** Rounding a non-negative mantissa gives a number with the sign asked
    for. *)
Lemma binary_round_aux_signed s mx ex lx :
  0 <= mx -> SFsigned s (binary_round_aux prec emax s mx ex lx) = true.
Proof.
  intros H. unfold binary_round_aux.
  pose proof (shr_fexp_nonneg prec emax mx ex lx H) as H1.
  destruct (shr_fexp prec emax mx ex lx) as [mrs' e']. simpl in H1.
  pose proof (shr_fexp_nonneg prec emax _ e' loc_Exact
                (round_nearest_even_nonneg _ (loc_of_shr_record mrs') H1)) as H2.
  destruct (shr_fexp prec emax _ e' loc_Exact) as [mrs'' e'']. simpl in H2.
  destruct (shr_m mrs'') as [|m|m]; try lia.
  - apply eqb_reflx.
  - destruct (Z.leb e'' (emax - prec)); apply eqb_reflx.
Qed.

Lemma binary_round_signed s m e :
  SFsigned s (binary_round prec emax s m e) = true.
Proof.
  unfold binary_round. destruct (shl_align m e _) as [mz ez].
  apply binary_round_aux_signed. lia.
Qed.

(** Normalizing an integer gives a number of the sign of the integer. *)
Lemma binary_normalize_signed m e sz :
  SFsigned (match m with Z0 => sz | Zpos _ => false | Zneg _ => true end)
    (binary_normalize prec emax m e sz) = true.
Proof.
  destruct m; simpl; [apply eqb_reflx | apply binary_round_signed ..].
Qed.

Lemma signed_not_nan s x : SFsigned s x = true -> SFis_nan x = false.
Proof. destruct x; simpl; auto; discriminate. Qed.

(** A product with a finite non-zero number is [NaN] only for [NaN]. *)
Lemma SFmul_finite_nan x sy my ey :
  SFis_nan (SF64mul x (S754_finite sy my ey)) = SFis_nan x.
Proof.
  destruct x as [sx|sx| |sx mx ex]; simpl; try reflexivity.
  apply (signed_not_nan (xorb sx sy)), binary_round_aux_signed. lia.
Qed.

(** A product of a number that is not positive with a positive finite one
    is not positive. *)
Lemma SFmul_nonpos x my ey :
  SFnonpos x = true -> SFnonpos (SF64mul x (S754_finite false my ey)) = true.
Proof.
  destruct x as [sx|sx| |sx mx ex]; simpl; try discriminate; auto;
    intros ->; try reflexivity.
  pose proof (binary_round_aux_signed true (Zpos (mx * my)) (ex + ey) loc_Exact) as H.
  cbn [xorb].
  destruct (binary_round_aux prec emax true (Zpos (mx * my)) (ex + ey) loc_Exact)
    as [s|s| |s m e]; simpl in *; try (specialize (H ltac:(lia))); try apply eqb_prop in H;
    try discriminate; auto.
Qed.

(** A product of a zero or [NaN] is a zero or [NaN]. *)
Lemma SFmul_zero_or_nan x y :
  SFzero_or_nan x = true -> SFzero_or_nan (SF64mul x y) = true.
Proof.
  destruct x as [sx|sx| |sx mx ex], y as [sy|sy| |sy my ey]; simpl;
    try discriminate; reflexivity.
Qed.

(** A zero or [NaN] divided by a zero is [NaN]. *)
Lemma SFdiv_zero_zero x y :
  SFzero_or_nan x = true -> SFis_zero y = true -> SF64div x y = S754_nan.
Proof.
  destruct x as [sx|sx| |sx mx ex], y as [sy|sy| |sy my ey]; simpl;
    try discriminate; reflexivity.
Qed.

(** A difference with a finite number is [NaN] only for [NaN]. *)
Lemma SFsub_finite_nan_l x sy my ey :
  SFis_nan (SF64sub x (S754_finite sy my ey)) = SFis_nan x.
Proof.
  destruct x as [sx|sx| |sx mx ex]; try reflexivity.
  unfold SF64sub, SFsub.
  eapply signed_not_nan, binary_normalize_signed.
Qed.

Lemma SFsub_finite_nan_r sx mx ex y :
  SFis_nan (SF64sub (S754_finite sx mx ex) y) = SFis_nan y.
Proof.
  destruct y as [sy|sy| |sy my ey]; try reflexivity.
  unfold SF64sub, SFsub.
  eapply signed_not_nan, binary_normalize_signed.
Qed.

(** A finite number minus itself is [+0]. *)
Lemma SFsub_diag x : SFfinite x = true -> SF64sub x x = S754_zero false.
Proof.
  destruct x as [s|s| |s m e]; try discriminate; intros _.
  - destruct s; reflexivity.
  - unfold SF64sub, SFsub. rewrite Z.sub_diag. reflexivity.
Qed.

(** Comparing the mantissas of two numbers of one exponent. *)
Lemma compare_cont_le m1 m2 :
  Pos.compare_cont Eq m1 m2 <> Gt -> Zpos m1 <= Zpos m2.
Proof.
  change (Pos.compare_cont Eq m1 m2) with (Pos.compare m1 m2).
  intros H. assert (L : (m1 <= m2)%positive) by exact H. lia.
Qed.

(** A number that is at most a positive finite one, minus that one, is not
    positive. *)
Lemma SFsub_nonpos x my ey :
  valid_binary x = true -> valid_binary (S754_finite false my ey) = true ->
  SFleb x (S754_finite false my ey) = true ->
  SFnonpos (SF64sub x (S754_finite false my ey)) = true.
Proof.
  intros Vx Vy L.
  destruct x as [sx|sx| |sx mx ex]; try discriminate.
  - reflexivity.
  - destruct sx; [reflexivity | discriminate].
  - unfold SF64sub, SFsub. cbn [cond_Zopp].
    pose proof (shl_align_value mx ex (Z.min ex ey)) as Ax.
    pose proof (shl_align_value my ey (Z.min ex ey)) as Ay.
    change IntDef.Z.min with Z.min in *.
    destruct (shl_align mx ex (Z.min ex ey)) as [mx' ex'].
    destruct (shl_align my ey (Z.min ex ey)) as [my' ey'].
    destruct Ax as [Ex Mx], Ay as [Ey My]. cbn [fst].
    assert (D : cond_Zopp sx (Zpos mx') - Zpos my' <= 0).
    { destruct sx; cbn [cond_Zopp]; [lia|].
      unfold SFleb in L. cbn [SFcompare] in L.
      destruct (Z.compare_spec ex ey) as [E|E|E]; try discriminate.
      - subst ey. assert (X : ex' = ex) by lia. assert (Y : ey' = ex) by lia.
        rewrite X in Mx. rewrite Y in My.
        rewrite Z.sub_diag, Z.mul_1_r in Mx, My.
        assert (Pos.compare_cont Eq mx my <> Gt)
          by (destruct (Pos.compare_cont Eq mx my); congruence).
        apply compare_cont_le in H. lia.
      - pose proof (valid_normal _ _ _ Vy) as Ny.
        pose proof (valid_digits _ _ _ Vx) as [Dx Ex0].
        specialize (Ny ltac:(lia)).
        pose proof (pos_bound mx) as Bx.
        assert (By : 2 ^ (prec - 1) <= Zpos my).
        { rewrite <- Ny. rewrite Zdigits2_log2.
          replace (Z.log2 (Zpos my) + 1 - 1) with (Z.log2 (Zpos my)) by lia.
          apply Z.log2_spec. lia. }
        assert (X : ex' = ex) by lia. assert (Y : ey' = ex) by lia.
        rewrite X in Mx. rewrite Y in My.
        rewrite Z.sub_diag, Z.mul_1_r in Mx.
        assert (P : 2 ^ 1 <= 2 ^ (ey - ex)) by (apply Z.pow_le_mono_r; lia).
        assert (Q : Zpos mx < 2 ^ prec).
        { eapply Z.lt_le_trans; [exact Bx|]. apply Z.pow_le_mono_r; lia. }
        replace (2 ^ prec) with (2 ^ (prec - 1) * 2 ^ 1) in Q by reflexivity.
        nia. }
    pose proof (binary_normalize_signed
                  (cond_Zopp sx (Zpos mx') - Zpos my') (Z.min ex ey) false) as S.
    destruct (cond_Zopp sx (Zpos mx') - Zpos my') as [|p|p]; try lia.
    + reflexivity.
    + destruct (binary_normalize prec emax (Z.neg p) (Z.min ex ey) false) as [s|s| |s m e];
        simpl in *; try discriminate; auto; apply eqb_prop in S; auto.
Qed.

End RoundingFacts.

(** ** JavaScript Numbers: signs, [NaN] and the two clamps *)

Module ArithmeticFacts.
Import JS Binary64 Binary64Facts NumberFacts Signs RoundingFacts.
Local Open Scope float_scope.

(** A product with a positive finite constant is [NaN] only for [NaN]. *)
Lemma is_nan_mul_const x c : pos_finite c = true -> is_nan (x * c) = is_nan x.
Proof.
  unfold pos_finite. rewrite !is_nan_spec, mul_spec.
  destruct (Prim2SF c) as [| | |[] m e]; try discriminate. intros _.
  apply SFmul_finite_nan.
Qed.

(** A difference with a positive finite constant is [NaN] only for [NaN]. *)
Lemma is_nan_sub_const x c : pos_finite c = true -> is_nan (x - c) = is_nan x.
Proof.
  unfold pos_finite. rewrite !is_nan_spec, sub_spec.
  destruct (Prim2SF c) as [| | |[] m e]; try discriminate. intros _.
  apply SFsub_finite_nan_l.
Qed.

(** A positive finite constant minus a number is [NaN] only for [NaN]. *)
Lemma is_nan_const_sub c x : pos_finite c = true -> is_nan (c - x) = is_nan x.
Proof.
  unfold pos_finite. rewrite !is_nan_spec, sub_spec.
  destruct (Prim2SF c) as [| | |[] m e]; try discriminate. intros _.
  apply SFsub_finite_nan_r.
Qed.

(** [Math.max(lo, y)] of a number is a number, at least [lo]. *)
Lemma max_lower lo y :
  is_nan lo = false -> is_nan y = false ->
  is_nan (Math_max lo y) = false /\ (lo <=? Math_max lo y) = true.
Proof.
  intros Hl Hy. unfold Math_max. rewrite Hl, Hy. cbn [orb].
  destruct (lo <? y) eqn:A; [split; [exact Hy | apply ltb_leb, A]|].
  assert (R : (lo <=? lo) = true).
  { rewrite leb_spec. unfold SFleb. rewrite SFcompare_refl; [reflexivity|].
    rewrite <- is_nan_spec. exact Hl. }
  destruct (y <? lo) eqn:B; [split; assumption|].
  destruct (get_sign lo); split; auto.
  apply not_ltb_leb; auto.
Qed.

(** [Math.min(hi, y)] of a number is a number, at most [hi], and not below
    what both are above. *)
Lemma min_upper hi y lo :
  is_nan hi = false -> is_nan y = false ->
  (lo <=? hi) = true -> (lo <=? y) = true ->
  is_nan (Math_min hi y) = false
  /\ (Math_min hi y <=? hi) = true /\ (lo <=? Math_min hi y) = true.
Proof.
  intros Hh Hy Lh Ly. unfold Math_min. rewrite Hh, Hy. cbn [orb].
  assert (R : (hi <=? hi) = true).
  { rewrite leb_spec. unfold SFleb. rewrite SFcompare_refl; [reflexivity|].
    rewrite <- is_nan_spec. exact Hh. }
  destruct (hi <? y) eqn:A; [auto|].
  assert (L : (y <=? hi) = true) by (apply not_ltb_leb; auto).
  destruct (y <? hi) eqn:B; [auto|].
  destruct (get_sign hi); auto.
Qed.

(** [Math.min] and [Math.max] are [NaN] exactly when an argument is. *)
Lemma is_nan_max a b : is_nan (Math_max a b) = is_nan a || is_nan b.
Proof.
  unfold Math_max. destruct (is_nan a) eqn:A, (is_nan b) eqn:B; cbn [orb];
    try reflexivity.
  destruct (a <? b); [exact B|]. destruct (b <? a); [exact A|].
  destruct (get_sign a); assumption.
Qed.

Lemma is_nan_min a b : is_nan (Math_min a b) = is_nan a || is_nan b.
Proof.
  unfold Math_min. destruct (is_nan a) eqn:A, (is_nan b) eqn:B; cbn [orb];
    try reflexivity.
  destruct (a <? b); [exact A|]. destruct (b <? a); [exact B|].
  destruct (get_sign a); assumption.
Qed.

(** [Math.max(0, y)] of a number that is not positive is [+0]. *)
Lemma max_0_nonpos y : SFnonpos (Prim2SF y) = true -> Math_max 0 y = 0.
Proof.
  intros H. unfold Math_max. change (is_nan 0) with false.
  rewrite is_nan_spec, !ltb_spec. change (Prim2SF 0) with (S754_zero false).
  destruct (Prim2SF y) as [s|s| |s m e]; simpl in *; try discriminate; subst;
    reflexivity.
Qed.

(** A number at most 80, less 80, is not positive. *)
Lemma sub_const_nonpos x c :
  pos_finite c = true -> (x <=? c) = true -> SFnonpos (Prim2SF (x - c)) = true.
Proof.
  unfold pos_finite. rewrite leb_spec, sub_spec.
  pose proof (Prim2SF_valid c) as Vc. pose proof (Prim2SF_valid x) as Vx.
  destruct (Prim2SF c) as [| | |[] m e]; try discriminate. intros _ L.
  apply SFsub_nonpos; assumption.
Qed.

Lemma nonpos_mul_const x c :
  SFnonpos (Prim2SF x) = true -> pos_finite c = true ->
  SFnonpos (Prim2SF (x * c)) = true.
Proof.
  unfold pos_finite. intros Hx Hc. rewrite mul_spec.
  destruct (Prim2SF c) as [| | |[] m e]; try discriminate.
  apply SFmul_nonpos, Hx.
Qed.

(** A finite number minus itself is [+0]; an infinity minus itself is
    [NaN]. *)
Lemma sub_diag x :
  x - x = (if is_finite x then 0 else nan).
Proof.
  apply Prim2SF_inj. rewrite sub_spec.
  unfold is_finite, is_infinity. rewrite is_nan_spec, eqb_spec, abs_spec.
  change (Prim2SF infinity) with (S754_infinity false).
  destruct (Prim2SF x) as [s|s| |s m e] eqn:E; cbn [SFis_nan orb negb SFabs SFeqb SFcompare].
  - destruct s; reflexivity.
  - destruct s; reflexivity.
  - reflexivity.
  - rewrite SFsub_diag by reflexivity. reflexivity.
Qed.

(** Products commute. *)
Lemma mul_comm x y : x * y = y * x.
Proof. apply Prim2SF_inj. rewrite !mul_spec. apply SFmul_comm. Qed.

End ArithmeticFacts.


(** ** Arithmetic on [NaN] *)

Module NaNFacts.
Import JS Binary64 Binary64Facts NumberFacts.
Local Open Scope float_scope.

(** [NaN] absorbs every operation. *)
Lemma add_nan_l b : nan + b = nan.
Proof. apply Prim2SF_inj. rewrite add_spec. reflexivity. Qed.

Lemma add_nan_r a : a + nan = nan.
Proof.
  apply Prim2SF_inj. rewrite add_spec. change (Prim2SF nan) with S754_nan.
  destruct (Prim2SF a); reflexivity.
Qed.

Lemma mul_nan_l b : nan * b = nan.
Proof. apply Prim2SF_inj. rewrite mul_spec. reflexivity. Qed.

Lemma mul_nan_r a : a * nan = nan.
Proof.
  apply Prim2SF_inj. rewrite mul_spec. change (Prim2SF nan) with S754_nan.
  destruct (Prim2SF a); reflexivity.
Qed.

Lemma div_nan_l b : nan / b = nan.
Proof. apply Prim2SF_inj. rewrite div_spec. reflexivity. Qed.

Lemma sub_nan_l b : nan - b = nan.
Proof. apply Prim2SF_inj. rewrite sub_spec. reflexivity. Qed.

End NaNFacts.

(** ** Objects: reads and repeated assignments *)

Module ObjectUpdates.
Import JS ObjectFacts.

Section Objects.
Context {A : Type}.
Implicit Types (o : object A) (k : string) (v : A).

(** A name that is no key reads as missing. *)
Lemma get_missing k o : ~ In k (Object_keys o) -> get k o = None.
Proof.
  unfold Object_keys. induction o as [|[k' v'] r IH]; simpl; intros N; [reflexivity|].
  destruct (String.eqb k k') eqn:E.
  - apply String.eqb_eq in E. subst. tauto.
  - apply IH. tauto.
Qed.

(** What a read finds is one of the values. *)
Lemma get_in_values k v o : get k o = Some v -> In v (Object_values o).
Proof.
  unfold Object_values. induction o as [|[k' v'] r IH]; simpl; [discriminate|].
  destruct (String.eqb k k'); intros H; [left; congruence | right; auto].
Qed.

(** What a read finds is one of the entries. *)
Lemma get_in_entries k v o : get k o = Some v -> In (k, v) (Object_entries o).
Proof.
  unfold Object_entries. induction o as [|[k' v'] r IH]; simpl; [discriminate|].
  destruct (String.eqb k k') eqn:E; intros H.
  - apply String.eqb_eq in E. left. congruence.
  - right; auto.
Qed.

(** The last assignment of a property wins. *)
Lemma set_set k v1 v2 o : set k v2 (set k v1 o) = set k v2 o.
Proof.
  induction o as [|[k' v'] r IH]; simpl.
  - rewrite String.eqb_refl. reflexivity.
  - destruct (String.eqb k k') eqn:E; simpl; rewrite ?String.eqb_refl, ?E, ?IH; reflexivity.
Qed.

(** Assignments of two properties commute when one of them exists. *)
Lemma set_comm k1 k2 v1 v2 o :
  k1 <> k2 -> In k1 (Object_keys o) ->
  set k1 v1 (set k2 v2 o) = set k2 v2 (set k1 v1 o).
Proof.
  unfold Object_keys. intros N.
  assert (N12 : String.eqb k1 k2 = false) by (apply String.eqb_neq; exact N).
  assert (N21 : String.eqb k2 k1 = false) by (apply String.eqb_neq; congruence).
  induction o as [|[k' v'] r IH]; simpl; [tauto|]. intros H.
  destruct (String.eqb k2 k') eqn:E2, (String.eqb k1 k') eqn:E1.
  - apply String.eqb_eq in E1, E2. congruence.
  - apply String.eqb_eq in E2. subst k'. simpl. rewrite N12, String.eqb_refl. reflexivity.
  - apply String.eqb_eq in E1. subst k'. simpl. rewrite N21, String.eqb_refl. reflexivity.
  - simpl. rewrite E1, E2, IH; [reflexivity|]. destruct H as [H|H]; [|exact H].
    apply String.eqb_neq in E1. congruence.
Qed.

End Objects.

End ObjectUpdates.

(** ** The waste stream simulator, beyond valid compositions *)

Module SimulatorProperties.
Import JS Binary64 Binary64Facts NumberFacts ObjectFacts ObjectUpdates NaNFacts.
Import ArithmeticFacts SimulatorFacts ClampFacts CompositionFacts.
Import WasteStreamSimulator Domain Outcomes.
Local Open Scope float_scope.

(** X1.  Whatever the composition, valid or not, the sustainability score
    is [NaN] exactly when the cycle efficiency is, it never exceeds 100, and
    it is at most 100 whenever the cycle efficiency is a number. *)
Theorem score_is_capped (c : object number) :
  let r := simulateDecomposition c in
  is_nan (sustainabilityScore r) = is_nan (cycleEfficiency r)
  /\ (100 <? sustainabilityScore r) = false
  /\ (is_nan (cycleEfficiency r) = false -> (sustainabilityScore r <=? 100) = true).
Proof.
  cbv zeta. unfold simulateDecomposition. cbn [sustainabilityScore cycleEfficiency].
  set (e := (_ / _)).
  assert (N : is_nan (Math_min 100 (e * 1.2)) = is_nan e).
  { rewrite is_nan_min. change (is_nan 100) with false. cbn [orb].
    apply is_nan_mul_const. reflexivity. }
  split; [exact N|].
  destruct (is_nan e) eqn:E.
  - apply is_nan_eq in N. rewrite N. split; [reflexivity | discriminate].
  - assert (M : is_nan (e * 1.2) = false)
      by (rewrite is_nan_mul_const; [exact E | reflexivity]).
    destruct (min_100_le _ M) as [_ L].
    split; [apply leb_not_ltb, L | intros _; exact L].
Qed.

(** Once every accumulator is [NaN] it stays so. *)
Lemma accumulate_nan e : accumulate nanTotals e = nanTotals.
Proof.
  destruct e as [k p]. unfold accumulate, nanTotals.
  cbn [totalEnergyNeeds totalMethaneOutput totalCarbonProduction totalHydrogenOutput].
  rewrite !add_nan_l. reflexivity.
Qed.

Lemma fold_accumulate_nan entries : fold_left accumulate entries nanTotals = nanTotals.
Proof.
  induction entries as [|e r IH]; cbn [fold_left]; [reflexivity|].
  rewrite accumulate_nan. exact IH.
Qed.

(** An entry under a name that is no category turns every accumulator into
    [NaN]. *)
Lemma accumulate_unknown t k p :
  ~ In k categories -> accumulate t (k, p) = nanTotals.
Proof.
  intros N. unfold accumulate.
  rewrite (get_missing k decompositionRates), (get_missing k energyRequirements)
    by exact N.
  cbn [to_number]. rewrite !mul_nan_r, !mul_nan_l, !add_nan_r. reflexivity.
Qed.

Lemma fold_accumulate_unknown entries k p :
  In (k, p) entries -> ~ In k categories ->
  forall t, fold_left accumulate entries t = nanTotals.
Proof.
  intros I N. induction entries as [|e r IH]; [destruct I|]. intros t.
  destruct I as [->|I]; cbn [fold_left].
  - rewrite accumulate_unknown by exact N. apply fold_accumulate_nan.
  - apply IH, I.
Qed.

(** X2.  A composition with a property that is none of the five categories,
    wherever it stands and whatever its value, makes every Number of the
    simulation [NaN]. *)
Theorem unknown_category_yields_nan (c : object number) (type : string)
    (percentage : number) :
  In (type, percentage) (Object_entries c) -> ~ In type categories ->
  simulateDecomposition c = nanSimulation.
Proof.
  intros I N. unfold simulateDecomposition.
  rewrite (fold_accumulate_unknown _ type percentage I N). reflexivity.
Qed.

Lemma unknown_category_yields_nan_witness :
  simulateDecomposition [("glass"%string, 10)] = nanSimulation.
Proof.
  apply (unknown_category_yields_nan [("glass"%string, 10)] "glass"%string 10).
  - simpl. left. reflexivity.
  - unfold categories. simpl. intros H.
    repeat (destruct H as [H|H]; [discriminate|]). exact H.
Defined.

(** X3.  Of two changes of one category the later wins: the composition is
    the one the later change alone gives. *)
Theorem handleWasteChange_last_wins (type : string) (first second : number)
    (c : object number) :
  handleWasteChange type second (handleWasteChange type first c)
  = handleWasteChange type second c.
Proof. unfold handleWasteChange, spread_with. apply set_set. Qed.

(** X4.  Changes of two different categories commute: the composition does
    not depend on the order in which two inputs are edited. *)
Theorem handleWasteChange_commutes (type1 type2 : string) (parsed1 parsed2 : number)
    (c : object number) :
  type1 <> type2 -> In type1 (Object_keys c) ->
  handleWasteChange type1 parsed1 (handleWasteChange type2 parsed2 c)
  = handleWasteChange type2 parsed2 (handleWasteChange type1 parsed1 c).
Proof. intros N I. unfold handleWasteChange, spread_with. apply set_comm; assumption. Qed.

Lemma handleWasteChange_commutes_witness :
  handleWasteChange "polymers" 40 (handleWasteChange "metals" 10 initialComposition)
  = handleWasteChange "metals" 10 (handleWasteChange "polymers" 40 initialComposition).
Proof.
  apply (handleWasteChange_commutes "polymers" "metals" 40 10 initialComposition).
  - discriminate.
  - simpl. left. reflexivity.
Defined.

(** The stored value is [+0] or not a zero: it never is [-0]. *)
Lemma stored_not_negative_zero x :
  storedPercentage x = 0 \/ is_zero (storedPercentage x) = false.
Proof.
  unfold storedPercentage.
  destruct (or_else_cases x) as [(_ & -> & Hn & Hz)|(_ & -> & _)]; [|left; reflexivity].
  assert (Mz : is_zero (Math_min 100 x) = false /\ is_nan (Math_min 100 x) = false).
  { destruct (min_100_cases x Hn) as [->| ->]; split; auto. }
  destruct Mz as [Mz Mn]. set (m := Math_min 100 x) in *.
  unfold Math_max. change (is_nan 0) with false. rewrite Mn. cbn [orb].
  destruct (0 <? m); [right; exact Mz|].
  destruct (m <? 0); left; reflexivity.
Qed.

(** A percentage that is not a zero is stored as it is. *)
Lemma stored_fixed x :
  percentage x -> is_zero x = false -> storedPercentage x = x.
Proof.
  intros [L H] Hz. pose proof (nonneg_not_nan x L) as Hn. unfold storedPercentage.
  destruct (or_else_cases x) as [(_ & -> & _ & _)|(_ & _ & [N|Z])]; try congruence.
  assert (M : Math_min 100 x = x).
  { unfold Math_min. change (is_nan 100) with false. rewrite Hn. cbn [orb].
    rewrite (leb_not_ltb x 100 H). change (get_sign 100) with false.
    destruct (x <? 100); reflexivity. }
  rewrite M. unfold Math_max. change (is_nan 0) with false. rewrite Hn. cbn [orb].
  rewrite (positive_of_nonneg x L Hz). reflexivity.
Qed.

(** Storing is idempotent. *)
Lemma stored_idempotent x : storedPercentage (storedPercentage x) = storedPercentage x.
Proof.
  destruct (stored_not_negative_zero x) as [E|Z].
  - rewrite E. reflexivity.
  - apply stored_fixed; [apply clamp_range | exact Z].
Qed.

(** X5.  The value [handleWasteChange] stores is a fixed point of its
    normalisation: entering the stored value again leaves the composition
    as it is. *)
Theorem stored_value_reenters (type : string) (parsed : number) (c : object number) :
  let c' := handleWasteChange type parsed c in
  get type c' = Some (storedPercentage parsed)
  /\ handleWasteChange type (storedPercentage parsed) c' = c'.
Proof.
  cbv zeta. unfold handleWasteChange, spread_with. split; [apply get_set_same|].
  rewrite set_set. fold (storedPercentage parsed).
  fold (storedPercentage (storedPercentage parsed)).
  rewrite stored_idempotent. reflexivity.
Qed.

Section Total.
Local Open Scope Z_scope.

(** A number of bounded exponent is finite. *)
Lemma exp_le_finite k x : exp_le k x -> is_finite x = true.
Proof.
  unfold exp_le, is_finite, is_infinity.
  rewrite is_nan_spec, eqb_spec, abs_spec.
  change (Prim2SF infinity) with (S754_infinity false).
  destruct (Prim2SF x) as [s|s| |s m e]; simpl; auto; discriminate.
Qed.

(** The running sum of percentages keeps its sign bit clear and gains at
    most two exponents per term. *)
Lemma sum_bounded vals :
  forall acc k,
    -46 <= k -> k + 2 * Z.of_nat (List.length vals) <= 900 ->
    SFplus (Prim2SF acc) = true -> exp_le k acc ->
    Forall percentage vals ->
    let total := fold_left (fun sum val => (sum + val)%float) vals acc in
    SFplus (Prim2SF total) = true
    /\ exp_le (k + 2 * Z.of_nat (List.length vals)) total.
Proof.
  induction vals as [|v r IH]; intros acc k K1 K2 P L F; cbv zeta.
  - simpl. rewrite Z.add_0_r. auto.
  - inversion F as [|? ? Hv F']; subst.
    cbn [fold_left List.length] in *. rewrite Nat2Z.inj_succ in *.
    replace (k + 2 * Z.succ (Z.of_nat (List.length r)))
      with (k + 2 + 2 * Z.of_nat (List.length r)) by lia.
    assert (N : SFnonneg (Prim2SF v) = true) by (rewrite <- leb_zero_spec; apply Hv).
    apply IH; try lia; auto.
    + apply plus_add; auto.
    + apply add_bounded; auto; try lia.
      apply (exp_le_mono (-46)); [lia|]. apply percentage_bounded, Hv.
Qed.

End Total.

(** X6.  Every composition the component can reach from its initial state
    by changes of the five inputs is valid, and the total shown under the
    inputs is a finite number that is at least 0. *)
Theorem reachable_composition_invariant (c : object number) :
  reachable c ->
  validComposition c
  /\ is_finite (totalPercentage c) = true
  /\ (0 <=? totalPercentage c) = true.
Proof.
  intros R. pose proof (reachable_valid c R) as V. split; [exact V|].
  destruct V as [K F].
  assert (Len : List.length (Object_values c) = 5%nat).
  { apply Permutation_length in K.
    unfold Object_keys, Object_values in *. rewrite length_map in *. exact K. }
  pose proof (sum_bounded (Object_values c) 0 (-46)%Z) as H.
  rewrite Len in H. cbv zeta in H.
  destruct H as [P L]; try lia; try reflexivity; auto.
  split; [apply (exp_le_finite _ _ L) | apply plus_leb_zero, P].
Qed.

Lemma reachable_composition_invariant_witness :
  validComposition (handleWasteChange "metals" 250 initialComposition)
  /\ is_finite (totalPercentage (handleWasteChange "metals" 250 initialComposition)) = true
  /\ (0 <=? totalPercentage (handleWasteChange "metals" 250 initialComposition)) = true.
Proof.
  apply (reachable_composition_invariant (handleWasteChange "metals" 250 initialComposition)).
  apply reachable_change; [apply reachable_initial | simpl; tauto].
Defined.

End SimulatorProperties.

(** ** The process optimizer: parameter changes and the zero divisor *)

Module OptimizerProperties.
Import JS Random Binary64 Binary64Facts NumberFacts ClampFacts.
Import AIProcessOptimizer Outcomes.
Local Open Scope float_scope.

(** Reading a parameter other than the one compared with. *)
Ltac other_parameter other :=
  repeat match goal with
  | |- context [String.eqb other ?s] =>
      let E := fresh "E" in
      destruct (String.eqb other s) eqn:E;
      [apply String.eqb_eq in E; try congruence; try reflexivity|]
  end; try reflexivity.

(** X7.  [handleParameterChange] on one of the five parameters stores
    [parsed || 0] under that name: the Number parsed itself when it is a
    non-zero number, however large or small (there is no clamp), and 0 for
    [NaN] and for a zero.  What it stores never is [NaN], and the four other
    parameters keep their values. *)
Theorem handleParameterChange_round_trip (param : string) (parsed : number)
    (prev : parameters) :
  In param parameterNames ->
  let next := handleParameterChange param parsed prev in
  parameter param next = Some (or_else parsed 0)
  /\ is_nan (or_else parsed 0) = false
  /\ (truthy parsed = true -> or_else parsed 0 = parsed)
  /\ (truthy parsed = false -> or_else parsed 0 = 0)
  /\ (forall other, other <> param -> parameter other next = parameter other prev).
Proof.
  intros I. cbv zeta.
  assert (N : is_nan (or_else parsed 0) = false).
  { destruct (or_else_cases parsed) as [(_ & -> & Hn & _)|(_ & -> & _)]; auto. }
  assert (T : truthy parsed = true -> or_else parsed 0 = parsed)
    by (unfold or_else; intros ->; reflexivity).
  assert (F : truthy parsed = false -> or_else parsed 0 = 0)
    by (unfold or_else; intros ->; reflexivity).
  unfold parameterNames in I. simpl in I.
  destruct I as [<-|[<-|[<-|[<-|[<-|[]]]]]];
    (split; [reflexivity|]); (split; [exact N|]); (split; [exact T|]);
    (split; [exact F|]); intros other D; unfold parameter, handleParameterChange;
    cbn [String.eqb Ascii.eqb Bool.eqb temperature flowRate catalystEfficiency
         energyInput pressure];
    other_parameter other.
Qed.

Lemma handleParameterChange_round_trip_witness :
  parameter "temperature" (handleParameterChange "temperature" 5000 initialParameters)
  = Some (or_else 5000 0)
  /\ is_nan (or_else 5000 0) = false
  /\ (truthy 5000 = true -> or_else 5000 0 = 5000)
  /\ (truthy 5000 = false -> or_else 5000 0 = 0)
  /\ (forall other, other <> "temperature"%string ->
      parameter other (handleParameterChange "temperature" 5000 initialParameters)
      = parameter other initialParameters).
Proof.
  apply (handleParameterChange_round_trip "temperature" 5000 initialParameters).
  simpl. left. reflexivity.
Defined.

(** A positive number divided by [+0] is [+Infinity]. *)
Lemma div_pos_zero x : (0 <? x) = true -> x / 0 = infinity.
Proof.
  rewrite ltb_spec. intros H. apply Prim2SF_inj. rewrite div_spec.
  change (Prim2SF 0) with (S754_zero false) in *.
  change (Prim2SF infinity) with (S754_infinity false).
  destruct (Prim2SF x) as [s|[]| |[] m e]; try discriminate; reflexivity.
Qed.

(** X8.  With a power consumption of [+0] and a positive methane yield the
    division is not guarded: the efficiency is [+Infinity], and unless the
    temperature or the catalyst rule fires the optimizer reports peak
    efficiency. *)
Theorem zero_power_reports_optimal (g : rng) (p : parameters) :
  let r := fst (optimize g p) in
  powerConsumption r = 0 -> (0 <? methaneYield r) = true ->
  efficiency r = infinity
  /\ ((1300 <? temperature p) = false -> (catalystEfficiency p <? 85) = false ->
      prediction r = Optimal).
Proof.
  cbv zeta. unfold optimize. destruct (drawTargets g) as [t g'].
  cbn [fst powerConsumption methaneYield efficiency prediction].
  intros P M. rewrite P, (div_pos_zero _ M).
  change (infinity * 100) with infinity. split; [reflexivity|].
  intros -> ->. reflexivity.
Qed.

Lemma zero_power_reports_optimal_witness :
  efficiency (fst (optimize (fun _ => 0.5) zeroEnergyParameters)) = infinity
  /\ ((1300 <? temperature zeroEnergyParameters) = false ->
      (catalystEfficiency zeroEnergyParameters <? 85) = false ->
      prediction (fst (optimize (fun _ => 0.5) zeroEnergyParameters)) = Optimal).
Proof.
  apply (zero_power_reports_optimal (fun _ => 0.5) zeroEnergyParameters);
    reflexivity.
Defined.

End OptimizerProperties.

(** ** The dashboard projections *)

Module DashboardProperties.
Import JS Random Binary64 Binary64Facts NumberFacts.
Import SystemDashboard Outcomes.
Local Open Scope float_scope.

(** A reading that is at least 0, annualized and scaled by positive
    constants, is at least 0. *)
Ltac nonneg_chain :=
  repeat first
    [ assumption
    | apply nonneg_div_const
    | apply nonneg_mul_const
    | reflexivity ].

(** X9.  For readings that are at least 0 every projected Number of every
    year is at least 0 (and so is a number): the projection of
    [updateMetrics], for its crew of 6, never turns a non-negative reading
    into a negative figure or into [NaN]. *)
Theorem projections_nonneg (s : sample) :
  (0 <=? baseWaste s) = true -> (0 <=? baseMethane s) = true ->
  (0 <=? basePower s) = true -> (0 <=? sampleEfficiency s) = true ->
  let p := project crewSize s in
  nonnegYear (year1 p) = true /\ nonnegYear (year2 p) = true
  /\ nonnegYear (year3 p) = true.
Proof.
  rewrite !leb_zero_spec. intros W M P E. cbv zeta.
  unfold nonnegYear, project.
  cbn [year1 year2 year3 waste methane power efficiency].
  rewrite !leb_zero_spec.
  repeat split; repeat (apply andb_true_intro; split); nonneg_chain.
Qed.

Lemma projections_nonneg_witness :
  nonnegYear (year1 (project crewSize
    {| baseWaste := 150; baseMethane := 45; basePower := 180; sampleEfficiency := 75 |}))
  = true
  /\ nonnegYear (year2 (project crewSize
    {| baseWaste := 150; baseMethane := 45; basePower := 180; sampleEfficiency := 75 |}))
  = true
  /\ nonnegYear (year3 (project crewSize
    {| baseWaste := 150; baseMethane := 45; basePower := 180; sampleEfficiency := 75 |}))
  = true.
Proof.
  apply (projections_nonneg
    {| baseWaste := 150; baseMethane := 45; basePower := 180; sampleEfficiency := 75 |});
    reflexivity.
Defined.

End DashboardProperties.

(** ** The results of a processing run *)

Module AppProperties.
Import JS Prototype Binary64 Binary64Facts NumberFacts ObjectFacts ObjectUpdates.
Import NaNFacts Signs RoundingFacts ArithmeticFacts ClampFacts.
Import App.
Local Open Scope float_scope.

(** The two clamps let [NaN] through. *)
Lemma clamped_nan lo hi x :
  is_nan lo = false -> is_nan hi = false ->
  is_nan (Math_min hi (Math_max lo x)) = is_nan x.
Proof. intros L H. rewrite is_nan_min, is_nan_max, L, H. reflexivity. Qed.

(** X10.  The efficiency [calculateResults] renders is [NaN] exactly when
    the ratio of the energy produced to the energy required is; otherwise
    it lies between 60 and 95, whatever the mass, the moisture and the waste
    type. *)
Theorem calculated_efficiency_range (Math_ceil : number -> number) (data : wasteData) :
  let r := calculate Math_ceil data in
  let ratio := energyProduced r / energyRequired r * 100 in
  is_nan (efficiency r) = is_nan ratio
  /\ (is_nan ratio = false ->
      (60 <=? efficiency r) = true /\ (efficiency r <=? 95) = true).
Proof.
  cbv zeta. unfold calculate. cbn [efficiency energyProduced energyRequired].
  set (ratio := _ / _ * 100).
  split; [apply clamped_nan; reflexivity|].
  intros N.
  destruct (max_lower 60 ratio eq_refl N) as [Nm Lm].
  destruct (min_upper 95 (Math_max 60 ratio) 60 eq_refl Nm eq_refl Lm)
    as (_ & U & L).
  split; assumption.
Qed.

Lemma is_zero_spec x : is_zero x = SFis_zero (Prim2SF x).
Proof.
  unfold is_zero. rewrite eqb_spec. change (Prim2SF 0) with (S754_zero false).
  destruct (Prim2SF x) as [s|[]| |[] m e]; reflexivity.
Qed.

(** X11.  With a mass of zero, which is what the initial waste data holds,
    the energy required is zero and the efficiency is [NaN]: the division
    is not guarded, whatever the waste type and the moisture. *)
Theorem zero_mass_efficiency_nan (Math_ceil : number -> number) (data : wasteData) :
  is_zero (mass data) = true ->
  let r := calculate Math_ceil data in
  is_zero (energyRequired r) = true /\ is_nan (efficiency r) = true.
Proof.
  intros Z. cbv zeta. unfold calculate. cbn [efficiency energyProduced energyRequired].
  rewrite clamped_nan by reflexivity.
  rewrite is_zero_spec in *. rewrite is_nan_spec.
  assert (R : SFis_zero (Prim2SF (mass data * 0.8)) = true).
  { rewrite mul_spec. destruct (Prim2SF (mass data)); try discriminate. reflexivity. }
  split; [exact R|].
  rewrite mul_spec, div_spec.
  rewrite SFdiv_zero_zero; [reflexivity| |exact R].
  rewrite !mul_spec. apply SFmul_zero_or_nan, SFmul_zero_or_nan.
  destruct (Prim2SF (mass data)); try discriminate. reflexivity.
Qed.

Lemma zero_mass_efficiency_nan_witness :
  is_zero (energyRequired (calculate (fun x => x) initialWasteData)) = true
  /\ is_nan (efficiency (calculate (fun x => x) initialWasteData)) = true.
Proof.
  apply (zero_mass_efficiency_nan (fun x => x) initialWasteData). reflexivity.
Defined.

(** A name that is no key and no inherited name reads [undefined]; an
    inherited name does not. *)
Lemma number_or_missing k (o : object number) d :
  ~ In k (Object_keys o) ->
  number_or k o d = if inherited k then nan else d.
Proof.
  intros N. unfold number_or, read. rewrite (get_missing k o N).
  destruct (inherited k); reflexivity.
Qed.

(** X12.  For a waste type that is not in the table of base energies the
    factor is 1: the energy produced is the mass times the dry fraction.
    But for a type that names a member of [Object.prototype], such as
    [constructor], the fallback does not apply, and the energy produced and
    the efficiency are [NaN]. *)
Theorem unlisted_type_energy (Math_ceil : number -> number) (data : wasteData) :
  ~ In (type data) (Object_keys baseEnergy) ->
  let r := calculate Math_ceil data in
  (inherited (type data) = false ->
   energyProduced r = mass data * (1 - moisture data / 100))
  /\ (inherited (type data) = true ->
      is_nan (energyProduced r) = true /\ is_nan (efficiency r) = true).
Proof.
  intros N. cbv zeta. unfold calculate. cbn [efficiency energyProduced energyRequired].
  rewrite (number_or_missing _ _ _ N). split; intros ->.
  - rewrite mul_one. reflexivity.
  - rewrite clamped_nan by reflexivity.
    rewrite mul_nan_r, mul_nan_l, div_nan_l, mul_nan_l. split; reflexivity.
Qed.

Lemma unlisted_type_energy_witness :
  (inherited "constructor" = false ->
   energyProduced
     (calculate (fun x => x)
        {| type := "constructor"; mass := 10; moisture := 50; contamination := 10 |})
   = 10 * (1 - 50 / 100))
  /\ (inherited "constructor" = true ->
      is_nan
        (energyProduced
           (calculate (fun x => x)
              {| type := "constructor"; mass := 10; moisture := 50;
                 contamination := 10 |})) = true
      /\ is_nan
           (efficiency
              (calculate (fun x => x)
                 {| type := "constructor"; mass := 10; moisture := 50;
                    contamination := 10 |})) = true).
Proof.
  apply (unlisted_type_energy (fun x => x)
           {| type := "constructor"; mass := 10; moisture := 50; contamination := 10 |}).
  unfold baseEnergy. simpl. intros H.
  repeat (destruct H as [H|H]; [discriminate|]). exact H.
Defined.

End AppProperties.

(** ** The calculations by waste type *)

Module CalculationsProperties.
Import JS Prototype Binary64 Binary64Facts NumberFacts ObjectFacts ObjectUpdates.
Import NaNFacts Signs RoundingFacts ArithmeticFacts ClampFacts.
Import Calculations.
Local Open Scope float_scope.

(** X16.  The hook of the first module returns nothing for missing waste
    data.  For a waste type that is not in its tables (and names no member
    of [Object.prototype]) it computes the Numbers it computes for mixed
    waste of that mass, but not the same byproducts: the fallback list is
    not the list of mixed waste. *)
Theorem unlisted_type_rated_as_mixed (Math_round : number -> number) (w : waste) :
  ~ In (type w) (Object_keys energyRates) -> inherited (type w) = false ->
  useMemoizedCalculations Math_round None = None
  /\ exists c m,
      useMemoizedCalculations Math_round (Some w) = Some c
      /\ useMemoizedCalculations Math_round
           (Some {| type := "mixed"; mass := mass w |}) = Some m
      /\ energyRequired c = energyRequired m
      /\ energyProduced c = energyProduced m
      /\ efficiency c = efficiency m
      /\ processingTime c = processingTime m
      /\ netEnergy c = netEnergy m
      /\ byproducts c = Val ["Mixed materials"%string]
      /\ byproducts m = Val ["Various materials"; "Energy"; "Residue"]%string.
Proof.
  intros N I. split; [reflexivity|].
  eexists _, _. split; [reflexivity|]. split; [reflexivity|].
  cbn [energyRequired energyProduced efficiency processingTime netEnergy byproducts
       type mass].
  rewrite (AppProperties.number_or_missing _ _ _ N), I.
  unfold value_or, read.
  rewrite (get_missing _ efficiencyRates), (get_missing _ byproductsTable), I
    by exact N.
  repeat split.
Qed.

Lemma unlisted_type_rated_as_mixed_witness :
  useMemoizedCalculations (fun x => x) None = None
  /\ exists c m,
      useMemoizedCalculations (fun x => x) (Some {| type := "glass"; mass := 3 |}) = Some c
      /\ useMemoizedCalculations (fun x => x)
           (Some {| type := "mixed"; mass := mass {| type := "glass"; mass := 3 |} |})
         = Some m
      /\ energyRequired c = energyRequired m
      /\ energyProduced c = energyProduced m
      /\ efficiency c = efficiency m
      /\ processingTime c = processingTime m
      /\ netEnergy c = netEnergy m
      /\ byproducts c = Val ["Mixed materials"%string]
      /\ byproducts m = Val ["Various materials"; "Energy"; "Residue"]%string.
Proof.
  apply (unlisted_type_rated_as_mixed (fun x => x) {| type := "glass"; mass := 3 |}).
  - unfold energyRates. simpl. intros H.
    repeat (destruct H as [H|H]; [discriminate|]). exact H.
  - reflexivity.
Defined.

(** X17.  For metal the energy produced is the energy required, both being
    2.1 per unit of mass: the net energy is 0 for every mass, and [NaN]
    where the product overflows or the mass is no number. *)
Theorem metal_breaks_even (Math_round : number -> number) (mass : number) :
  exists c,
    useMemoizedCalculations Math_round (Some {| type := "metal"; mass := mass |})
    = Some c
    /\ energyProduced c = energyRequired c
    /\ netEnergy c = (if is_finite (energyRequired c) then 0 else nan).
Proof.
  eexists. split; [reflexivity|].
  cbn [energyRequired energyProduced netEnergy Calculations.mass Calculations.type].
  change (number_or "metal" energyRates 4) with 2.1.
  rewrite (mul_comm 2.1 mass). split; [reflexivity | apply sub_diag].
Qed.

End CalculationsProperties.

(** ** The memoised calculators *)

Module CalculatorProperties.
Import JS Prototype Binary64 Binary64Facts NumberFacts ObjectFacts ObjectUpdates.
Import NaNFacts Signs RoundingFacts ArithmeticFacts ClampFacts.
Import AppOptimization.
Local Open Scope float_scope.

(** The base efficiency is one of the six of the table, the fallback 85
    being that of mixed waste. *)
Lemma base_efficiency_cases k :
  inherited k = false ->
  In (number_or k baseEfficiency 85) [92; 87; 95; 89; 91; 85].
Proof.
  intros I. unfold number_or, read. rewrite I.
  destruct (get k baseEfficiency) as [v|] eqn:G; [|simpl; tauto].
  apply get_in_values in G. unfold baseEfficiency in G. simpl in G.
  destruct G as [<-|[<-|[<-|[<-|[<-|[<-|[]]]]]]]; vm_compute; tauto.
Qed.

(** Each base efficiency is a positive finite number above 60 that
    subtracting [+0] leaves as it is. *)
Lemma base_efficiency_facts b :
  In b [92; 87; 95; 89; 91; 85] ->
  pos_finite b = true /\ Math_max 60 (b - 0) = b.
Proof.
  simpl. intros [<-|[<-|[<-|[<-|[<-|[<-|[]]]]]]]; split; reflexivity.
Qed.

(** X13.  [calculateEfficiency] is the component [memo] returns for an
    arrow function, not a function: a call of it throws a [TypeError].  The
    arrow function it holds, applied to a waste type and a system load,
    returns [NaN] exactly when the load is [NaN] or the lower-cased waste
    type names a member of [Object.prototype]; otherwise it returns at
    least 60, however high the load. *)
Theorem calculateEfficiency_floor (toFixed : renderer) (Math_round : number -> number)
    (toLowerCase : string -> string) (wasteType : option string)
    (systemLoad : number) :
  let calculator :=
    calculateEfficiency (useMemoizedCalculations toFixed Math_round toLowerCase) in
  let e := React.type calculator wasteType systemLoad in
  React.call calculator (fun f => f wasteType systemLoad) = React.Throws "TypeError"
  /\ is_nan e = inherited (typeKey toLowerCase wasteType) || is_nan systemLoad
  /\ (is_nan e = false -> (60 <=? e) = true).
Proof.
  cbv zeta. split; [reflexivity|].
  cbn [useMemoizedCalculations calculateEfficiency React.memo React.type].
  unfold efficiencyFunction.
  set (k := typeKey toLowerCase wasteType).
  set (penalty := Math_max 0 ((systemLoad - 80) * 0.2)).
  assert (P : is_nan penalty = is_nan systemLoad).
  { unfold penalty. rewrite is_nan_max. change (is_nan 0) with false. cbn [orb].
    rewrite is_nan_mul_const by reflexivity. apply is_nan_sub_const. reflexivity. }
  assert (N : is_nan (number_or k baseEfficiency 85 - penalty)
              = inherited k || is_nan systemLoad).
  { destruct (inherited k) eqn:I.
    - unfold number_or, read. rewrite I.
      destruct (get k baseEfficiency) as [v|] eqn:G.
      + exfalso. apply get_in_entries in G. unfold baseEfficiency in G. simpl in G.
        repeat (destruct G as [G|G];
                [injection G as <- _; vm_compute in I; discriminate|]).
        exact G.
      + rewrite sub_nan_l. reflexivity.
    - destruct (base_efficiency_facts _ (base_efficiency_cases k I)) as [F _].
      rewrite is_nan_const_sub by exact F. exact P. }
  split.
  - rewrite is_nan_max. change (is_nan 60) with false. exact N.
  - intros H. rewrite is_nan_max in H. change (is_nan 60) with false in H.
    cbn [orb] in H. apply (max_lower 60 _ eq_refl H).
Qed.

(** X14.  For a waste type that, lower-cased, names no member of
    [Object.prototype], and at a system load of at most 80, the arrow
    function [calculateEfficiency] holds applies no load penalty: it returns
    the base efficiency of the waste type, one of the six values of the
    table (85 for a type that is not in it).  A call of [calculateEfficiency]
    itself throws. *)
Theorem no_penalty_up_to_80 (toFixed : renderer) (Math_round : number -> number)
    (toLowerCase : string -> string) (wasteType : option string)
    (systemLoad : number) :
  inherited (typeKey toLowerCase wasteType) = false ->
  (systemLoad <=? 80) = true ->
  let calculator :=
    calculateEfficiency (useMemoizedCalculations toFixed Math_round toLowerCase) in
  let e := React.type calculator wasteType systemLoad in
  React.call calculator (fun f => f wasteType systemLoad) = React.Throws "TypeError"
  /\ e = number_or (typeKey toLowerCase wasteType) baseEfficiency 85
  /\ In e [92; 87; 95; 89; 91; 85].
Proof.
  intros I L. cbv zeta. split; [reflexivity|].
  cbn [useMemoizedCalculations calculateEfficiency React.memo React.type].
  unfold efficiencyFunction.
  assert (P : Math_max 0 ((systemLoad - 80) * 0.2) = 0).
  { apply max_0_nonpos, nonpos_mul_const; [|reflexivity].
    apply sub_const_nonpos; [reflexivity | exact L]. }
  rewrite P.
  pose proof (base_efficiency_cases _ I) as C.
  destruct (base_efficiency_facts _ C) as [_ ->]. split; [reflexivity | exact C].
Qed.

Lemma no_penalty_up_to_80_witness :
  React.call
    (calculateEfficiency
       (useMemoizedCalculations (fun _ _ => EmptyString) (fun x => x) (fun s => s)))
    (fun f => f (Some "plastic"%string) 75) = React.Throws "TypeError"
  /\ React.type
       (calculateEfficiency
          (useMemoizedCalculations (fun _ _ => EmptyString) (fun x => x) (fun s => s)))
       (Some "plastic"%string) 75
     = number_or (typeKey (fun s => s) (Some "plastic"%string)) baseEfficiency 85
  /\ In (React.type
           (calculateEfficiency
              (useMemoizedCalculations (fun _ _ => EmptyString) (fun x => x)
                 (fun s => s)))
           (Some "plastic"%string) 75)
       [92; 87; 95; 89; 91; 85].
Proof.
  apply (no_penalty_up_to_80 (fun _ _ => EmptyString) (fun x => x) (fun s => s)
           (Some "plastic"%string) 75); reflexivity.
Defined.

(** The three tables of the calculators have the same keys. *)
Lemma calculator_keys :
  Object_keys typeMultipliers = Object_keys energyRates
  /\ Object_keys baseEfficiency = Object_keys energyRates.
Proof. split; reflexivity. Qed.

(** X15.  The three calculators are components [memo] returns: a call of
    any of them throws.  The arrow functions they hold handle a waste type
    that is not in the tables (and, lower-cased, names no member of
    [Object.prototype]), or no waste type at all, as mixed waste: each
    returns what it returns for [mixed], the processing time being that of
    45 minutes per unit of mass. *)
Theorem unlisted_type_is_mixed (toFixed : renderer) (Math_round : number -> number)
    (toLowerCase : string -> string) (wasteType : option string) (mass : number) :
  toLowerCase "mixed"%string = "mixed"%string ->
  ~ In (typeKey toLowerCase wasteType) (Object_keys energyRates) ->
  inherited (typeKey toLowerCase wasteType) = false ->
  let c := useMemoizedCalculations toFixed Math_round toLowerCase in
  React.call (calculateEnergyOutput c) (fun f => f wasteType mass)
  = React.Throws "TypeError"
  /\ React.call (calculateProcessingTime c) (fun f => f mass wasteType)
     = React.Throws "TypeError"
  /\ React.type (calculateEnergyOutput c) wasteType mass
     = React.type (calculateEnergyOutput c) (Some "mixed"%string) mass
  /\ React.type (calculateProcessingTime c) mass wasteType
     = React.type (calculateProcessingTime c) mass (Some "mixed"%string)
  /\ React.type (calculateProcessingTime c) mass wasteType = Math_round (mass * 45)
  /\ (forall systemLoad,
        React.call (calculateEfficiency c) (fun f => f wasteType systemLoad)
        = React.Throws "TypeError"
        /\ React.type (calculateEfficiency c) wasteType systemLoad
           = React.type (calculateEfficiency c) (Some "mixed"%string) systemLoad).
Proof.
  intros M N I. cbv zeta. split; [reflexivity|]. split; [reflexivity|].
  cbn [useMemoizedCalculations calculateEnergyOutput calculateProcessingTime
       calculateEfficiency React.memo React.type].
  unfold energyOutputFunction, processingTimeFunction, efficiencyFunction.
  cbn [typeKey]. rewrite M.
  destruct calculator_keys as [K1 K2].
  rewrite (AppProperties.number_or_missing _ energyRates),
    (AppProperties.number_or_missing _ typeMultipliers),
    (AppProperties.number_or_missing _ baseEfficiency), I
    by (rewrite ?K1, ?K2; exact N).
  change (number_or "mixed" typeMultipliers 1) with 1.
  rewrite !mul_one. repeat split.
Qed.

Lemma unlisted_type_is_mixed_witness :
  React.call
    (calculateEnergyOutput
       (useMemoizedCalculations (fun _ _ => EmptyString) (fun x => x) (fun s => s)))
    (fun f => f None 10) = React.Throws "TypeError"
  /\ React.call
       (calculateProcessingTime
          (useMemoizedCalculations (fun _ _ => EmptyString) (fun x => x) (fun s => s)))
       (fun f => f 10 None) = React.Throws "TypeError"
  /\ React.type
       (calculateEnergyOutput
          (useMemoizedCalculations (fun _ _ => EmptyString) (fun x => x) (fun s => s)))
       None 10
     = React.type
         (calculateEnergyOutput
            (useMemoizedCalculations (fun _ _ => EmptyString) (fun x => x)
               (fun s => s)))
         (Some "mixed"%string) 10
  /\ React.type
       (calculateProcessingTime
          (useMemoizedCalculations (fun _ _ => EmptyString) (fun x => x) (fun s => s)))
       10 None
     = React.type
         (calculateProcessingTime
            (useMemoizedCalculations (fun _ _ => EmptyString) (fun x => x)
               (fun s => s)))
         10 (Some "mixed"%string)
  /\ React.type
       (calculateProcessingTime
          (useMemoizedCalculations (fun _ _ => EmptyString) (fun x => x) (fun s => s)))
       10 None
     = (fun x => x) (10 * 45)
  /\ (forall systemLoad,
        React.call
          (calculateEfficiency
             (useMemoizedCalculations (fun _ _ => EmptyString) (fun x => x)
                (fun s => s)))
          (fun f => f None systemLoad) = React.Throws "TypeError"
        /\ React.type
             (calculateEfficiency
                (useMemoizedCalculations (fun _ _ => EmptyString) (fun x => x)
                   (fun s => s)))
             None systemLoad
           = React.type
               (calculateEfficiency
                  (useMemoizedCalculations (fun _ _ => EmptyString) (fun x => x)
                     (fun s => s)))
               (Some "mixed"%string) systemLoad).
Proof.
  apply (unlisted_type_is_mixed (fun _ _ => EmptyString) (fun x => x) (fun s => s)
           None 10).
  - reflexivity.
  - unfold energyRates. simpl. intros H.
    repeat (destruct H as [H|H]; [discriminate|]). exact H.
  - reflexivity.
Defined.

End CalculatorProperties.

(** ** The waste processing handler *)

Module ProcessingProperties.
Import JS App AppOptimization Processing.
Local Open Scope float_scope.

(** X24.  [handleWasteProcessing] never produces results.  The calculators
    it is given by [useMemoizedCalculations()] are components, not
    functions, so the first call in its [try] block throws a [TypeError]:
    for every waste data the handler sets [isProcessing], stores the waste
    data, logs the error and resets [isProcessing], and that is all.  It
    sets no results, schedules no timeout and records no processing time. *)
Theorem processing_never_completes (toFixed : renderer)
    (parseFloat : string -> number) (Math_ceil Math_round : number -> number)
    (toLowerCase : string -> string) (data : wasteData) (startTime : number) :
  let actions :=
    handleWasteProcessing toFixed parseFloat Math_ceil
      (useMemoizedCalculations toFixed Math_round toLowerCase) data startTime in
  actions
  = [SetIsProcessing true; SetWasteData data; ConsoleError "TypeError";
     SetIsProcessing false]
  /\ (forall results, ~ In (SetResults results) actions)
  /\ (forall results, ~ In (SetProcessingResults results) actions)
  /\ (forall callback delay, ~ In (SetTimeout callback delay) actions)
  /\ (forall time, ~ In (PushVoiceProcessingTime time) actions).
Proof.
  cbv zeta.
  assert (E : handleWasteProcessing toFixed parseFloat Math_ceil
                (useMemoizedCalculations toFixed Math_round toLowerCase) data startTime
              = [SetIsProcessing true; SetWasteData data; ConsoleError "TypeError";
                 SetIsProcessing false]) by reflexivity.
  rewrite E. split; [reflexivity|].
  repeat split; intros; simpl; intros H;
    repeat (destruct H as [H|H]; [discriminate|]); exact H.
Qed.

End ProcessingProperties.

(** ** The performance monitor: bounded windows and guarded averages *)

Module MonitorProperties.
Import JS PerformanceMonitor.
Local Open Scope float_scope.

Section Windows.
Context {A : Type}.
Implicit Types (a b : list A) (x : A) (n : nat).

Lemma length_lastN n a : List.length (lastN n a) = Nat.min n (List.length a).
Proof. unfold lastN. rewrite length_skipn. lia. Qed.

Lemma lastN_all n a : (List.length a <= n)%nat -> lastN n a = a.
Proof.
  intros L. unfold lastN. replace (List.length a - n)%nat with 0%nat by lia.
  reflexivity.
Qed.

(** Trimming after each push keeps the last [n] elements. *)
Lemma lastN_app_lastN n a b : lastN n (lastN n a ++ b) = lastN n (a ++ b).
Proof.
  destruct (Nat.le_gt_cases (List.length a) n) as [L|L].
  - rewrite (lastN_all n a L). reflexivity.
  - unfold lastN. set (k := (List.length a - n)%nat).
    assert (Hs : List.length (skipn k a) = n) by (rewrite length_skipn; lia).
    assert (Hf : List.length (firstn k a) = k) by (rewrite length_firstn; lia).
    assert (E : a ++ b = firstn k a ++ (skipn k a ++ b))
      by (rewrite app_assoc, firstn_skipn; reflexivity).
    rewrite (length_app (skipn k a)), Hs.
    replace (n + List.length b - n)%nat with (List.length b) by lia.
    rewrite length_app.
    replace (List.length a + List.length b - n)%nat with (k + List.length b)%nat by lia.
    rewrite E, (skipn_app (k + List.length b) (firstn k a)).
    rewrite (skipn_all2 (n := k + List.length b) (firstn k a)) by lia.
    rewrite Hf.
    replace (k + List.length b - k)%nat with (List.length b) by lia.
    reflexivity.
Qed.

(** One push, and one shift when the array is over its bound. *)
Lemma window_step n a x :
  (List.length a <= n)%nat ->
  (if (n <? List.length (push a x))%nat then shift (push a x) else push a x)
  = lastN n (a ++ [x]).
Proof.
  intros L. unfold push, shift, lastN. rewrite length_app. cbn [List.length].
  destruct (Nat.ltb_spec n (List.length a + 1)) as [H|H].
  - replace (List.length a + 1 - n)%nat with 1%nat by lia.
    destruct (a ++ [x]); reflexivity.
  - replace (List.length a + 1 - n)%nat with 0%nat by lia. reflexivity.
Qed.

(** The newest element is the last one, shifted or not. *)
Lemma window_last n a x :
  let a' := if (n <? List.length (push a x))%nat then shift (push a x) else push a x in
  (0 < n)%nat ->
  (0 <? List.length a')%nat = true
  /\ nth_error a' (List.length a' - 1) = Some x.
Proof.
  cbv zeta. intros N. unfold push, shift. rewrite length_app. cbn [List.length].
  assert (E : forall l, nth_error (l ++ [x]) (List.length (l ++ [x]) - 1) = Some x).
  { intros l. rewrite length_app. cbn [List.length].
    replace (List.length l + 1 - 1)%nat with (List.length l) by lia.
    rewrite nth_error_app2 by lia. rewrite Nat.sub_diag. reflexivity. }
  destruct (Nat.ltb_spec n (List.length a + 1)) as [H|H].
  - destruct a as [|y r]; [simpl in H; lia|].
    cbn [app tl]. split; [|apply E].
    rewrite length_app. cbn [List.length]. apply Nat.ltb_lt. lia.
  - split; [|apply E].
    rewrite length_app. cbn [List.length]. apply Nat.ltb_lt. lia.
Qed.

End Windows.

(** One measurement. *)
Lemma measureRender_step {A : Type} (this : metrics) (componentName : string)
    (renderFunction : unit -> A) (startTime endTime now : number) :
  (List.length (renderTimes this) <= 100)%nat ->
  let '(result, next) :=
    measureRender this componentName renderFunction startTime endTime now in
  result = renderFunction tt
  /\ renderTimes next
     = lastN 100 (renderTimes this
                  ++ [measurement (componentName, startTime, endTime, now)])
  /\ memoryUsage next = memoryUsage this
  /\ voiceProcessingTimes next = voiceProcessingTimes this
  /\ componentLoadTimes next = componentLoadTimes this.
Proof.
  intros L. unfold measureRender.
  cbn [renderTimes memoryUsage voiceProcessingTimes componentLoadTimes].
  split; [reflexivity|]. split; [|repeat split].
  apply (window_step 100). exact L.
Qed.

(** A sequence of measurements, from a monitor within its bound. *)
Lemma measureRenders_window calls :
  forall this,
    (List.length (renderTimes this) <= 100)%nat ->
    let next := measureRenders this calls in
    renderTimes next = lastN 100 (renderTimes this ++ map measurement calls)
    /\ memoryUsage next = memoryUsage this
    /\ voiceProcessingTimes next = voiceProcessingTimes this
    /\ componentLoadTimes next = componentLoadTimes this.
Proof.
  induction calls as [|[[[name startTime] endTime] now] rest IH]; intros this L; cbv zeta.
  - cbn [measureRenders fold_left map]. rewrite app_nil_r, lastN_all by exact L.
    repeat split.
  - unfold measureRenders. cbn [fold_left map].
    pose proof (measureRender_step this name (fun _ => tt) startTime endTime now L) as S.
    destruct (measureRender this name (fun _ => tt) startTime endTime now)
      as [result next] eqn:E.
    destruct S as (_ & R & M & V & C). cbn [snd].
    assert (L' : (List.length (renderTimes next) <= 100)%nat)
      by (rewrite R, length_lastN; lia).
    destruct (IH next L') as (R' & M' & V' & C'). fold (measureRenders next rest).
    rewrite R', M', V', C', R, lastN_app_lastN, <- app_assoc. repeat split; assumption.
Qed.

(** X18.  The monitor keeps a bounded window of render measurements:
    after any sequence of calls of [measureRender] on a new monitor it holds
    the measurements of the last 100 calls, oldest first, and never more
    than 100; the other metrics are not touched. *)
Theorem render_window (calls : list (string * number * number * number)) :
  let this := measureRenders create calls in
  renderTimes this = lastN 100 (map measurement calls)
  /\ (List.length (renderTimes this) <= 100)%nat
  /\ List.length (renderTimes this) = Nat.min 100 (List.length calls)
  /\ memoryUsage this = [] /\ voiceProcessingTimes this = []
  /\ componentLoadTimes this = [].
Proof.
  cbv zeta.
  destruct (measureRenders_window calls create) as (R & M & V & C);
    [cbn; lia|].
  cbn [create renderTimes app] in R. rewrite R, length_lastN, length_map.
  repeat split; try assumption. lia.
Qed.

(** X19.  [trackMemoryUsage] does nothing where the browser has no
    [performance.memory].  Where it has, the sample taken is the one the
    report reads as the current memory, whatever the monitor held; and a
    monitor holding at most 50 samples holds the last 50 afterwards. *)
Theorem memory_window (this : metrics) (memory : heap) (now : number) :
  let sample :=
    {| Memory.used := usedJSHeapSize memory;
       Memory.total := totalJSHeapSize memory;
       Memory.limit := jsHeapSizeLimit memory;
       Memory.timestamp := now |} in
  let next := trackMemoryUsage this (Some memory) now in
  trackMemoryUsage this None now = this
  /\ currentMemory next = Some sample
  /\ renderTimes next = renderTimes this
  /\ voiceProcessingTimes next = voiceProcessingTimes this
  /\ ((List.length (memoryUsage this) <= 50)%nat ->
      memoryUsage next = lastN 50 (memoryUsage this ++ [sample])
      /\ (List.length (memoryUsage next) <= 50)%nat).
Proof.
  cbv zeta. split; [reflexivity|].
  unfold trackMemoryUsage, currentMemory.
  cbn [renderTimes memoryUsage voiceProcessingTimes componentLoadTimes].
  set (sample := Memory.Build_metric _ _ _ _).
  split.
  - destruct (window_last 50 (memoryUsage this) sample) as [N E]; [lia|].
    rewrite N. exact E.
  - split; [reflexivity|]. split; [reflexivity|]. intros L.
    rewrite (window_step 50) by exact L. split; [reflexivity|].
    rewrite length_lastN. lia.
Qed.

(** The three recommendations are pairwise distinct. *)
Lemma advice_distinct :
  renderAdvice <> memoryAdvice /\ renderAdvice <> voiceAdvice
  /\ memoryAdvice <> voiceAdvice.
Proof. repeat split; discriminate. Qed.

Lemma in_push_if_advice c x l y :
  In y (push_if c x l) <-> In y l \/ (c = true /\ y = x).
Proof.
  unfold push_if, push. destruct c.
  - rewrite in_app_iff. simpl. intuition congruence.
  - intuition congruence.
Qed.

(** X20.  The averages of the report are guarded: with no render
    measurement the average render time is 0, not [NaN], and with no memory
    sample the memory usage reads N/A.  Each recommendation is made exactly
    when its own condition holds, and none is made for an empty list of
    measurements. *)
Theorem report_is_guarded (toFixed : renderer) (this : metrics) :
  let r := getReport toFixed this in
  (renderTimes this = [] -> averageRenderTime r = toFixed 2%nat 0)
  /\ (memoryUsage this = [] -> currentMemoryUsage r = "N/A"%string)
  /\ (In renderAdvice (recommendations r) <->
      renderTimes this <> [] /\ (16.67 <? avgRenderTime this) = true)
  /\ (In memoryAdvice (recommendations r) <->
      exists sample,
        currentMemory this = Some sample
        /\ (0.8 <? Memory.used sample / Memory.total sample) = true)
  /\ (In voiceAdvice (recommendations r) <->
      voiceProcessingTimes this <> []
      /\ (1000 <? fold_left (fun sum time => sum + time) (voiceProcessingTimes this) 0
                  / Number_of_length (List.length (voiceProcessingTimes this))) = true).
Proof.
  cbv zeta. destruct advice_distinct as (D1 & D2 & D3).
  unfold getReport. cbn [averageRenderTime currentMemoryUsage recommendations].
  split; [intros E; unfold avgRenderTime; rewrite E; reflexivity|].
  split; [intros E; unfold currentMemory; rewrite E; reflexivity|].
  assert (A0 : renderTimes this = [] -> (16.67 <? avgRenderTime this) = false)
    by (intros E; unfold avgRenderTime; rewrite E; reflexivity).
  set (c2 := match currentMemory this with
             | Some m => 0.8 <? Memory.used m / Memory.total m
             | None => false
             end).
  assert (C2 : c2 = true <->
               exists sample,
                 currentMemory this = Some sample
                 /\ (0.8 <? Memory.used sample / Memory.total sample) = true).
  { unfold c2. destruct (currentMemory this) as [m|].
    - split; [intros H; exists m; auto | intros (s & E & H); injection E as <-; exact H].
    - split; [discriminate | intros (s & E & _); discriminate]. }
  rewrite <- C2. clear C2.
  unfold getRecommendations. fold c2. generalize c2. intros b2.
  destruct (voiceProcessingTimes this) as [|v vs] eqn:V;
    cbn [List.length Nat.ltb Nat.leb]; rewrite !in_push_if_advice; cbn [In].
  - repeat split; intros; intuition (try congruence).
  - repeat split; intros; intuition (try congruence).
Qed.

End MonitorProperties.

(** ** The memory manager: what a cleanup releases *)

Module ManagerProperties.
Import JS ObjectFacts ObjectUpdates MemoryManager.

(** *** Sets *)

Lemma existsb_eqb x s : existsb (Nat.eqb x) s = true <-> In x s.
Proof.
  rewrite existsb_exists. split.
  - intros (y & I & E). apply Nat.eqb_eq in E. subst. exact I.
  - intros I. exists x. split; [exact I | apply Nat.eqb_refl].
Qed.

(** Adding to a [Set] adds the element unless it is there. *)
Lemma in_Set_add x y s : In y (Set_add x s) <-> y = x \/ In y s.
Proof.
  unfold Set_add. destruct (existsb (Nat.eqb x) s) eqn:E.
  - apply existsb_eqb in E. split; [auto | intros [->|H]; auto].
  - rewrite in_app_iff. simpl. intuition.
Qed.

Lemma NoDup_Set_add x s : NoDup s -> NoDup (Set_add x s).
Proof.
  intros N. unfold Set_add. destruct (existsb (Nat.eqb x) s) eqn:E; [exact N|].
  apply NoDup_app; [exact N | repeat constructor; simpl; tauto |].
  intros a I [<-|[]]. apply existsb_eqb in I. congruence.
Qed.

(** *** Maps *)

Section Maps.
Context {A : Type}.
Implicit Types (o : object A) (k : string) (v : A).

(** Setting a new key files it last. *)
Lemma keys_set_new k v o :
  ~ In k (Object_keys o) -> Object_keys (set k v o) = Object_keys o ++ [k].
Proof.
  unfold Object_keys. induction o as [|[k' v'] r IH]; simpl; intros N; [reflexivity|].
  destruct (String.eqb k k') eqn:E.
  - apply String.eqb_eq in E. subst. tauto.
  - simpl. rewrite IH by tauto. reflexivity.
Qed.

Lemma values_set_new k v o :
  get k o = None -> Object_values (set k v o) = Object_values o ++ [v].
Proof.
  unfold Object_values. induction o as [|[k' v'] r IH]; simpl; intros N; [reflexivity|].
  destruct (String.eqb k k') eqn:E; [discriminate|].
  simpl. rewrite IH by exact N. reflexivity.
Qed.

(** Setting keeps the keys distinct. *)
Lemma NoDup_keys_set k v o :
  NoDup (Object_keys o) -> NoDup (Object_keys (set k v o)).
Proof.
  intros N. destruct (in_dec string_dec k (Object_keys o)) as [I|I].
  - rewrite keys_set by exact I. exact N.
  - rewrite keys_set_new by exact I.
    apply NoDup_app; [exact N | repeat constructor; simpl; tauto |].
    intros a Ia [<-|[]]. tauto.
Qed.

(** An entry after a set is the one set or an old one. *)
Lemma in_entries_set k v o k' v' :
  In (k', v') (Object_entries (set k v o)) ->
  (k', v') = (k, v) \/ In (k', v') (Object_entries o).
Proof.
  unfold Object_entries. induction o as [|[k0 v0] r IH]; simpl.
  - intros [H|[]]; auto.
  - destruct (String.eqb k k0); simpl; intros [H|H]; auto.
    destruct (IH H); auto.
Qed.

(** Setting an existing key trades the old value for the new one. *)
Lemma values_set_replace k v o old :
  get k o = Some old ->
  Permutation (v :: Object_values o) (old :: Object_values (set k v o)).
Proof.
  unfold Object_values. induction o as [|[k0 v0] r IH]; simpl; [discriminate|].
  destruct (String.eqb k k0); intros H; simpl.
  - injection H as ->. apply perm_swap.
  - eapply perm_trans; [apply perm_swap|].
    eapply perm_trans; [apply perm_skip, IH, H|]. apply perm_swap.
Qed.

End Maps.

(** *** The registrations *)

Lemma create_consistent describe : consistent describe [] create.
Proof.
  unfold consistent, create. simpl.
  repeat split; try constructor; try tauto.
Qed.

(** A registration keeps the manager consistent. *)
Lemma register_consistent describe rs this r :
  consistent describe rs this ->
  consistent describe (rs ++ [r]) (snd (register describe this r)).
Proof.
  intros (N1 & N2 & N3 & N4 & T & I & O & K).
  assert (X : forall q : registration, In q (rs ++ [r]) <-> In q rs \/ q = r).
  { intros q. rewrite in_app_iff. simpl. intuition. }
  destruct r as [t|i|i|el ev h]; unfold consistent;
    cbn [register snd addCleanupTask addInterval addTimeout addEventListener
         cleanupTasks intervals timeouts eventListeners].
  - split; [apply NoDup_Set_add, N1|]. split; [exact N2|]. split; [exact N3|].
    split; [exact N4|]. split; [|split; [|split; [|exact K]]].
    + intros t'. rewrite in_Set_add, X, T. intuition congruence.
    + intros i. rewrite X, I. intuition congruence.
    + intros i. rewrite X, O. intuition congruence.
  - split; [exact N1|]. split; [apply NoDup_Set_add, N2|]. split; [exact N3|].
    split; [exact N4|]. split; [|split; [|split; [|exact K]]].
    + intros t. rewrite X, T. intuition congruence.
    + intros i'. rewrite in_Set_add, X, I. intuition congruence.
    + intros i'. rewrite X, O. intuition congruence.
  - split; [exact N1|]. split; [exact N2|]. split; [apply NoDup_Set_add, N3|].
    split; [exact N4|]. split; [|split; [|split; [|exact K]]].
    + intros t. rewrite X, T. intuition congruence.
    + intros i'. rewrite X, I. intuition congruence.
    + intros i'. rewrite in_Set_add, X, O. intuition congruence.
  - split; [exact N1|]. split; [exact N2|]. split; [exact N3|].
    split; [apply NoDup_keys_set, N4|]. split; [|split; [|split]].
    + intros t. rewrite X, T. intuition congruence.
    + intros i. rewrite X, I. intuition congruence.
    + intros i. rewrite X, O. intuition congruence.
    + intros k l H. apply in_entries_set in H. destruct H as [H|H]; [|apply K, H].
      injection H as -> ->. reflexivity.
Qed.

Lemma registerAll_consistent describe rs :
  forall this before,
    consistent describe before this ->
    consistent describe (before ++ rs) (snd (registerAll describe this rs)).
Proof.
  induction rs as [|r rest IH]; intros this before C.
  - rewrite app_nil_r. exact C.
  - cbn [registerAll].
    pose proof (register_consistent describe before this r C) as C1.
    destruct (register describe this r) as [e1 m1]. cbn [snd] in C1.
    specialize (IH m1 (before ++ [r]) C1).
    destruct (registerAll describe m1 rest) as [e2 m2]. cbn [snd] in *.
    rewrite <- app_assoc in IH. exact IH.
Qed.

(** *** The effects of a cleanup *)

Lemma in_runTask throws t e :
  In e (runTask throws t) <-> e = Call t \/ (e = Warn t /\ throws t = true).
Proof.
  unfold runTask. destruct (throws t); simpl; intuition congruence.
Qed.

Lemma NoDup_runTasks throws tasks :
  NoDup tasks -> NoDup (flat_map (runTask throws) tasks).
Proof.
  induction 1 as [|t r Nt N IH]; simpl; [constructor|].
  apply NoDup_app; [|exact IH|].
  - unfold runTask. destruct (throws t); repeat constructor; simpl; intuition congruence.
  - intros e H1 H2. apply in_runTask in H1. apply in_flat_map in H2.
    destruct H2 as (t' & I & H2). apply in_runTask in H2.
    destruct H1 as [->|[-> _]], H2 as [H2|[H2 _]]; congruence.
Qed.

(** The effect that detaches a listener. *)
Lemma listener_eta l :
  {| element := element l; event := event l; handler := handler l |} = l.
Proof. destruct l; reflexivity. Qed.

Lemma NoDup_detach describe (o : object listener) :
  NoDup (Object_keys o) ->
  (forall k l, In (k, l) (Object_entries o) ->
               k = listenerKey describe (element l) (event l)) ->
  NoDup (map (fun l => RemoveEventListener (element l) (event l) (handler l))
           (Object_values o)).
Proof.
  unfold Object_keys, Object_values, Object_entries.
  induction o as [|[k l] r IH]; simpl; intros N K; [constructor|].
  inversion N as [|? ? Nk Nr]; subst. constructor.
  - intros H. apply in_map_iff in H. destruct H as (l' & E & I).
    apply in_map_iff in I. destruct I as ([k' l''] & E' & I). simpl in E'. subst l''.
    injection E as E1 E2 E3.
    assert (l' = l) by (destruct l, l'; simpl in *; congruence). subst l'.
    apply Nk. apply in_map_iff. exists (k', l). split; [|exact I]. simpl.
    rewrite (K k l) by auto. apply (K k' l). auto.
  - apply IH; auto.
Qed.

(** X21.  After any sequence of registrations a cleanup performs no action
    twice: every task registered is called, whether or not tasks called
    before it threw, and a warning is logged for the ones that throw; every
    interval and every timeout registered is cleared, once, however often it
    was registered.  The manager is empty afterwards, and a second cleanup
    does nothing. *)
Theorem cleanup_acts_once (describe : nat -> string) (throws : nat -> bool)
    (rs : list registration) :
  let this := snd (registerAll describe create rs) in
  let effects := fst (cleanup throws this) in
  let after := snd (cleanup throws this) in
  NoDup effects
  /\ (forall t, In (Call t) effects <-> In (Task t) rs)
  /\ (forall t, In (Warn t) effects <-> In (Task t) rs /\ throws t = true)
  /\ (forall i, In (ClearInterval i) effects <-> In (Interval i) rs)
  /\ (forall i, In (ClearTimeout i) effects <-> In (Timeout i) rs)
  /\ after = create
  /\ fst (cleanup throws after) = [].
Proof.
  cbv zeta.
  pose proof (registerAll_consistent describe rs create [] (create_consistent describe))
    as (N1 & N2 & N3 & N4 & T & I & O & K).
  cbn [app] in *. set (this := snd (registerAll describe create rs)) in *.
  unfold cleanup. cbn [fst snd].
  assert (M : forall e,
    In e (flat_map (runTask throws) (cleanupTasks this)
          ++ map ClearInterval (intervals this)
          ++ map ClearTimeout (timeouts this)
          ++ map (fun l => RemoveEventListener (element l) (event l) (handler l))
               (Object_values (eventListeners this)))
    <-> (exists t, In t (cleanupTasks this)
                   /\ (e = Call t \/ (e = Warn t /\ throws t = true)))
        \/ (exists i, In i (intervals this) /\ e = ClearInterval i)
        \/ (exists i, In i (timeouts this) /\ e = ClearTimeout i)
        \/ (exists l, In l (Object_values (eventListeners this))
                      /\ e = RemoveEventListener (element l) (event l) (handler l))).
  { intros e. rewrite !in_app_iff, in_flat_map, !in_map_iff.
    split.
    - intros [(t & It & H)|[(i & <- & H)|[(i & <- & H)|(l & <- & H)]]]; eauto 6.
      apply in_runTask in H. eauto.
    - intros [(t & It & H)|[(i & H & ->)|[(i & H & ->)|(l & H & ->)]]]; eauto 6.
      left. exists t. split; [exact It | apply in_runTask, H]. }
  split.
  - apply NoDup_app; [apply NoDup_runTasks, N1| |].
    + apply NoDup_app;
        [apply Finite.Injective_map_NoDup_in; [intros; congruence | exact N2] | |].
      * apply NoDup_app;
          [apply Finite.Injective_map_NoDup_in; [intros; congruence | exact N3]
          | apply (NoDup_detach describe); assumption |].
        intros e H1 H2. apply in_map_iff in H1, H2.
        destruct H1 as (? & <- & _), H2 as (? & ? & _). discriminate.
      * intros e H1 H2. apply in_map_iff in H1. destruct H1 as (? & <- & _).
        apply in_app_iff in H2. destruct H2 as [H2|H2];
          apply in_map_iff in H2; destruct H2 as (? & ? & _); discriminate.
    + intros e H1 H2. apply in_flat_map in H1. destruct H1 as (t & _ & H1).
      apply in_runTask in H1. rewrite !in_app_iff, !in_map_iff in H2.
      destruct H1 as [->|[-> _]];
        destruct H2 as [(? & ? & _)|[(? & ? & _)|(? & ? & _)]]; discriminate.
  - split; [|split; [|split; [|split; [|split; reflexivity]]]].
    + intros t. rewrite M. split.
      * intros [(t' & It & [E|[E _]])|[(? & _ & E)|[(? & _ & E)|(? & _ & E)]]];
          try discriminate. injection E as <-. apply T, It.
      * intros H. left. exists t. split; [apply T, H | auto].
    + intros t. rewrite M. split.
      * intros [(t' & It & [E|[E W]])|[(? & _ & E)|[(? & _ & E)|(? & _ & E)]]];
          try discriminate. injection E as <-. split; [apply T, It | exact W].
      * intros [H W]. left. exists t. split; [apply T, H | auto].
    + intros i. rewrite M. split.
      * intros [(t' & It & [E|[E _]])|[(i' & Ii & E)|[(? & _ & E)|(? & _ & E)]]];
          try discriminate. injection E as <-. apply I, Ii.
      * intros H. right; left. exists i. split; [apply I, H | reflexivity].
    + intros i. rewrite M. split.
      * intros [(t' & It & [E|[E _]])|[(? & _ & E)|[(i' & Ii & E)|(? & _ & E)]]];
          try discriminate. injection E as <-. apply O, Ii.
      * intros H. right; right; left. exists i. split; [apply O, H | reflexivity].
Qed.

(** *** Listeners attached and detached *)

Lemma attached_app a b : attached (a ++ b) = attached a ++ attached b.
Proof. unfold attached. apply flat_map_app. Qed.

Lemma detached_app a b : detached (a ++ b) = detached a ++ detached b.
Proof. unfold detached. apply flat_map_app. Qed.

(** One registration attaches what it files and detaches what it
    replaces. *)
Lemma register_balance describe this r :
  Permutation
    (attached (fst (register describe this r)) ++ Object_values (eventListeners this))
    (detached (fst (register describe this r))
     ++ Object_values (eventListeners (snd (register describe this r)))).
Proof.
  destruct r as [t|i|i|el ev h]; try apply Permutation_refl.
  unfold register, addEventListener. cbn [fst snd eventListeners].
  rewrite attached_app, detached_app.
  destruct (get (listenerKey describe el ev) (eventListeners this)) as [old|] eqn:G.
  - cbn [attached detached flat_map app]. rewrite listener_eta.
    apply values_set_replace, G.
  - cbn [attached detached flat_map app].
    rewrite values_set_new by exact G. apply Permutation_cons_append.
Qed.

Lemma registerAll_balance describe rs :
  forall this,
    Permutation
      (attached (fst (registerAll describe this rs))
       ++ Object_values (eventListeners this))
      (detached (fst (registerAll describe this rs))
       ++ Object_values (eventListeners (snd (registerAll describe this rs)))).
Proof.
  induction rs as [|r rest IH]; intros this; [apply Permutation_refl|].
  cbn [registerAll].
  pose proof (register_balance describe this r) as B.
  destruct (register describe this r) as [e1 m1]. cbn [fst snd] in B.
  specialize (IH m1).
  destruct (registerAll describe m1 rest) as [e2 m2]. cbn [fst snd] in *.
  rewrite attached_app, detached_app, <- !app_assoc.
  eapply perm_trans; [apply Permutation_app_swap_app|].
  eapply perm_trans; [apply Permutation_app_head, B|].
  eapply perm_trans; [apply Permutation_app_swap_app|].
  apply Permutation_app_head, IH.
Qed.

(** A cleanup attaches nothing and detaches the listeners filed. *)
Lemma cleanup_detaches throws this :
  attached (fst (cleanup throws this)) = []
  /\ detached (fst (cleanup throws this)) = Object_values (eventListeners this).
Proof.
  unfold cleanup. cbn [fst].
  rewrite !attached_app, !detached_app.
  assert (A1 : attached (flat_map (runTask throws) (cleanupTasks this)) = []
               /\ detached (flat_map (runTask throws) (cleanupTasks this)) = []).
  { induction (cleanupTasks this) as [|t r [IH1 IH2]]; [split; reflexivity|].
    cbn [flat_map]. rewrite attached_app, detached_app, IH1, IH2.
    unfold runTask. destruct (throws t); split; reflexivity. }
  assert (A2 : forall l, attached (map ClearInterval l) = []
                         /\ detached (map ClearInterval l) = [])
    by (induction l as [|? ? [? ?]]; split; auto).
  assert (A3 : forall l, attached (map ClearTimeout l) = []
                         /\ detached (map ClearTimeout l) = [])
    by (induction l as [|? ? [? ?]]; split; auto).
  destruct A1 as [-> ->]. destruct (A2 (intervals this)) as [-> ->].
  destruct (A3 (timeouts this)) as [-> ->]. cbn [app].
  induction (Object_values (eventListeners this)) as [|l r [IH1 IH2]];
    [split; reflexivity|].
  cbn [map attached detached flat_map app] in *. rewrite listener_eta.
  split; [exact IH1 | f_equal; exact IH2].
Qed.

(** X22.  Over the life of a manager no listener leaks: the listeners
    detached, by the replacement of a listener filed under the same key and
    by the cleanup, are the listeners attached, each as often as it was
    attached. *)
Theorem no_listener_leaks (describe : nat -> string) (throws : nat -> bool)
    (rs : list registration) :
  let effects := fst (session describe throws rs) in
  Permutation (attached effects) (detached effects)
  /\ snd (session describe throws rs) = create.
Proof.
  cbv zeta. unfold session.
  pose proof (registerAll_balance describe rs create) as B.
  destruct (registerAll describe create rs) as [e m]. cbn [fst snd] in B.
  destruct (cleanup_detaches throws m) as [A D].
  destruct (cleanup throws m) as [c after] eqn:C. cbn [fst snd] in *.
  split; [|unfold cleanup in C; congruence].
  rewrite attached_app, detached_app, A, D, app_nil_r.
  cbn [create eventListeners Object_values map] in B. rewrite app_nil_r in B.
  exact B.
Qed.

(** X23.  The key of a listener is made of the string its element converts
    to: two elements of one description share a key.  Registering a
    listener for the second then detaches the listener of the first, for
    the same event, from the first element. *)
Theorem same_description_shares_key (describe : nat -> string) (this : manager)
    (element1 element2 : nat) (event : string) (handler1 handler2 : nat) :
  describe element1 = describe element2 ->
  let this1 := snd (addEventListener describe this element1 event handler1) in
  fst (addEventListener describe this1 element2 event handler2)
  = [RemoveEventListener element1 event handler1;
     AddEventListener element2 event handler2].
Proof.
  intros E. cbv zeta. unfold addEventListener, listenerKey.
  cbn [fst snd eventListeners]. rewrite <- E, get_set_same. reflexivity.
Qed.

Lemma same_description_shares_key_witness :
  fst (addEventListener (fun _ => "[object HTMLDivElement]"%string)
         (snd (addEventListener (fun _ => "[object HTMLDivElement]"%string)
                 create 1 "click" 10))
         2 "click" 20)
  = [RemoveEventListener 1 "click" 10; AddEventListener 2 "click" 20].
Proof.
  apply (same_description_shares_key (fun _ => "[object HTMLDivElement]"%string)
           create 1 2 "click" 10 20).
  reflexivity.
Defined.

End ManagerProperties.
